(** * WeldProfile: weld-pool physics and the material catalogue

    A shallow embedding of [welding_physics.py] (class [WeldingSimulator]) and
    [material_properties.py] (class [MaterialProperties]).

    Numbers.  The Python code computes with floats.  Every function below is
    written once, over the numeric interface [Num], and the interface has two
    instances:
    - the real numbers, the exact semantics of the formulas, over which the
      properties that quantify over all inputs are proved;
    - binary64 (the kernel's primitive floats, round to nearest even as in
      Python), which evaluates, and on which the concrete scenarios are run.

    Errors.  A Python dict lookup raises [KeyError] on a missing key and a
    division of Python floats raises [ZeroDivisionError] on a zero divisor:
    both are [None] in the [option] monad.  Divisions that NumPy performs on
    its own scalars do not raise and are total; [np.minimum], [np.maximum]
    and their reductions return a NaN operand. *)

From Stdlib Require Import ZArith QArith Floats Reals Lra List
  FunctionalExtensionality.
From stdpp Require Import base option list gmap strings.

Set Default Proof Using "Type".
Set Warnings "-inexact-float".

(** ** Numbers *)

Class Num (T : Type) := {
  add : T -> T -> T;
  sub : T -> T -> T;
  mul : T -> T -> T;
  div : T -> T -> T;
  opp : T -> T;
  ltb : T -> T -> bool;
  eqb : T -> T -> bool;
  lit : Q -> T;       (* the value of a numeric literal *)
  pi : T;             (* np.pi *)
}.

Class Elementary (T : Type) := {
  np_sqrt : T -> T;   (* np.sqrt *)
  np_exp : T -> T;    (* np.exp *)
}.

Declare Scope num_scope.
Delimit Scope num_scope with num.
Infix "+" := add : num_scope.
Infix "-" := sub : num_scope.
Infix "*" := mul : num_scope.
Infix "/" := div : num_scope.
Notation "- x" := (opp x) : num_scope.
Notation "x <? y" := (ltb x y) : num_scope.
Notation "x >? y" := (ltb y x) (only parsing) : num_scope.
Notation "x =? y" := (eqb x y) : num_scope.

(** The real numbers. *)
#[export] Instance R_Num : Num R := {|
  add := Rplus; sub := Rminus; mul := Rmult; div := Rdiv; opp := Ropp;
  ltb := fun a b => if Rlt_dec a b then true else false;
  eqb := fun a b => if Req_dec_T a b then true else false;
  lit := Q2R;
  pi := PI;
|}.

#[export] Instance R_Elementary : Elementary R := {|
  np_sqrt := sqrt; np_exp := exp;
|}.

(** binary64.  An integer below 2^53 converts exactly and the division is
    correctly rounded, so [lit] at n/d is the float nearest to n/d: the value
    Python gives the decimal literal. *)
Definition float_of_Z (z : Z) : float :=
  match z with
  | Z0 => PrimFloat.zero
  | Zpos p => PrimFloat.of_uint63 (Uint63.of_Z (Zpos p))
  | Zneg p => PrimFloat.opp (PrimFloat.of_uint63 (Uint63.of_Z (Zpos p)))
  end.

#[export] Instance float_Num : Num float := {|
  add := PrimFloat.add; sub := PrimFloat.sub; mul := PrimFloat.mul;
  div := PrimFloat.div; opp := PrimFloat.opp;
  ltb := PrimFloat.ltb; eqb := PrimFloat.eqb;
  lit := fun q => PrimFloat.div (float_of_Z (Qnum q)) (float_of_Z (Zpos (Qden q)));
  pi := 0x1.921fb54442d18p+1%float;
|}.

(** binary64 has [np.sqrt], the correctly rounded square root, but no
    exponential to compute with: [np.exp] is a parameter of the instance. *)
Definition binary64_Elementary (e : float -> float) : Elementary float :=
  {| np_sqrt := PrimFloat.sqrt; np_exp := e |}.

(** ** Python's arithmetic and built-ins *)

Section Python.
Context {T : Type} `{Num T}.
Local Open Scope num_scope.

(** [x / y] on Python floats. *)
Definition pydiv (x y : T) : option T :=
  if y =? lit 0 then None else Some (x / y).

(** [min(a, b)]: the first argument unless the second is smaller. *)
Definition pymin (a b : T) : T := if b <? a then b else a.

(** [max(a, b)]: the first argument unless the second is greater. *)
Definition pymax (a b : T) : T := if a <? b then b else a.


(** [np.isnan(a)]: a NaN is the one number that is not equal to itself. *)
Definition np_isnan (a : T) : bool := negb (a =? a).

(** [np.minimum(a, b)] and [np.maximum(a, b)]: [a] when [a <= b]
    (respectively [a >= b]) or [a] is a NaN, else [b]; so a NaN operand is
    the result, the first one when both are. *)
Definition np_minimum (a b : T) : T :=
  if np_isnan a then a else if np_isnan b then b
  else if b <? a then b else a.
Definition np_maximum (a b : T) : T :=
  if np_isnan a then a else if np_isnan b then b
  else if a <? b then b else a.

(** [np.linspace(start, stop, num)] for [num > 1], as in both calls:
    [i * step + start] with [step = (stop - start) / (num - 1)], the last
    point set to [stop]. *)
Definition linspace (start stop : T) (num : nat) : list T :=
  let step := (stop - start) / lit (inject_Z (Z.of_nat (num - 1))) in
  map (fun i : nat =>
         if Nat.eqb (S i) num then stop
         else lit (inject_Z (Z.of_nat i)) * step + start)
      (seq 0 num).
End Python.

Infix "/?" := pydiv (at level 40, left associativity) : num_scope.

(** ** material_properties.py *)

Module MaterialProperties.
Section Defs.
Context {T : Type} `{Num T}.
Local Open Scope num_scope.

(** The dict literal of [get_properties], lines 23-83: material name to
    property dict.  The four inner dicts are named here. *)
Definition Steel : gmap string T :=
  list_to_map [
    ("thermal_conductivity", lit 50.0);
    ("density", lit 7800.0);
    ("specific_heat_solid", lit 726000.0);
    ("specific_heat_liquid", lit 732000.0);
    ("solidus_temp", lit 1768.0);
    ("liquidus_temp", lit 1798.0);
    ("latent_heat", lit 2.77e5);
    ("permeability", lit 1.26e-6);
    ("surface_tension", lit 1.8);
    ("arc_efficiency_gtaw", lit 0.7);
    ("arc_efficiency_gmaw", lit 0.56);
    ("droplet_efficiency_gmaw", lit 0.24)].

Definition Aluminum : gmap string T :=
  list_to_map [
    ("thermal_conductivity", lit 237.0);
    ("density", lit 2700.0);
    ("specific_heat_solid", lit 903000.0);
    ("specific_heat_liquid", lit 1080000.0);
    ("solidus_temp", lit 933.0);
    ("liquidus_temp", lit 943.0);
    ("latent_heat", lit 3.97e5);
    ("permeability", lit 1.26e-6);
    ("surface_tension", lit 0.9);
    ("arc_efficiency_gtaw", lit 0.65);
    ("arc_efficiency_gmaw", lit 0.50);
    ("droplet_efficiency_gmaw", lit 0.20)].

Definition Stainless_Steel : gmap string T :=
  list_to_map [
    ("thermal_conductivity", lit 16.0);
    ("density", lit 8000.0);
    ("specific_heat_solid", lit 500000.0);
    ("specific_heat_liquid", lit 520000.0);
    ("solidus_temp", lit 1673.0);
    ("liquidus_temp", lit 1723.0);
    ("latent_heat", lit 2.60e5);
    ("permeability", lit 1.26e-6);
    ("surface_tension", lit 1.6);
    ("arc_efficiency_gtaw", lit 0.68);
    ("arc_efficiency_gmaw", lit 0.54);
    ("droplet_efficiency_gmaw", lit 0.22)].

Definition Titanium : gmap string T :=
  list_to_map [
    ("thermal_conductivity", lit 22.0);
    ("density", lit 4500.0);
    ("specific_heat_solid", lit 520000.0);
    ("specific_heat_liquid", lit 610000.0);
    ("solidus_temp", lit 1933.0);
    ("liquidus_temp", lit 1943.0);
    ("latent_heat", lit 4.20e5);
    ("permeability", lit 1.26e-6);
    ("surface_tension", lit 1.5);
    ("arc_efficiency_gtaw", lit 0.72);
    ("arc_efficiency_gmaw", lit 0.58);
    ("droplet_efficiency_gmaw", lit 0.26)].

Definition properties_db : gmap string (gmap string T) :=
  list_to_map [
    ("Steel", Steel);
    ("Aluminum", Aluminum);
    ("Stainless Steel", Stainless_Steel);
    ("Titanium", Titanium)].

(** [get_properties(material_type)]: a name that is not a key of the
    database is replaced by "Steel" before the lookup. *)
Definition get_properties (material_type : string) : option (gmap string T) :=
  let material_type :=
    if decide (material_type ∉ dom properties_db) then "Steel"
    else material_type in
  properties_db !! material_type.

Definition get_available_materials : list string :=
  ["Steel"; "Aluminum"; "Stainless Steel"; "Titanium"].

(** [get_thermal_diffusivity(material_type)] *)
Definition get_thermal_diffusivity (material_type : string) : option T :=
  props ← get_properties material_type;
  k ← props !! "thermal_conductivity";
  rho ← props !! "density";
  cp ← props !! "specific_heat_solid";
  k /? (rho * cp).

(** Lines 139-147: the factor before the bounds of line 150.  The branch is
    chosen by the name as given, also when [get_properties] has replaced it
    by "Steel". *)
Definition k_factor_raw (material_type : string) (props : gmap string T)
    (temperature : T) : option T :=
  if bool_decide (material_type ∈ ["Steel"; "Stainless Steel"]) then
    liquidus_temp ← props !! "liquidus_temp";
    slope ← (lit 0.3 * (temperature - lit 298)) /? (liquidus_temp - lit 298);
    Some (lit 1.0 - slope)
  else if String.eqb material_type "Aluminum" then
    liquidus_temp ← props !! "liquidus_temp";
    slope ← (lit 0.2 * (temperature - lit 298)) /? (liquidus_temp - lit 298);
    Some (lit 1.0 - slope)
  else
    liquidus_temp ← props !! "liquidus_temp";
    slope ← (lit 0.15 * (temperature - lit 298)) /? (liquidus_temp - lit 298);
    Some (lit 1.0 - slope).

(** [get_thermal_conductivity_temperature_dependent(material_type,
    temperature)] *)
Definition get_thermal_conductivity_temperature_dependent
    (material_type : string) (temperature : T) : option T :=
  props ← get_properties material_type;
  k_room ← props !! "thermal_conductivity";
  k_factor ← k_factor_raw material_type props temperature;
  let k_factor := pymax (lit 0.3) (pymin (lit 1.0) k_factor) in
  Some (k_room * k_factor).
End Defs.

(** A row of the table of [get_material_comparison_table]: the dict appended
    to [comparison_data], its seven keys in order. *)
Record ComparisonRow (T : Type) := {
  Material : string;
  Thermal_Conductivity : T;       (* W/m·K *)
  Density : T;                    (* kg/m³ *)
  Melting_Point : T;              (* °C *)
  Thermal_Diffusivity : T;        (* mm²/s *)
  GTAW_Efficiency : T;
  GMAW_Efficiency : T;
}.
Arguments Material {T}. Arguments Thermal_Conductivity {T}.
Arguments Density {T}. Arguments Melting_Point {T}.
Arguments Thermal_Diffusivity {T}. Arguments GTAW_Efficiency {T}.
Arguments GMAW_Efficiency {T}.

Section Table.
Context {T : Type} `{Num T}.
Local Open Scope num_scope.

(** Lines 167-179: the body of the loop over the materials. *)
Definition comparison_row (material : string) : option (ComparisonRow T) :=
  props ← get_properties material;
  alpha ← get_thermal_diffusivity material;
  k ← props !! "thermal_conductivity";
  rho ← props !! "density";
  liquidus_temp ← props !! "liquidus_temp";
  gtaw ← props !! "arc_efficiency_gtaw";
  gmaw ← props !! "arc_efficiency_gmaw";
  Some {| Material := material;
          Thermal_Conductivity := k;
          Density := rho;
          Melting_Point := liquidus_temp - lit 273.15;
          Thermal_Diffusivity := alpha * lit 1e6;
          GTAW_Efficiency := gtaw;
          GMAW_Efficiency := gmaw |}.

(** [get_material_comparison_table()]: the rows the DataFrame is built
    from, one per available material. *)
Definition get_material_comparison_table : option (list (ComparisonRow T)) :=
  let materials := get_available_materials in
  mapM comparison_row materials.
End Table.

(** The twelve keys of a property dict. *)
Definition property_names : list string :=
  ["thermal_conductivity"; "density"; "specific_heat_solid";
   "specific_heat_liquid"; "solidus_temp"; "liquidus_temp"; "latent_heat";
   "permeability"; "surface_tension"; "arc_efficiency_gtaw";
   "arc_efficiency_gmaw"; "droplet_efficiency_gmaw"].
End MaterialProperties.

(** ** welding_physics.py *)

Module WeldingSimulator.

(** The dict returned by [calculate_weld_pool_geometry]. *)
Record WeldPoolGeometry (T : Type) := {
  width : T;
  length : T;
  penetration : T;
  aspect_ratio : T;
  dilution_ratio : T;
  volume : T;
  heat_input : T;
  characteristic_length : T;
}.
Arguments width {T}. Arguments length {T}. Arguments penetration {T}.
Arguments aspect_ratio {T}. Arguments dilution_ratio {T}.
Arguments volume {T}. Arguments heat_input {T}.
Arguments characteristic_length {T}.

(** The dict returned by [calculate_temperature_distribution]. *)
Record TemperatureField (T : Type) := {
  x : list T;
  y : list T;
  X : list (list T);
  Y : list (list T);
  temperature : list (list T);
  max_temp : T;
  min_temp : T;
}.
Arguments x {T}. Arguments y {T}. Arguments X {T}. Arguments Y {T}.
Arguments temperature {T}. Arguments max_temp {T}. Arguments min_temp {T}.

(** An entry of the list returned by [sensitivity_analysis]. *)
Record SensitivityResult (T : Type) := {
  parameter : string;
  width_sensitivity : T;
  penetration_sensitivity : T;
  base_value : T;
}.
Arguments parameter {T}. Arguments width_sensitivity {T}.
Arguments penetration_sensitivity {T}. Arguments base_value {T}.

Section Defs.
Context {T : Type} `{Num T}.
Local Open Scope num_scope.

Definition calculate_heat_input
    (current voltage travel_speed arc_efficiency : T) : option T :=
  let travel_speed_mm_min := travel_speed * lit 60 in
  heat_input ← (arc_efficiency * voltage * current * lit 60) /? travel_speed_mm_min;
  Some heat_input.

(** Line 68: the width before the clamp of line 83, from [l_c] in metres. *)
Definition raw_width (l_c : T) : T := lit 2.5 * l_c * lit 1000.

(** Lines 75-79: the penetration before the clamp of line 82. *)
Definition raw_penetration (l_c plate_thickness : T) : T :=
  if plate_thickness >? lit 3 * raw_width l_c then
    lit 0.8 * l_c * lit 1000
  else
    pymin (lit 0.6 * l_c * lit 1000) (plate_thickness * lit 0.9).

(** Line 64: the characteristic thermal length (m). *)
Definition char_length (heat_input k T_m : T) : option T :=
  let T_0 := lit 298 in
  let q := heat_input * lit 1000 in
  let delta_T := T_m - T_0 in
  q /? (lit 2 * pi * k * delta_T).

Definition calculate_weld_pool_geometry
    (heat_input : T) (material_props : gmap string T) (plate_thickness : T)
    : option (WeldPoolGeometry T) :=
  k ← material_props !! "thermal_conductivity";
  rho ← material_props !! "density";
  cp ← material_props !! "specific_heat_solid";
  T_m ← material_props !! "liquidus_temp";
  alpha ← k /? (rho * cp);
  l_c ← char_length heat_input k T_m;
  let width := raw_width l_c in
  let length := lit 3.2 * width in
  let penetration := raw_penetration l_c plate_thickness in
  let penetration := pymin penetration plate_thickness in
  let width := pymin width (plate_thickness * lit 2) in
  aspect_ratio ← length /? width;
  dilution_ratio ← penetration /? (penetration + lit 3.0);
  let volume := (pi / lit 6) * width * length * penetration in
  Some {| width := width;
          length := length;
          penetration := penetration;
          aspect_ratio := aspect_ratio;
          dilution_ratio := dilution_ratio;
          volume := volume;
          heat_input := heat_input;
          characteristic_length := l_c * lit 1000 |}.

(** [np.meshgrid(x, y)] with the default indexing: row [i] of the first
    matrix is [x], row [i] of the second repeats [y[i]]. *)
Definition meshgrid (xs ys : list T) : list (list T) * list (list T) :=
  (map (fun _ => xs) ys, map (fun y => map (fun _ => y) xs) ys).

(** [np.max] and [np.min] of a flattened array, the reductions of
    [np.maximum] and [np.minimum]: a NaN entry makes the result NaN; an
    empty array raises. *)
Definition np_max (l : list T) : option T :=
  match l with [] => None | a :: l' => Some (foldl np_maximum a l') end.
Definition np_min (l : list T) : option T :=
  match l with [] => None | a :: l' => Some (foldl np_minimum a l') end.

Context `{Elementary T}.

(** Lines 143-153: the body of the double loop, the value stored in
    [T[i, j]] for the point [(x, y)] in metres.  The division of the first
    branch is NumPy's (by the [np.float64] [R]); the division of the second
    is Python's. *)
Definition temperature_at (q v alpha k T_0 x y : T) : option T :=
  let r := np_sqrt (x * x + y * y) in
  if r >? lit 0 then
    let R := np_sqrt (x * x + y * y) in
    let exponential_term := np_exp (- v * (R - x) / (lit 2 * alpha)) in
    Some (T_0 + (q / (lit 2 * pi * k * R)) * exponential_term)
  else
    t ← q /? (lit 4 * pi * k * lit 0.001);
    Some (T_0 + t).

Definition calculate_temperature_distribution
    (heat_input : T) (material_props : gmap string T) (travel_speed : T)
    : option (TemperatureField T) :=
  k ← material_props !! "thermal_conductivity";
  rho ← material_props !! "density";
  cp ← material_props !! "specific_heat_solid";
  let T_0 := lit 298 in
  alpha ← k /? (rho * cp);
  let q := heat_input * lit 1000 in
  let v := travel_speed / lit 1000 in
  let x_mm := linspace (lit (-20)) (lit 40) 61 in
  let y_mm := linspace (lit (-15)) (lit 15) 31 in
  let '(X_mm, Y_mm) := meshgrid x_mm y_mm in
  let X := map (map (fun a => a / lit 1000)) X_mm in
  let Y := map (map (fun a => a / lit 1000)) Y_mm in
  T ← mapM (fun '(X_i, Y_i) =>
              mapM (fun '(x, y) => temperature_at q v alpha k T_0 x y)
                   (zip X_i Y_i))
           (zip X Y);
  let T := map (map (fun t => np_minimum t (lit 3500))) T in
  max_temp ← np_max (concat T);
  min_temp ← np_min (concat T);
  Some {| x := x_mm; y := y_mm; X := X_mm; Y := Y_mm;
          temperature := T; max_temp := max_temp; min_temp := min_temp |}.
End Defs.

Section Sensitivity.
Context {T : Type} `{Num T}.
Local Open Scope num_scope.

(** Lines 197-224: the heat inputs with one parameter scaled by
    [1 + variation] and by [1 - variation]. *)
Definition perturbed_heat_inputs
    (param_name : string) (base_value variation : T)
    (base_current base_voltage base_speed arc_efficiency : T)
    : option (T * T) :=
  if String.eqb param_name "current" then
    heat_input_high ← calculate_heat_input
      (base_value * (lit 1 + variation)) base_voltage base_speed arc_efficiency;
    heat_input_low ← calculate_heat_input
      (base_value * (lit 1 - variation)) base_voltage base_speed arc_efficiency;
    Some (heat_input_high, heat_input_low)
  else if String.eqb param_name "voltage" then
    heat_input_high ← calculate_heat_input
      base_current (base_value * (lit 1 + variation)) base_speed arc_efficiency;
    heat_input_low ← calculate_heat_input
      base_current (base_value * (lit 1 - variation)) base_speed arc_efficiency;
    Some (heat_input_high, heat_input_low)
  else if String.eqb param_name "travel_speed" then
    heat_input_high ← calculate_heat_input
      base_current base_voltage (base_value * (lit 1 + variation)) arc_efficiency;
    heat_input_low ← calculate_heat_input
      base_current base_voltage (base_value * (lit 1 - variation)) arc_efficiency;
    Some (heat_input_high, heat_input_low)
  else
    heat_input_high ← calculate_heat_input
      base_current base_voltage base_speed (base_value * (lit 1 + variation));
    heat_input_low ← calculate_heat_input
      base_current base_voltage base_speed (base_value * (lit 1 - variation));
    Some (heat_input_high, heat_input_low).

(** Lines 195-250: the body of the loop over the parameters, the record
    appended for one [(param_name, base_value)]. *)
Definition sensitivity_entry
    (base_current base_voltage base_speed arc_efficiency : T)
    (material_props : gmap string T) (plate_thickness : T)
    (base_pool : WeldPoolGeometry T) (variation : T)
    (param : string * T) : option (SensitivityResult T) :=
  let '(param_name, base_value) := param in
  '(heat_input_high, heat_input_low) ← perturbed_heat_inputs
    param_name base_value variation
    base_current base_voltage base_speed arc_efficiency;
  pool_high ← calculate_weld_pool_geometry
    heat_input_high material_props plate_thickness;
  pool_low ← calculate_weld_pool_geometry
    heat_input_low material_props plate_thickness;
  dw ← (width pool_high - width pool_low) /? (lit 2 * variation * base_value);
  rw ← base_value /? width base_pool;
  let width_sensitivity := dw * rw in
  dp ← (penetration pool_high - penetration pool_low)
         /? (lit 2 * variation * base_value);
  rp ← base_value /? penetration base_pool;
  let penetration_sensitivity := dp * rp in
  Some {| parameter := param_name;
          width_sensitivity := width_sensitivity;
          penetration_sensitivity := penetration_sensitivity;
          base_value := base_value |}.

Definition sensitivity_analysis
    (base_current base_voltage base_speed arc_efficiency : T)
    (material_props : gmap string T) (plate_thickness : T)
    : option (list (SensitivityResult T)) :=
  base_heat_input ← calculate_heat_input
    base_current base_voltage base_speed arc_efficiency;
  base_pool ← calculate_weld_pool_geometry
    base_heat_input material_props plate_thickness;
  let variation := lit 0.1 in
  let parameters := [
    ("current", base_current);
    ("voltage", base_voltage);
    ("travel_speed", base_speed);
    ("arc_efficiency", arc_efficiency)] in
  mapM (sensitivity_entry base_current base_voltage base_speed arc_efficiency
          material_props plate_thickness base_pool variation)
       parameters.
End Sensitivity.
End WeldingSimulator.

(** ** visualization.py

    The figures are Plotly objects; what is embedded is the data computed
    for them. *)

Module WeldingVisualizer.
Section Defs.
Context {T : Type} `{Num T}.
Local Open Scope num_scope.

(** [plot_temperature_profile], lines 223-224: the series drawn against
    [temp_field['x']].  A row index out of range raises [IndexError]. *)
Definition centerline_temp (temp_field : WeldingSimulator.TemperatureField T)
    : option (list T) :=
  let center_idx := (List.length (WeldingSimulator.y temp_field) / 2)%nat in
  WeldingSimulator.temperature temp_field !! center_idx.

(** [plot_weld_pool_cross_section], lines 23-31: the arrays [y] and
    [x_bottom] of the parabolic pool boundary (NumPy arithmetic). *)
Definition pool_profile (weld_pool_data : WeldingSimulator.WeldPoolGeometry T)
    : list T * list T :=
  let width := WeldingSimulator.width weld_pool_data in
  let penetration := WeldingSimulator.penetration weld_pool_data in
  let y := linspace (- width / lit 2) (width / lit 2) 100 in
  let x_bottom :=
    map (fun yv => - penetration
                   * (lit 1 - (lit 2 * yv / width) * (lit 2 * yv / width))) y in
  (y, x_bottom).

Context `{Elementary T}.

End Defs.
End WeldingVisualizer.

(** ** Preconditions of the physics engine *)

Definition positive_at (m : gmap string R) (key : string) : Prop :=
  exists v : R, m !! key = Some v /\ (0 < v)%R.

(** What the temperature field needs of a material record: positive
    conductivity, density and solid specific heat. *)
Definition conductive_material (m : gmap string R) : Prop :=
  positive_at m "thermal_conductivity" /\
  positive_at m "density" /\
  positive_at m "specific_heat_solid".

(** A material record the engine accepts: conductive, with a liquidus above
    room temperature (298 K). *)
Definition valid_material (m : gmap string R) : Prop :=
  conductive_material m /\
  exists T_m : R, m !! "liquidus_temp" = Some T_m /\ (298 < T_m)%R.

(** The value the loop body stores when it does not raise. *)
Definition temperature_value {T : Type} `{Num T} `{Elementary T}
    (q v alpha k T_0 x y : T) : T :=
  default T_0 (WeldingSimulator.temperature_at q v alpha k T_0 x y).

(** Entry [i, j] of a matrix stored as a list of rows. *)
Definition entry {A : Type} (M : list (list A)) (i j : nat) : option A :=
  row ← M !! i; row !! j.

(** The characteristic length [l_c] that [calculate_weld_pool_geometry]
    computes from its inputs (lines 50-64); the widths and penetrations
    before the clamps are [raw_width] and [raw_penetration] of it. *)
Definition pool_char_length {T : Type} `{Num T}
    (heat_input : T) (material_props : gmap string T) : option T :=
  k ← material_props !! "thermal_conductivity";
  T_m ← material_props !! "liquidus_temp";
  WeldingSimulator.char_length heat_input k T_m.

(** The six thermal fields of a property dict. *)
Definition has_fields {T : Type} (m : gmap string T)
    (k rho c_s c_l T_s T_l : T) : Prop :=
  m !! "thermal_conductivity" = Some k /\
  m !! "density" = Some rho /\
  m !! "specific_heat_solid" = Some c_s /\
  m !! "specific_heat_liquid" = Some c_l /\
  m !! "solidus_temp" = Some T_s /\
  m !! "liquidus_temp" = Some T_l.

(** * Facts *)

(** ** The real instance *)

Lemma Q2R_int (n : Z) : Q2R (n # 1) = IZR n.
Proof. unfold Q2R. cbn. lra. Qed.

(** Unfold the interface at the real instance; integer literals become
    integers of [R]. *)
Ltac real_ops :=
  cbn [add sub mul div opp lit pi np_sqrt np_exp R_Num R_Elementary];
  rewrite ?Q2R_int.

Section RealNum.
Local Open Scope R_scope.

(** Comparing a quotient with a positive divisor. *)
Lemma div_lt_upper (a b c : R) : 0 < b -> a < c * b -> a / b < c.
Proof.
  intros Hb Hab. apply (Rmult_lt_reg_r b); [exact Hb |].
  replace (a / b * b) with a by (field; lra). exact Hab.
Qed.

Lemma div_lt_lower (a b c : R) : 0 < b -> c * b < a -> c < a / b.
Proof.
  intros Hb Hab. apply (Rmult_lt_reg_r b); [exact Hb |].
  replace (a / b * b) with a by (field; lra). exact Hab.
Qed.

Lemma div_le_lower (a b c : R) : 0 < b -> c * b <= a -> c <= a / b.
Proof.
  intros Hb Hab. apply (Rmult_le_reg_r b); [exact Hb |].
  replace (a / b * b) with a by (field; lra). exact Hab.
Qed.

Lemma div_le_upper (a b c : R) : 0 < b -> a <= c * b -> a / b <= c.
Proof.
  intros Hb Hab. apply (Rmult_le_reg_r b); [exact Hb |].
  replace (a / b * b) with a by (field; lra). exact Hab.
Qed.

Lemma ltb_R_true (a b : R) : a < b -> ltb a b = true.
Proof. intros Hab. cbn. destruct (Rlt_dec a b); [reflexivity | contradiction]. Qed.

Lemma ltb_R_false (a b : R) : b <= a -> ltb a b = false.
Proof. intros Hab. cbn. destruct (Rlt_dec a b); [lra | reflexivity]. Qed.

Lemma pydiv_R (a b : R) : b <> 0 -> pydiv a b = Some (a / b).
Proof.
  intros Hb. unfold pydiv. cbn [eqb lit R_Num]. rewrite Q2R_int.
  destruct (Req_dec_T b 0) as [E | _]; [contradiction | reflexivity].
Qed.

Lemma pydiv_R_zero (a : R) : pydiv a 0 = None.
Proof.
  unfold pydiv. cbn [eqb lit R_Num]. rewrite Q2R_int.
  destruct (Req_dec_T 0 0) as [_ | N]; [reflexivity | contradiction].
Qed.

Lemma pymin_R (a b : R) : pymin a b = Rmin a b.
Proof.
  unfold pymin, Rmin. cbn.
  destruct (Rlt_dec b a), (Rle_dec a b); try reflexivity; lra.
Qed.

(** No real number is a NaN. *)
Lemma np_isnan_R (a : R) : np_isnan a = false.
Proof.
  unfold np_isnan. cbn [eqb R_Num].
  destruct (Req_dec_T a a) as [_ | Hne]; [reflexivity | contradiction].
Qed.

Lemma np_minimum_R (a b : R) : np_minimum a b = Rmin a b.
Proof.
  unfold np_minimum, Rmin. rewrite !np_isnan_R. cbn [ltb R_Num].
  destruct (Rlt_dec b a), (Rle_dec a b); try reflexivity; lra.
Qed.

Lemma np_maximum_R (a b : R) : np_maximum a b = Rmax a b.
Proof.
  unfold np_maximum, Rmax. rewrite !np_isnan_R. cbn [ltb R_Num].
  destruct (Rlt_dec a b), (Rle_dec a b); try reflexivity; lra.
Qed.
End RealNum.

(** ** Heat input *)

Section HeatInput.
Import WeldingSimulator.
Local Open Scope R_scope.

(** The value [calculate_heat_input] returns, as the source computes it. *)
Lemma calculate_heat_input_R (current voltage travel_speed arc_efficiency : R) :
  travel_speed <> 0 ->
  calculate_heat_input current voltage travel_speed arc_efficiency
  = Some (arc_efficiency * voltage * current * 60 / (travel_speed * 60)).
Proof.
  intros Hv. unfold calculate_heat_input.
  rewrite pydiv_R by (real_ops; lra).
  real_ops. reflexivity.
Qed.

(** A zero travel speed raises [ZeroDivisionError]. *)
Lemma calculate_heat_input_zero_speed (current voltage arc_efficiency : R) :
  calculate_heat_input current voltage 0 arc_efficiency = None.
Proof.
  unfold calculate_heat_input.
  replace (mul 0 (lit 60)) with 0 by (real_ops; lra).
  rewrite pydiv_R_zero. reflexivity.
Qed.
End HeatInput.

(** ** Weld pool geometry *)

Section Geometry.
Import WeldingSimulator.
Local Open Scope R_scope.

Lemma char_length_R (h k T_m : R) :
  0 < k -> 298 < T_m ->
  char_length h k T_m = Some (h * 1000 / (2 * PI * k * (T_m - 298))).
Proof.
  intros Hk HT. unfold char_length.
  assert (Hpi := PI_RGT_0).
  rewrite pydiv_R; real_ops; [reflexivity |].
  apply Rgt_not_eq.
  apply Rmult_lt_0_compat; [| lra].
  apply Rmult_lt_0_compat; [| lra].
  apply Rmult_lt_0_compat; lra.
Qed.

Lemma char_length_pos (h k T_m l_c : R) :
  0 < h -> 0 < k -> 298 < T_m ->
  char_length h k T_m = Some l_c -> 0 < l_c.
Proof.
  intros Hh Hk HT. rewrite char_length_R by assumption.
  intros [= <-]. assert (Hpi := PI_RGT_0).
  apply Rdiv_lt_0_compat; [lra |].
  apply Rmult_lt_0_compat; [| lra].
  apply Rmult_lt_0_compat; [| lra].
  lra.
Qed.

Lemma raw_width_R (l_c : R) : raw_width l_c = 2.5 * l_c * 1000.
Proof. unfold raw_width. real_ops. reflexivity. Qed.

Lemma raw_penetration_R (l_c pt : R) :
  raw_penetration l_c pt
  = if Rlt_dec (3 * raw_width l_c) pt then 0.8 * l_c * 1000
    else Rmin (0.6 * l_c * 1000) (pt * 0.9).
Proof.
  unfold raw_penetration. rewrite pymin_R. cbn [ltb R_Num]. real_ops.
  destruct (Rlt_dec _ _); reflexivity.
Qed.

(** Under the preconditions the raw penetration is positive and stays
    below the plate thickness, in both conduction regimes. *)
Lemma raw_penetration_bounds (l_c pt : R) :
  0 < l_c -> 0 < pt -> 0 < raw_penetration l_c pt < pt.
Proof.
  intros Hl Hp. rewrite raw_penetration_R, raw_width_R.
  destruct (Rlt_dec _ _) as [Hthick | Hthin].
  - lra.
  - unfold Rmin. destruct (Rle_dec _ _); lra.
Qed.

(** What [calculate_weld_pool_geometry] returns on a valid input, field by
    field. *)
Lemma calculate_weld_pool_geometry_R (h : R) (m : gmap string R) (pt : R) :
  0 < h -> valid_material m -> 0 < pt ->
  exists l_c : R,
    pool_char_length h m = Some l_c /\ 0 < l_c /\
    calculate_weld_pool_geometry h m pt
    = Some (let w := Rmin (raw_width l_c) (pt * 2) in
            let l := 3.2 * raw_width l_c in
            let p := Rmin (raw_penetration l_c pt) pt in
            {| width := w; length := l; penetration := p;
               aspect_ratio := l / w;
               dilution_ratio := p / (p + 3.0);
               volume := PI / 6 * w * l * p;
               heat_input := h;
               characteristic_length := l_c * 1000 |}).
Proof.
  intros Hh ((Hk & Hrho & Hcp) & T_m & HTm & HT) Hp.
  destruct Hk as (k & Ek & Hk), Hrho as (rho & Erho & Hrho),
           Hcp as (cp & Ecp & Hcp).
  destruct (char_length h k T_m) as [l_c |] eqn:El;
    [| rewrite char_length_R in El by assumption; discriminate].
  assert (Hl : 0 < l_c) by exact (char_length_pos h k T_m l_c Hh Hk HT El).
  exists l_c. split; [| split; [assumption |]].
  { unfold pool_char_length. rewrite Ek, HTm. cbn. exact El. }
  unfold calculate_weld_pool_geometry.
  rewrite Ek, Erho, Ecp, HTm. cbn [mbind option_bind].
  rewrite pydiv_R by (real_ops; apply Rgt_not_eq, Rmult_lt_0_compat; lra).
  cbn [mbind option_bind]. rewrite El. cbn [mbind option_bind].
  rewrite !pymin_R. real_ops.
  assert (Hrw : 0 < raw_width l_c) by (rewrite raw_width_R; lra).
  assert (Hrp := raw_penetration_bounds l_c pt Hl Hp).
  assert (Hw : 0 < Rmin (raw_width l_c) (pt * 2)) by (apply Rmin_glb_lt; lra).
  assert (Hpen : 0 < Rmin (raw_penetration l_c pt) pt)
    by (apply Rmin_glb_lt; lra).
  rewrite (pydiv_R _ (Rmin (raw_width l_c) _)) by (apply Rgt_not_eq; exact Hw).
  cbn [mbind option_bind].
  rewrite pydiv_R by (apply Rgt_not_eq; lra).
  reflexivity.
Qed.
End Geometry.

(** ** The material catalogue *)

Section Catalogue.
Import MaterialProperties.
Context {T : Type} `{Num T}.

Lemma dom_properties_db :
  dom (properties_db (T:=T)) = list_to_set get_available_materials.
Proof. unfold properties_db. rewrite dom_list_to_map_L. reflexivity. Qed.

Lemma Steel_in_db : "Steel" ∈ dom (properties_db (T:=T)).
Proof. rewrite dom_properties_db. cbn. set_solver. Qed.

(** A name of the catalogue is looked up as it is, any other as "Steel". *)
Lemma get_properties_known (s : string) :
  s ∈ get_available_materials -> get_properties (T:=T) s = properties_db !! s.
Proof.
  intros Hs. unfold get_properties.
  destruct (decide (s ∉ dom properties_db)) as [Hn | _]; [| reflexivity].
  exfalso. apply Hn. rewrite dom_properties_db. set_solver.
Qed.

Lemma get_properties_unknown (s : string) :
  s ∉ get_available_materials ->
  get_properties (T:=T) s = properties_db !! "Steel".
Proof.
  intros Hs. unfold get_properties.
  destruct (decide (s ∉ dom properties_db)) as [_ | Hn]; [reflexivity |].
  exfalso. apply Hn. rewrite dom_properties_db. set_solver.
Qed.

Lemma properties_db_lookup :
  properties_db (T:=T) !! "Steel" = Some Steel /\
  properties_db (T:=T) !! "Aluminum" = Some Aluminum /\
  properties_db (T:=T) !! "Stainless Steel" = Some Stainless_Steel /\
  properties_db (T:=T) !! "Titanium" = Some Titanium.
Proof. repeat split; reflexivity. Qed.

Lemma Steel_fields :
  dom (Steel (T:=T)) = list_to_set property_names /\
  has_fields Steel (lit 50.0) (lit 7800.0) (lit 726000.0) (lit 732000.0)
                   (lit 1768.0) (lit 1798.0).
Proof.
  split; [unfold Steel; rewrite dom_list_to_map_L; reflexivity |].
  repeat split; reflexivity.
Qed.

Lemma Aluminum_fields :
  dom (Aluminum (T:=T)) = list_to_set property_names /\
  has_fields Aluminum (lit 237.0) (lit 2700.0) (lit 903000.0)
                      (lit 1080000.0) (lit 933.0) (lit 943.0).
Proof.
  split; [unfold Aluminum; rewrite dom_list_to_map_L; reflexivity |].
  repeat split; reflexivity.
Qed.

Lemma Stainless_Steel_fields :
  dom (Stainless_Steel (T:=T)) = list_to_set property_names /\
  has_fields Stainless_Steel (lit 16.0) (lit 8000.0) (lit 500000.0)
                             (lit 520000.0) (lit 1673.0) (lit 1723.0).
Proof.
  split; [unfold Stainless_Steel; rewrite dom_list_to_map_L; reflexivity |].
  repeat split; reflexivity.
Qed.

Lemma Titanium_fields :
  dom (Titanium (T:=T)) = list_to_set property_names /\
  has_fields Titanium (lit 22.0) (lit 4500.0) (lit 520000.0) (lit 610000.0)
                      (lit 1933.0) (lit 1943.0).
Proof.
  split; [unfold Titanium; rewrite dom_list_to_map_L; reflexivity |].
  repeat split; reflexivity.
Qed.

(** Whatever the name, the lookup returns one of the four records. *)
Lemma get_properties_cases (s : string) :
  get_properties (T:=T) s = Some Steel \/
  get_properties (T:=T) s = Some Aluminum \/
  get_properties (T:=T) s = Some Stainless_Steel \/
  get_properties (T:=T) s = Some Titanium.
Proof.
  destruct properties_db_lookup as (E1 & E2 & E3 & E4).
  destruct (decide (s ∈ get_available_materials)) as [Hin | Hout].
  - rewrite (get_properties_known s Hin).
    unfold get_available_materials in Hin.
    repeat (apply elem_of_cons in Hin as [-> | Hin]; [tauto |]).
    inversion Hin.
  - rewrite (get_properties_unknown s Hout). tauto.
Qed.
End Catalogue.

(** The catalogue over the reals: every record is a valid material. *)

Section CatalogueReal.
Import MaterialProperties.
Local Open Scope R_scope.

Lemma has_fields_valid (m : gmap string R) (k rho c_s c_l T_s T_l : R) :
  has_fields m k rho c_s c_l T_s T_l ->
  0 < k -> 0 < rho -> 0 < c_s -> 298 < T_l -> valid_material m.
Proof.
  intros (Ek & Erho & Ecs & _ & _ & ETl) Hk Hrho Hcs HTl.
  repeat split; try (eexists; split; [eassumption | assumption]).
Qed.

Lemma valid_material_Steel : valid_material Steel.
Proof.
  destruct (Steel_fields (T:=R)) as [_ Hf].
  eapply has_fields_valid; [exact Hf | real_ops; lra ..].
Qed.

Lemma valid_material_Aluminum : valid_material Aluminum.
Proof.
  destruct (Aluminum_fields (T:=R)) as [_ Hf].
  eapply has_fields_valid; [exact Hf | real_ops; lra ..].
Qed.

(** [l_c] for the real Steel record: 1000 h / (2 pi 50 1500). *)
Lemma pool_char_length_Steel (h : R) :
  pool_char_length h Steel = Some (h * 1000 / (2 * PI * 50.0 * (1798.0 - 298))).
Proof.
  destruct (Steel_fields (T:=R)) as [_ (Ek & _ & _ & _ & _ & ETl)].
  unfold pool_char_length. rewrite Ek, ETl. cbn [mbind option_bind].
  rewrite char_length_R by (real_ops; lra). reflexivity.
Qed.
End CatalogueReal.

(** ** Lists and matrices *)

Section Lists.
Context {A B C : Type}.

Lemma mapM_total (f : A -> option B) (F : A -> B) (l : list A) :
  (forall a, f a = Some (F a)) -> mapM f l = Some (map F l).
Proof.
intros Hf. induction l as [| a l IH]; [reflexivity |].
cbn. rewrite Hf. cbn. rewrite IH. reflexivity.
Qed.

Lemma zip_map_map (g1 : A -> B) (g2 : A -> C) (l : list A) :
  zip (map g1 l) (map g2 l) = map (fun a => (g1 a, g2 a)) l.
Proof. induction l as [| a l IH]; [reflexivity |]. cbn. rewrite IH. reflexivity. Qed.

Lemma lookup_map (f : A -> B) (l : list A) (i : nat) :
  map f l !! i = f <$> (l !! i).
Proof.
revert i. induction l as [| a l IH]; intros [| i]; try reflexivity.
cbn. apply IH.
Qed.

Lemma Forall_map_all (f : A -> B) (P : B -> Prop) (l : list A) :
  (forall a, P (f a)) -> Forall P (map f l).
Proof. intros Hf. induction l; constructor; auto. Qed.
End Lists.

Lemma entry_map_map {A B C : Type} (f : A -> B -> C)
    (xs : list A) (ys : list B) (i j : nat) (a : A) (b : B) :
  ys !! i = Some b -> xs !! j = Some a ->
  entry (map (fun b => map (fun a => f a b) xs) ys) i j = Some (f a b).
Proof.
intros Hi Hj. unfold entry. rewrite lookup_map, Hi. cbn.
rewrite lookup_map, Hj. reflexivity.
Qed.

(** ** Temperature field *)

Section Temperature.
Import WeldingSimulator.
Local Open Scope R_scope.

(** The loop body over the reals: it never raises when k > 0. *)
Lemma temperature_at_R (q v alpha k x y : R) :
  0 < k ->
  temperature_at q v alpha k 298 x y
  = Some (if Rlt_dec 0 (sqrt (x * x + y * y)) then
            298 + q / (2 * PI * k * sqrt (x * x + y * y))
                  * exp (- v * (sqrt (x * x + y * y) - x) / (2 * alpha))
          else 298 + q / (4 * PI * k * 0.001)).
Proof.
intros Hk. unfold temperature_at. cbn [ltb R_Num]. real_ops.
destruct (Rlt_dec 0 (sqrt (x * x + y * y))) as [Hr | Hr]; [reflexivity |].
assert (Hpi := PI_RGT_0).
rewrite pydiv_R; [reflexivity |].
apply Rgt_not_eq. apply Rmult_lt_0_compat; [| lra].
apply Rmult_lt_0_compat; lra.
Qed.

Lemma temperature_value_R (q v alpha k x y : R) :
  0 < k ->
  temperature_at q v alpha k 298 x y
  = Some (temperature_value q v alpha k 298 x y).
Proof.
intros Hk. unfold temperature_value.
rewrite temperature_at_R by assumption. reflexivity.
Qed.

(** Away from the source the stored value is Rosenthal's formula. *)
Lemma temperature_value_away (q v alpha k x y : R) :
  0 < k -> 0 < sqrt (x * x + y * y) ->
  temperature_value q v alpha k 298 x y
  = 298 + q / (2 * PI * k * sqrt (x * x + y * y))
          * exp (- v * (sqrt (x * x + y * y) - x) / (2 * alpha)).
Proof.
intros Hk Hr. unfold temperature_value.
rewrite temperature_at_R by assumption. cbn.
destruct (Rlt_dec 0 (sqrt (x * x + y * y))); [reflexivity | contradiction].
Qed.

(** At the source it is the regularised value. *)
Lemma temperature_value_origin (q v alpha k : R) :
  0 < k ->
  temperature_value q v alpha k 298 0 0 = 298 + q / (4 * PI * k * 0.001).
Proof.
intros Hk. unfold temperature_value.
rewrite temperature_at_R by assumption. cbn.
replace (0 * 0 + 0 * 0) with 0 by lra. rewrite sqrt_0.
destruct (Rlt_dec 0 0); [lra | reflexivity].
Qed.

(** No stored value is below room temperature. *)
Lemma temperature_value_ge (q v alpha k x y : R) :
  0 <= q -> 0 < k -> 298 <= temperature_value q v alpha k 298 x y.
Proof.
intros Hq Hk. unfold temperature_value.
rewrite temperature_at_R by assumption. cbn.
assert (Hpi := PI_RGT_0).
destruct (Rlt_dec 0 (sqrt (x * x + y * y))) as [Hr | Hr].
- assert (He := exp_pos (- v * (sqrt (x * x + y * y) - x) / (2 * alpha))).
  assert (Hd : 0 < 2 * PI * k * sqrt (x * x + y * y)).
  { apply Rmult_lt_0_compat; [| exact Hr].
    apply Rmult_lt_0_compat; lra. }
  assert (0 <= q / (2 * PI * k * sqrt (x * x + y * y)))
    by (apply div_le_lower; lra).
  assert (0 <= q / (2 * PI * k * sqrt (x * x + y * y))
               * exp (- v * (sqrt (x * x + y * y) - x) / (2 * alpha)))
    by (apply Rmult_le_pos; lra).
  lra.
- assert (Hd : 0 < 4 * PI * k * 0.001).
  { apply Rmult_lt_0_compat; [| lra]. apply Rmult_lt_0_compat; lra. }
  assert (0 <= q / (4 * PI * k * 0.001)) by (apply div_le_lower; lra).
  lra.
Qed.
End Temperature.

(** ** The whole field *)

Section Field.
Import WeldingSimulator.
Local Open Scope R_scope.

Lemma np_max_None (l : list R) : np_max l = None -> l = [].
Proof. destruct l; [reflexivity | discriminate]. Qed.

Lemma np_min_None (l : list R) : np_min l = None -> l = [].
Proof. destruct l; [reflexivity | discriminate]. Qed.

Lemma linspace_nonempty (a b : R) (n : nat) : linspace a b (S n) <> [].
Proof. unfold linspace. cbn [seq map]. discriminate. Qed.

Lemma map_nonempty {A B : Type} (f : A -> B) (l : list A) :
  l <> [] -> map f l <> [].
Proof. destruct l; [contradiction | discriminate]. Qed.

Lemma concat_rows_nonempty {A : Type} (g : A -> list R) (l : list A) :
  l <> [] -> (forall a, g a <> []) -> concat (map g l) <> [].
Proof.
destruct l as [| a l]; [contradiction |]. intros _ Hg. cbn.
specialize (Hg a). destruct (g a); [contradiction | discriminate].
Qed.

(** The field [calculate_temperature_distribution] returns for a conductive
    material: the grid, and each entry the loop value capped at 3500. *)
Lemma calculate_temperature_distribution_R
    (h : R) (m : gmap string R) (ts : R) :
  conductive_material m ->
  exists (k rho cp : R) (tf : TemperatureField R),
    m !! "thermal_conductivity" = Some k /\
    m !! "density" = Some rho /\
    m !! "specific_heat_solid" = Some cp /\
    0 < k /\
    calculate_temperature_distribution h m ts = Some tf /\
    x tf = linspace (-20) 40 61 /\
    y tf = linspace (-15) 15 31 /\
    temperature tf
    = map (fun yv =>
             map (fun xv =>
                    Rmin (temperature_value (h * 1000) (ts / 1000)
                            (k / (rho * cp)) k 298 (xv / 1000) (yv / 1000))
                         3500)
                 (x tf))
          (y tf).
Proof.
intros ((k & Ek & Hk) & (rho & Erho & Hrho) & (cp & Ecp & Hcp)).
exists k, rho, cp.
unfold calculate_temperature_distribution.
rewrite Ek, Erho, Ecp. cbn [mbind option_bind].
rewrite pydiv_R by (real_ops; apply Rgt_not_eq, Rmult_lt_0_compat; lra).
cbn [mbind option_bind]. unfold meshgrid.
real_ops.
assert (Hxs := linspace_nonempty (-20) 40 60).
assert (Hys := linspace_nonempty (-15) 15 30).
revert Hxs Hys.
generalize (linspace (-20) 40 61). intros xs.
generalize (linspace (-15) 15 31). intros ys Hxs Hys.
set (d := fun a : R => a / 1000).
set (tv := temperature_value (h * 1000) (ts / 1000) (k / (rho * cp)) k 298).
rewrite !map_map, zip_map_map.
rewrite (mapM_total _
  (fun '(X_i, Y_i) => map (fun '(x0, y0) => tv x0 y0) (zip X_i Y_i))).
2:{ intros [X_i Y_i]. apply mapM_total. intros [x0 y0].
    apply temperature_value_R. exact Hk. }
cbn [mbind option_bind].
rewrite !map_map.
assert (ET : map (fun a : R =>
                   map (fun t : R => np_minimum t 3500)
                     (map (fun '(x0, y0) => tv x0 y0)
                        (zip (map d xs) (map d (map (fun _ : R => a) xs)))))
                 ys
             = map (fun yv => map (fun xv => Rmin (tv (xv / 1000) (yv / 1000)) 3500) xs) ys).
{ apply map_ext. intros yv. rewrite !map_map, zip_map_map, !map_map.
  apply map_ext. intros xv. apply np_minimum_R. }
rewrite ET. clear ET.
assert (Hne : concat (map (fun yv => map (fun xv =>
            Rmin (tv (xv / 1000) (yv / 1000)) 3500) xs) ys) <> []).
{ apply concat_rows_nonempty; [exact Hys |].
  intros yv. apply map_nonempty, Hxs. }
destruct (np_max _) as [mx |] eqn:Emax;
  [| apply np_max_None in Emax; contradiction].
destruct (np_min _) as [mn |] eqn:Emin;
  [| apply np_min_None in Emin; contradiction].
cbn [mbind option_bind].
eexists. repeat split; try reflexivity. exact Hk.
Qed.
End Field.

(** The grid: [linspace] over the reals. *)
Section Grid.
Import WeldingSimulator.
Local Open Scope R_scope.

Lemma linspace_length (a b : R) (num : nat) :
  List.length (linspace a b num) = num.
Proof. unfold linspace. rewrite length_map, length_seq. reflexivity. Qed.

Lemma linspace_lookup (a b : R) (num i : nat) :
  (i < num)%nat ->
  linspace a b num !! i
  = Some (if Nat.eqb (S i) num then b
          else IZR (Z.of_nat i) * ((b - a) / IZR (Z.of_nat (num - 1))) + a).
Proof.
intros Hi. unfold linspace. rewrite lookup_map.
rewrite lookup_seq_lt by exact Hi. cbn [fmap option_fmap option_map].
real_ops. unfold inject_Z. rewrite !Q2R_int. reflexivity.
Qed.

Lemma linspace_lookup_lt (a b : R) (num i : nat) (v : R) :
  linspace a b num !! i = Some v -> (i < num)%nat.
Proof.
intros Hv. apply lookup_lt_Some in Hv.
rewrite linspace_length in Hv. exact Hv.
Qed.

(** The x grid is -20, -19, ..., 40 and the y grid -15, ..., 15 (mm). *)
Lemma x_grid (j : nat) (xv : R) :
  linspace (-20) 40 61 !! j = Some xv ->
  (j < 61)%nat /\ xv = IZR (Z.of_nat j) - 20.
Proof.
intros Hj. assert (Hlt := linspace_lookup_lt _ _ _ _ _ Hj).
split; [exact Hlt |].
rewrite linspace_lookup in Hj by exact Hlt. injection Hj as <-.
destruct (Nat.eqb j 60) eqn:E.
- apply Nat.eqb_eq in E. subst j.
  change (Z.of_nat 60) with 60%Z. lra.
- change (Z.of_nat 60) with 60%Z. lra.
Qed.

Lemma y_grid (i : nat) (yv : R) :
  linspace (-15) 15 31 !! i = Some yv ->
  (i < 31)%nat /\ yv = IZR (Z.of_nat i) - 15.
Proof.
intros Hi. assert (Hlt := linspace_lookup_lt _ _ _ _ _ Hi).
split; [exact Hlt |].
rewrite linspace_lookup in Hi by exact Hlt. injection Hi as <-.
destruct (Nat.eqb i 30) eqn:E.
- apply Nat.eqb_eq in E. subst i.
  change (Z.of_nat 30) with 30%Z. lra.
- change (Z.of_nat 30) with 30%Z. lra.
Qed.

Lemma x_grid_at (j : nat) :
  (j < 61)%nat -> linspace (-20) 40 61 !! j = Some (IZR (Z.of_nat j) - 20).
Proof.
intros Hj. destruct (linspace (-20) 40 61 !! j) as [xv |] eqn:E.
- apply x_grid in E as [_ ->]. reflexivity.
- apply lookup_ge_None in E. rewrite linspace_length in E. lia.
Qed.

Lemma y_grid_at (i : nat) :
  (i < 31)%nat -> linspace (-15) 15 31 !! i = Some (IZR (Z.of_nat i) - 15).
Proof.
intros Hi. destruct (linspace (-15) 15 31 !! i) as [yv |] eqn:E.
- apply y_grid in E as [_ ->]. reflexivity.
- apply lookup_ge_None in E. rewrite linspace_length in E. lia.
Qed.
End Grid.


(** * The claims

    Each property is stated at the real instance, the exact semantics of the
    formulas, unless it names binary64. *)

Section Claims.
Import MaterialProperties WeldingSimulator.
Local Open Scope R_scope.

(** C1, as amended.  Over the reals, for positive current, voltage and
    travel speed and an arc efficiency in (0, 1], [calculate_heat_input]
    returns arc_efficiency * voltage * current / travel_speed: the factor 60
    of the conversion to mm/min cancels.  At (200, 25, 5, 0.7) the result is
    700, over the reals and, bit for bit, in binary64. *)
Theorem heat_input_formula (current voltage travel_speed arc_efficiency : R) :
  0 < current -> 0 < voltage -> 0 < travel_speed ->
  0 < arc_efficiency <= 1 ->
  calculate_heat_input current voltage travel_speed arc_efficiency
  = Some (arc_efficiency * voltage * current / travel_speed)
  /\ calculate_heat_input (T:=R) 200 25 5 0.7 = Some 700.0
  /\ calculate_heat_input 200%float 25%float 5%float 0.7%float
     = Some 700.0%float.
Proof.
  intros _ _ Hv _. split; [| split].
  - rewrite calculate_heat_input_R by lra. f_equal. field. lra.
  - rewrite calculate_heat_input_R by lra. f_equal. lra.
  - vm_compute. reflexivity.
Qed.

Lemma heat_input_formula_witness :
  calculate_heat_input (T:=R) 200 25 5 0.7 = Some (0.7 * 25 * 200 / 5)
  /\ calculate_heat_input (T:=R) 200 25 5 0.7 = Some 700.0
  /\ calculate_heat_input 200%float 25%float 5%float 0.7%float
     = Some 700.0%float.
Proof. apply heat_input_formula; lra. Defined.

(** A geometry record and the [l_c] it was computed from. *)
Ltac pool h m pt Hh Hm Hp g l_c El Hl :=
  let Eg := fresh "Eg" in
  destruct (calculate_weld_pool_geometry_R h m pt Hh Hm Hp)
    as (l_c & El & Hl & Eg);
  eexists; exists l_c; split; [exact Eg | split; [exact El |]];
  cbn [width length penetration aspect_ratio dilution_ratio];
  assert (Hrw : 0 < raw_width l_c) by (rewrite raw_width_R; lra);
  assert (Hrp := raw_penetration_bounds l_c pt Hl Hp).

(** C3, as amended.  On a valid input the returned record has
    aspect_ratio = length / width and length = 3.2 * the width before the
    clamp; so length = 3.2 * width whenever the raw width is at most
    2 * plate_thickness, that is, while the width clamp does not engage. *)
Theorem pool_length_ratio (h : R) (m : gmap string R) (pt : R) :
  0 < h -> valid_material m -> 0 < pt ->
  exists (g : WeldPoolGeometry R) (l_c : R),
    calculate_weld_pool_geometry h m pt = Some g /\
    pool_char_length h m = Some l_c /\
    aspect_ratio g = length g / width g /\
    length g = 3.2 * raw_width l_c /\
    (raw_width l_c <= 2 * pt -> length g = 3.2 * width g).
Proof.
  intros Hh Hm Hp. pool h m pt Hh Hm Hp g l_c El Hl.
  split; [reflexivity | split; [reflexivity |]].
  intros Hraw. rewrite Rmin_left by lra. reflexivity.
Qed.

(** C4, as amended.  On a valid input 0 < penetration and 0 < width <=
    2 * plate_thickness; the penetration is at most 0.9 * plate_thickness,
    so below plate_thickness, and the clamp of line 82 leaves it as it is
    (it is the value of lines 75-79).  A thin-plate formula value
    0.6 * l_c * 1000 above 0.9 * plate_thickness is returned as
    0.9 * plate_thickness, never as plate_thickness; a raw width above
    2 * plate_thickness is returned as 2 * plate_thickness. *)
Theorem pool_clamps (h : R) (m : gmap string R) (pt : R) :
  0 < h -> valid_material m -> 0 < pt ->
  exists (g : WeldPoolGeometry R) (l_c : R),
    calculate_weld_pool_geometry h m pt = Some g /\
    pool_char_length h m = Some l_c /\
    0 < penetration g <= 0.9 * pt /\
    penetration g < pt /\
    penetration g = raw_penetration l_c pt /\
    0 < width g <= 2 * pt /\
    (0.9 * pt < 0.6 * l_c * 1000 -> penetration g = 0.9 * pt) /\
    (2 * pt < raw_width l_c -> width g = 2 * pt).
Proof.
  intros Hh Hm Hp. pool h m pt Hh Hm Hp g l_c El Hl.
  rewrite (Rmin_left (raw_penetration l_c pt) pt) by lra.
  assert (Hpen : raw_penetration l_c pt <= 0.9 * pt /\
                 (0.9 * pt < 0.6 * l_c * 1000 ->
                  raw_penetration l_c pt = 0.9 * pt)).
  { rewrite raw_penetration_R, raw_width_R.
    destruct (Rlt_dec _ _) as [Hthick | Hthin].
    - split; [lra |]. intros Hc. lra.
    - split.
      + etransitivity; [apply Rmin_r | lra].
      + intros Hc. rewrite Rmin_right by lra. lra. }
  destruct Hpen as [Hle Hcap].
  split; [split; [lra | exact Hle] |].
  split; [lra |]. split; [reflexivity |].
  split; [split |].
  - apply Rmin_glb_lt; lra.
  - etransitivity; [apply Rmin_r | lra].
  - split; [exact Hcap |].
    intros Hraw. rewrite Rmin_right by lra. lra.
Qed.

(** The penetration clamp of line 82 never changes the value: under the
    preconditions the raw penetration is already below the plate
    thickness (0.8 l_c < plate_thickness / 7.5 in the thick-plate branch,
    at most 0.9 plate_thickness in the thin-plate branch). *)
Lemma penetration_clamp_idle (h : R) (m : gmap string R) (pt : R) :
  0 < h -> valid_material m -> 0 < pt ->
  exists (g : WeldPoolGeometry R) (l_c : R),
    calculate_weld_pool_geometry h m pt = Some g /\
    pool_char_length h m = Some l_c /\
    penetration g = raw_penetration l_c pt /\
    raw_penetration l_c pt < pt.
Proof.
  intros Hh Hm Hp. pool h m pt Hh Hm Hp g l_c El Hl.
  split; [apply Rmin_left; lra | lra].
Qed.


(** C9, as amended.  Over the reals, on a valid input aspect_ratio >= 3.2:
    the length is 3.2 * the raw width and the clamp can only reduce the
    width, so aspect_ratio is 3.2 when the raw width is at most
    2 * plate_thickness and above 3.2 when the width clamp engages. *)
Theorem aspect_ratio_at_least (h : R) (m : gmap string R) (pt : R) :
  0 < h -> valid_material m -> 0 < pt ->
  exists (g : WeldPoolGeometry R) (l_c : R),
    calculate_weld_pool_geometry h m pt = Some g /\
    pool_char_length h m = Some l_c /\
    length g = 3.2 * raw_width l_c /\
    width g <= raw_width l_c /\
    3.2 <= aspect_ratio g /\
    (raw_width l_c <= 2 * pt -> aspect_ratio g = 3.2) /\
    (2 * pt < raw_width l_c -> 3.2 < aspect_ratio g).
Proof.
  intros Hh Hm Hp. pool h m pt Hh Hm Hp g l_c El Hl.
  assert (Hw : 0 < Rmin (raw_width l_c) (pt * 2)) by (apply Rmin_glb_lt; lra).
  assert (Hle : Rmin (raw_width l_c) (pt * 2) <= raw_width l_c) by apply Rmin_l.
  split; [reflexivity | split; [exact Hle |]]. repeat split.
  - apply div_le_lower; [exact Hw |]. lra.
  - intros Hraw. rewrite Rmin_left by lra. field. lra.
  - intros Hraw. rewrite Rmin_right by lra. apply div_lt_lower; lra.
Qed.

(** C2, as amended.  Over the reals, for heat_input > 0, travel_speed > 0
    and a material with positive conductivity, density and solid specific
    heat, the field is returned and every entry of its 31 x 61 temperature
    matrix lies in [298, 3500]; the entry at the origin is the regularised
    value, capped like the rest. *)
Theorem temperature_bounds (h : R) (m : gmap string R) (ts : R) :
  0 < h -> 0 < ts -> conductive_material m ->
  exists (tf : TemperatureField R) (k : R),
    calculate_temperature_distribution h m ts = Some tf /\
    m !! "thermal_conductivity" = Some k /\
    List.length (temperature tf) = 31%nat /\
    Forall (fun row => List.length row = 61%nat) (temperature tf) /\
    Forall (Forall (fun t => 298 <= t <= 3500)) (temperature tf) /\
    entry (temperature tf) 15 20
      = Some (Rmin (298 + h * 1000 / (4 * PI * k * 0.001)) 3500).
Proof.
intros Hh Hts Hm.
destruct (calculate_temperature_distribution_R h m ts Hm)
  as (k & rho & cp & tf & Ek & _ & _ & Hk & Etf & Ex & Ey & ET).
exists tf, k. split; [exact Etf | split; [exact Ek |]].
rewrite ET, Ex, Ey. split; [| split; [| split]].
- rewrite length_map. apply linspace_length.
- apply Forall_map_all. intros yv. rewrite length_map. apply linspace_length.
- apply Forall_map_all. intros yv. apply Forall_map_all. intros xv. split.
  + apply Rmin_glb; [| lra]. apply temperature_value_ge; lra.
  + apply Rmin_r.
- rewrite (entry_map_map _ _ _ 15 20 (IZR (Z.of_nat 20) - 20)
             (IZR (Z.of_nat 15) - 15))
    by (first [apply x_grid_at | apply y_grid_at]; lia).
  change (Z.of_nat 20) with 20%Z. change (Z.of_nat 15) with 15%Z.
  replace ((20 - 20) / 1000) with 0 by lra.
  replace ((15 - 15) / 1000) with 0 by lra.
  rewrite temperature_value_origin by exact Hk. reflexivity.
Qed.

Lemma temperature_bounds_witness :
  exists (tf : TemperatureField R) (k : R),
    calculate_temperature_distribution 700 Steel 5 = Some tf /\
    Steel !! "thermal_conductivity" = Some k /\
    List.length (temperature tf) = 31%nat /\
    Forall (fun row => List.length row = 61%nat) (temperature tf) /\
    Forall (Forall (fun t => 298 <= t <= 3500)) (temperature tf) /\
    entry (temperature tf) 15 20
      = Some (Rmin (298 + 700 * 1000 / (4 * PI * k * 0.001)) 3500).
Proof.
apply temperature_bounds; [lra | lra | apply valid_material_Steel].
Defined.

(** The stored value at a point whose distance from the source is [r]. *)
Lemma temperature_value_at_radius (q v alpha k x0 y0 r : R) :
  0 < k -> 0 < r -> x0 * x0 + y0 * y0 = r * r ->
  temperature_value q v alpha k 298 x0 y0
  = 298 + q / (2 * PI * k * r) * exp (- v * (r - x0) / (2 * alpha)).
Proof.
intros Hk Hr Hxy.
assert (Es : sqrt (x0 * x0 + y0 * y0) = r).
{ rewrite Hxy. apply sqrt_square. lra. }
rewrite temperature_value_away by (rewrite ?Es; assumption).
rewrite Es. reflexivity.
Qed.

(** On the axis y = 0 behind the source the exponential factor is 1. *)
Lemma temperature_value_axis (q v alpha k x0 : R) :
  0 < k -> 0 < x0 ->
  temperature_value q v alpha k 298 x0 0 = 298 + q / (2 * PI * k * x0).
Proof.
intros Hk Hx.
rewrite (temperature_value_at_radius q v alpha k x0 0 x0) by (assumption || lra).
replace (- v * (x0 - x0) / (2 * alpha)) with 0 by (unfold Rdiv; ring).
rewrite exp_0. lra.
Qed.

(** C8, as amended.  On the axis y = 0 the temperature decays with the
    distance behind the source: for two grid points of a row with y = 0 and
    x > 0, at radial distances R1 < R2, T(R1) >= T(R2). *)
Theorem axis_decay (h : R) (m : gmap string R) (ts : R) :
  0 < h -> 0 < ts -> conductive_material m ->
  exists tf : TemperatureField R,
    calculate_temperature_distribution h m ts = Some tf /\
    forall (i j1 j2 : nat) (yv x1 x2 t1 t2 : R),
      y tf !! i = Some yv -> x tf !! j1 = Some x1 -> x tf !! j2 = Some x2 ->
      entry (temperature tf) i j1 = Some t1 ->
      entry (temperature tf) i j2 = Some t2 ->
      yv = 0 -> 0 < x1 -> 0 < x2 ->
      sqrt (x1 * x1 + yv * yv) < sqrt (x2 * x2 + yv * yv) ->
      t2 <= t1.
Proof.
intros Hh Hts Hm.
destruct (calculate_temperature_distribution_R h m ts Hm)
  as (k & rho & cp & tf & _ & _ & _ & Hk & Etf & _ & _ & ET).
exists tf. split; [exact Etf |].
intros i j1 j2 yv x1 x2 t1 t2 Hy Hx1 Hx2 Ht1 Ht2 -> Hp1 Hp2 HR.
rewrite ET in Ht1, Ht2.
rewrite (entry_map_map _ _ _ i j1 x1 0 Hy Hx1) in Ht1.
rewrite (entry_map_map _ _ _ i j2 x2 0 Hy Hx2) in Ht2.
injection Ht1 as <-. injection Ht2 as <-.
replace (0 / 1000) with 0 by lra.
rewrite !temperature_value_axis by lra.
replace (x1 * x1 + 0 * 0) with (x1 * x1) in HR by lra.
replace (x2 * x2 + 0 * 0) with (x2 * x2) in HR by lra.
rewrite !sqrt_square in HR by lra.
assert (Hpi := PI_RGT_0).
apply Rle_min_compat_r. apply Rplus_le_compat_l.
assert (Hd1 : 0 < 2 * PI * k * (x1 / 1000)).
{ apply Rmult_lt_0_compat; [| lra]. apply Rmult_lt_0_compat; lra. }
assert (Hd2 : 2 * PI * k * (x1 / 1000) <= 2 * PI * k * (x2 / 1000)).
{ apply Rmult_le_compat_l; [| lra]. left. apply Rmult_lt_0_compat; lra. }
apply Rmult_le_compat_l; [lra |].
apply Rinv_le_contravar; assumption.
Qed.

Lemma axis_decay_witness :
  exists (tf : TemperatureField R) (t1 t2 : R),
    calculate_temperature_distribution 700 Steel 5 = Some tf /\
    y tf !! 15%nat = Some 0 /\
    x tf !! 21%nat = Some 1 /\ x tf !! 22%nat = Some 2 /\
    entry (temperature tf) 15 21 = Some t1 /\
    entry (temperature tf) 15 22 = Some t2 /\
    t2 <= t1.
Proof.
assert (Hm : conductive_material Steel) by apply valid_material_Steel.
destruct (axis_decay 700 Steel 5 ltac:(lra) ltac:(lra) Hm) as (tf & Etf & Hdecay).
destruct (calculate_temperature_distribution_R 700 Steel 5 Hm)
  as (k & rho & cp & tf' & _ & _ & _ & Hk & Etf' & Ex & Ey & ET).
rewrite Etf in Etf'. injection Etf' as <-.
assert (Hy : y tf !! 15%nat = Some 0).
{ rewrite Ey, y_grid_at by lia. change (Z.of_nat 15) with 15%Z. f_equal. lra. }
assert (Hx1 : x tf !! 21%nat = Some 1).
{ rewrite Ex, x_grid_at by lia. change (Z.of_nat 21) with 21%Z. f_equal. lra. }
assert (Hx2 : x tf !! 22%nat = Some 2).
{ rewrite Ex, x_grid_at by lia. change (Z.of_nat 22) with 22%Z. f_equal. lra. }
destruct (entry (temperature tf) 15 21) as [t1 |] eqn:Ht1;
  [| rewrite ET, (entry_map_map _ _ _ 15 21 1 0 Hy Hx1) in Ht1; discriminate].
destruct (entry (temperature tf) 15 22) as [t2 |] eqn:Ht2;
  [| rewrite ET, (entry_map_map _ _ _ 15 22 2 0 Hy Hx2) in Ht2; discriminate].
exists tf, t1, t2. split; [exact Etf |].
split; [exact Hy |]. split; [exact Hx1 |]. split; [exact Hx2 |].
split; [exact Ht1 |]. split; [exact Ht2 |].
apply (Hdecay 15%nat 21%nat 22%nat 0 1 2 _ _ Hy Hx1 Hx2 Ht1 Ht2);
  [reflexivity | lra | lra |].
apply sqrt_lt_1; lra.
Defined.

(** C8 as stated fails off the axis.  Aluminum, heat input 250 J/mm, travel
    speed 1 mm/s, row y = 8 mm: the points x = 6 mm and x = 15 mm lie at
    R1 = 10 mm < R2 = 17 mm behind the source, and the nearer one is the
    colder. *)
Lemma off_axis_rise :
  exists (tf : TemperatureField R) (t1 t2 : R),
    calculate_temperature_distribution 250 Aluminum 1 = Some tf /\
    y tf !! 23%nat = Some 8 /\
    x tf !! 26%nat = Some 6 /\ x tf !! 35%nat = Some 15 /\
    sqrt (6 * 6 + 8 * 8) < sqrt (15 * 15 + 8 * 8) /\
    entry (temperature tf) 23 26 = Some t1 /\
    entry (temperature tf) 23 35 = Some t2 /\
    t1 < t2.
Proof.
assert (Hm : conductive_material Aluminum) by apply valid_material_Aluminum.
destruct (calculate_temperature_distribution_R 250 Aluminum 1 Hm)
  as (k & rho & cp & tf & Ek & Erho & Ecp & Hk & Etf & Ex & Ey & ET).
destruct (Aluminum_fields (T:=R)) as [_ (Fk & Frho & Fcp & _)].
rewrite Fk in Ek. rewrite Frho in Erho. rewrite Fcp in Ecp.
injection Ek as <-. injection Erho as <-. injection Ecp as <-.
revert ET. real_ops. intros ET.
assert (Hy : y tf !! 23%nat = Some 8).
{ rewrite Ey, y_grid_at by lia. change (Z.of_nat 23) with 23%Z. f_equal. lra. }
assert (Hx1 : x tf !! 26%nat = Some 6).
{ rewrite Ex, x_grid_at by lia. change (Z.of_nat 26) with 26%Z. f_equal. lra. }
assert (Hx2 : x tf !! 35%nat = Some 15).
{ rewrite Ex, x_grid_at by lia. change (Z.of_nat 35) with 35%Z. f_equal. lra. }
eexists tf, _, _. split; [exact Etf |].
split; [exact Hy |]. split; [exact Hx1 |]. split; [exact Hx2 |].
split; [apply sqrt_lt_1; lra |].
rewrite ET.
rewrite (entry_map_map _ _ _ 23 26 6 8 Hy Hx1).
rewrite (entry_map_map _ _ _ 23 35 15 8 Hy Hx2).
split; [reflexivity |]. split; [reflexivity |].
rewrite (temperature_value_at_radius _ _ _ _ (6 / 1000) (8 / 1000) (10 / 1000))
  by lra.
rewrite (temperature_value_at_radius _ _ _ _ (15 / 1000) (8 / 1000) (17 / 1000))
  by lra.
assert (Hpi := PI2_3_2).
set (a := 8127 / 790).
replace (- (1 / 1000) * (10 / 1000 - 6 / 1000)
         / (2 * (237.0 / (2700.0 * 903000.0)))) with (- a + - a)
  by (unfold a; lra).
replace (- (1 / 1000) * (17 / 1000 - 15 / 1000)
         / (2 * (237.0 / (2700.0 * 903000.0)))) with (- a)
  by (unfold a; lra).
rewrite exp_plus.
assert (HE0 := exp_pos (- a)).
assert (HE1 : exp (- a) < / 11).
{ rewrite exp_Ropp. apply Rinv_lt_contravar.
  - apply Rmult_lt_0_compat; [lra | apply exp_pos].
  - assert (Ha := exp_ineq1 a). unfold a in *. lra. }
set (E := exp (- a)) in *.
set (c2 := 250 * 1000 / (2 * PI * 237.0 * (17 / 1000))).
replace (250 * 1000 / (2 * PI * 237.0 * (10 / 1000))) with (1.7 * c2)
  by (unfold c2, Q2R; cbn [Qnum Qden]; field; lra).
assert (Hc0 : 0 < c2) by (unfold c2; apply div_lt_lower; lra).
assert (Hc1 : c2 < 12000) by (unfold c2; apply div_lt_upper; lra).
assert (HEE : E * E < / 11 * / 11) by (apply Rmult_le_0_lt_compat; lra).
assert (HEE0 : 0 < E * E) by (apply Rmult_lt_0_compat; lra).
assert (Hgap : 0 < c2 * E * (1 - 1.7 * E)).
{ apply Rmult_lt_0_compat; [apply Rmult_lt_0_compat |]; lra. }
assert (H1 : 1.7 * c2 * (E * E) < c2 * E) by lra.
assert (Hcap : c2 * (E * E) < 12000 * (/ 11 * / 11))
  by (apply Rmult_le_0_lt_compat; lra).
assert (H2 : 1.7 * c2 * (E * E) < 3000) by lra.
rewrite Rmin_left by lra.
apply Rmin_glb_lt; lra.
Qed.

(** The raw width of the real Steel record: (50/3) h / pi, between
    (25/6) h and (50/9) h since 3 < pi <= 4. *)
Lemma Steel_raw_width_bounds (h l_c : R) :
  0 < h -> pool_char_length h Steel = Some l_c ->
  25 / 6 * h <= raw_width l_c < 50 / 9 * h.
Proof.
intros Hh El. rewrite pool_char_length_Steel in El. injection El as <-.
rewrite raw_width_R.
assert (Hpi3 := PI2_3_2). assert (Hpi4 := PI_4).
set (d := 2 * PI * 50.0 * (1798.0 - 298)).
assert (Hd0 : 0 < d) by (unfold d; lra).
assert (Hlo : h / 600 <= h * 1000 / d).
{ apply div_le_lower; [exact Hd0 |]. unfold d. nra. }
assert (Hhi : h * 1000 / d < h / 450).
{ apply div_lt_upper; [exact Hd0 |]. unfold d. nra. }
lra.
Qed.

(** C3 as stated fails when the width clamp engages.  Steel, 700 J/mm,
    plate 10 mm: the returned width is the clamp 20 mm while the length is
    3.2 * the raw width, above 9000 mm. *)
Lemma clamped_length_off_ratio :
  exists g : WeldPoolGeometry R,
    calculate_weld_pool_geometry 700 Steel 10 = Some g /\
    width g = 20 /\ 9000 < length g /\
    length g <> 3.2 * width g.
Proof.
destruct (calculate_weld_pool_geometry_R 700 Steel 10
            ltac:(lra) valid_material_Steel ltac:(lra))
  as (l_c & El & Hl & Eg).
destruct (Steel_raw_width_bounds 700 l_c ltac:(lra) El) as [Hlo Hhi].
eexists. split; [exact Eg |]. cbn [width length].
rewrite Rmin_right by lra.
split; [lra |]. split; lra.
Qed.

Lemma pool_length_ratio_witness :
  exists g : WeldPoolGeometry R,
    calculate_weld_pool_geometry 1 Steel 10 = Some g /\
    aspect_ratio g = length g / width g /\
    length g = 3.2 * width g.
Proof.
destruct (pool_length_ratio 1 Steel 10 ltac:(lra) valid_material_Steel ltac:(lra))
  as (g & l_c & Eg & El & Ha & _ & Hratio).
exists g. split; [exact Eg |]. split; [exact Ha |].
apply Hratio.
destruct (Steel_raw_width_bounds 1 l_c ltac:(lra) El) as [_ Hhi]. lra.
Defined.

Lemma pool_clamps_witness :
  exists g : WeldPoolGeometry R,
    calculate_weld_pool_geometry 700 Steel 10 = Some g /\
    0 < penetration g <= 0.9 * 10 /\
    0 < width g <= 2 * 10 /\
    penetration g = 0.9 * 10 /\
    width g = 2 * 10.
Proof.
destruct (pool_clamps 700 Steel 10 ltac:(lra) valid_material_Steel ltac:(lra))
  as (g & l_c & Eg & El & Hpen & _ & _ & Hw & Hcap & Hclamp).
destruct (Steel_raw_width_bounds 700 l_c ltac:(lra) El) as [Hlo _].
rewrite raw_width_R in Hlo, Hclamp.
exists g. split; [exact Eg |]. split; [exact Hpen |]. split; [exact Hw |].
split; [apply Hcap | apply Hclamp]; lra.
Defined.

(** The thin-plate formula value of line 79 is far above the plate
    thickness at the base case of the spec (700 J/mm into Steel, plate
    10 mm), and the penetration returned is 9 = 0.9 * 10, not 10; the same
    in binary64. *)
Lemma penetration_not_plate_thickness :
  exists (g : WeldPoolGeometry R) (l_c : R),
    calculate_weld_pool_geometry 700 Steel 10 = Some g /\
    pool_char_length 700 Steel = Some l_c /\
    10 < 0.6 * l_c * 1000 /\
    penetration g = 9 /\ penetration g <> 10 /\
    option_map penetration
      (calculate_weld_pool_geometry 700%float Steel 10%float)
    = Some 9%float.
Proof.
destruct (calculate_weld_pool_geometry_R 700 Steel 10 ltac:(lra)
            valid_material_Steel ltac:(lra)) as (l_c & El & Hl & Eg).
destruct (Steel_raw_width_bounds 700 l_c ltac:(lra) El) as [Hlo _].
rewrite raw_width_R in Hlo.
eexists. exists l_c. split; [exact Eg |]. split; [exact El |].
split; [lra |]. cbn [penetration].
assert (Hrp := raw_penetration_bounds l_c 10 Hl ltac:(lra)).
rewrite (Rmin_left (raw_penetration l_c 10) 10) by lra.
assert (E9 : raw_penetration l_c 10 = 9).
{ rewrite raw_penetration_R, raw_width_R.
  destruct (Rlt_dec _ _) as [Hthick | Hthin]; [lra |].
  rewrite Rmin_right by lra. lra. }
rewrite E9. split; [reflexivity |]. split; [lra |].
vm_compute. reflexivity.
Qed.


Lemma aspect_ratio_at_least_witness :
  (exists g : WeldPoolGeometry R,
     calculate_weld_pool_geometry 1 Steel 10 = Some g /\ aspect_ratio g = 3.2)
  /\
  (exists g : WeldPoolGeometry R,
     calculate_weld_pool_geometry 700 Steel 10 = Some g /\
     3.2 < aspect_ratio g).
Proof.
split.
- destruct (aspect_ratio_at_least 1 Steel 10
              ltac:(lra) valid_material_Steel ltac:(lra))
    as (g & l_c & Eg & El & _ & _ & _ & Heq & _).
  exists g. split; [exact Eg |]. apply Heq.
  destruct (Steel_raw_width_bounds 1 l_c ltac:(lra) El) as [_ Hhi]. lra.
- destruct (aspect_ratio_at_least 700 Steel 10
              ltac:(lra) valid_material_Steel ltac:(lra))
    as (g & l_c & Eg & El & _ & _ & _ & _ & Hgt).
  exists g. split; [exact Eg |]. apply Hgt.
  destruct (Steel_raw_width_bounds 700 l_c ltac:(lra) El) as [Hlo _]. lra.
Defined.

(** Steel, plate 10 mm, any heat input from 100 J/mm up: both clamps of the
    thin-plate regime are active, width = 20 and penetration = 9. *)
Lemma Steel_plate10_pool (h : R) :
  100 <= h ->
  exists g : WeldPoolGeometry R,
    calculate_weld_pool_geometry h Steel 10 = Some g /\
    width g = 20 /\ penetration g = 9.
Proof.
intros Hh.
destruct (calculate_weld_pool_geometry_R h Steel 10
            ltac:(lra) valid_material_Steel ltac:(lra))
  as (l_c & El & Hl & Eg).
destruct (Steel_raw_width_bounds h l_c ltac:(lra) El) as [Hlo Hhi].
eexists. split; [exact Eg |]. cbn [width penetration].
split; [rewrite Rmin_right by lra; lra |].
rewrite raw_penetration_R.
destruct (Rlt_dec (3 * raw_width l_c) 10) as [Hthick | _]; [lra |].
rewrite raw_width_R in Hlo.
rewrite (Rmin_right (0.6 * l_c * 1000)) by lra.
rewrite Rmin_left by lra. lra.
Qed.


(** One pass of the sensitivity loop for Steel and a 10 mm plate, when the
    base pool and both perturbed pools are clamped: the width and the
    penetration do not move, so both elasticities are 0. *)
Lemma Steel_plate10_entry
    (I V v eta : R) (base_pool : WeldPoolGeometry R)
    (name : string) (bv hh hl : R) :
  width base_pool = 20 -> penetration base_pool = 9 -> bv <> 0 ->
  perturbed_heat_inputs name bv 0.1 I V v eta = Some (hh, hl) ->
  100 <= hh -> 100 <= hl ->
  exists r : SensitivityResult R,
    sensitivity_entry I V v eta Steel 10 base_pool 0.1 (name, bv) = Some r /\
    parameter r = name /\ width_sensitivity r = 0 /\
    penetration_sensitivity r = 0 /\ base_value r = bv.
Proof.
intros Hw Hp Hbv Ehl Hhh Hhl. unfold sensitivity_entry.
rewrite Ehl. cbn [mbind option_bind].
destruct (Steel_plate10_pool hh Hhh) as (gh & Egh & Hwh & Hph).
destruct (Steel_plate10_pool hl Hhl) as (gl & Egl & Hwl & Hpl).
rewrite Egh, Egl. cbn [mbind option_bind].
rewrite Hwh, Hwl, Hph, Hpl, Hw, Hp. real_ops.
assert (Hd : 2 * 0.1 * bv <> 0).
{ intros E. apply Hbv. lra. }
rewrite !pydiv_R by (exact Hd || lra). cbn [mbind option_bind].
eexists. split; [reflexivity |]. cbn.
repeat split; unfold Rdiv; ring.
Qed.

(** The base case of the spec over the reals: every pool is clamped, so the
    four width sensitivities are 0. *)
Lemma sensitivity_base_case_R :
  exists r1 r2 r3 r4 : SensitivityResult R,
    sensitivity_analysis 200 25 5 0.7 Steel 10 = Some [r1; r2; r3; r4] /\
    map parameter [r1; r2; r3; r4]
      = ["current"; "voltage"; "travel_speed"; "arc_efficiency"] /\
    width_sensitivity r1 = 0.
Proof.
unfold sensitivity_analysis.
rewrite calculate_heat_input_R by lra. cbn [mbind option_bind].
destruct (Steel_plate10_pool (0.7 * 25 * 200 * 60 / (5 * 60)) ltac:(lra))
  as (g & Eg & Hw & Hp).
rewrite Eg. cbn [mbind option_bind]. real_ops.
assert (E1 : exists r, sensitivity_entry 200 25 5 0.7 Steel 10 g 0.1
                         ("current", 200) = Some r /\
                       parameter r = "current" /\ width_sensitivity r = 0).
{ destruct (Steel_plate10_entry 200 25 5 0.7 g "current" 200
              (0.7 * 25 * (200 * (1 + 0.1)) * 60 / (5 * 60))
              (0.7 * 25 * (200 * (1 - 0.1)) * 60 / (5 * 60)) Hw Hp)
    as (r & Er & Hn & Hws & _); try lra.
  - unfold perturbed_heat_inputs. cbn [String.eqb Ascii.eqb Bool.eqb].
    rewrite !calculate_heat_input_R by (apply Rgt_not_eq; real_ops; lra).
    real_ops. reflexivity.
  - exists r. auto. }
assert (E2 : exists r, sensitivity_entry 200 25 5 0.7 Steel 10 g 0.1
                         ("voltage", 25) = Some r /\
                       parameter r = "voltage").
{ destruct (Steel_plate10_entry 200 25 5 0.7 g "voltage" 25
              (0.7 * (25 * (1 + 0.1)) * 200 * 60 / (5 * 60))
              (0.7 * (25 * (1 - 0.1)) * 200 * 60 / (5 * 60)) Hw Hp)
    as (r & Er & Hn & _); try lra.
  - unfold perturbed_heat_inputs. cbn [String.eqb Ascii.eqb Bool.eqb].
    rewrite !calculate_heat_input_R by (apply Rgt_not_eq; real_ops; lra).
    real_ops. reflexivity.
  - exists r. auto. }
assert (E3 : exists r, sensitivity_entry 200 25 5 0.7 Steel 10 g 0.1
                         ("travel_speed", 5) = Some r /\
                       parameter r = "travel_speed").
{ destruct (Steel_plate10_entry 200 25 5 0.7 g "travel_speed" 5
              (0.7 * 25 * 200 * 60 / (5 * (1 + 0.1) * 60))
              (0.7 * 25 * 200 * 60 / (5 * (1 - 0.1) * 60)) Hw Hp)
    as (r & Er & Hn & _); try lra.
  - unfold perturbed_heat_inputs. cbn [String.eqb Ascii.eqb Bool.eqb].
    rewrite !calculate_heat_input_R by (apply Rgt_not_eq; real_ops; lra).
    real_ops. reflexivity.
  - exists r. auto. }
assert (E4 : exists r, sensitivity_entry 200 25 5 0.7 Steel 10 g 0.1
                         ("arc_efficiency", 0.7) = Some r /\
                       parameter r = "arc_efficiency").
{ destruct (Steel_plate10_entry 200 25 5 0.7 g "arc_efficiency" 0.7
              (0.7 * (1 + 0.1) * 25 * 200 * 60 / (5 * 60))
              (0.7 * (1 - 0.1) * 25 * 200 * 60 / (5 * 60)) Hw Hp)
    as (r & Er & Hn & _); try lra.
  - unfold perturbed_heat_inputs. cbn [String.eqb Ascii.eqb Bool.eqb].
    rewrite !calculate_heat_input_R by (apply Rgt_not_eq; real_ops; lra).
    real_ops. reflexivity.
  - exists r. auto. }
destruct E1 as (r1 & Er1 & Hn1 & Hws1), E2 as (r2 & Er2 & Hn2),
         E3 as (r3 & Er3 & Hn3), E4 as (r4 & Er4 & Hn4).
exists r1, r2, r3, r4.
cbn [mapM]. rewrite Er1, Er2, Er3, Er4. cbn [mbind option_bind mret option_ret].
split; [reflexivity |]. split; [| exact Hws1].
cbn [map]. rewrite Hn1, Hn2, Hn3, Hn4. reflexivity.
Qed.

(** C5 as stated fails: at the base case the entry named "current" has a
    width sensitivity that is not positive. *)
Lemma current_width_sensitivity_not_positive :
  exists (rs : list (SensitivityResult R)) (r : SensitivityResult R),
    sensitivity_analysis 200 25 5 0.7 Steel 10 = Some rs /\
    r ∈ rs /\ parameter r = "current" /\
    ~ 0 < width_sensitivity r.
Proof.
destruct sensitivity_base_case_R as (r1 & r2 & r3 & r4 & Ers & Hn & Hws).
exists [r1; r2; r3; r4], r1. split; [exact Ers |].
split; [apply list_elem_of_here |].
split; [injection Hn as Hn1 _; exact Hn1 |].
rewrite Hws. lra.
Qed.

(** C5, as amended.  At the base case (200 A, 25 V, 5 mm/s, 0.7, Steel,
    plate 10 mm) the result lists current, voltage, travel_speed and
    arc_efficiency in this order, and the entry named "current" has
    width_sensitivity = 0: the width is the clamp 2 * plate_thickness at the
    base heat input and at both perturbed ones.  The binary64 run returns
    the same 0. *)
Theorem current_width_sensitivity_zero :
  (exists (rs : list (SensitivityResult R)) (r : SensitivityResult R),
     sensitivity_analysis 200 25 5 0.7 Steel 10 = Some rs /\
     map parameter rs
       = ["current"; "voltage"; "travel_speed"; "arc_efficiency"] /\
     rs !! 0%nat = Some r /\ parameter r = "current" /\
     width_sensitivity r = 0) /\
  (exists (rs : list (SensitivityResult float)) (r : SensitivityResult float),
     sensitivity_analysis 200%float 25%float 5%float 0.7%float Steel 10%float
       = Some rs /\
     map parameter rs
       = ["current"; "voltage"; "travel_speed"; "arc_efficiency"] /\
     rs !! 0%nat = Some r /\ parameter r = "current" /\
     width_sensitivity r = 0%float).
Proof.
split.
- destruct sensitivity_base_case_R as (r1 & r2 & r3 & r4 & Ers & Hn & Hws).
  exists [r1; r2; r3; r4], r1. split; [exact Ers |]. split; [exact Hn |].
  split; [reflexivity |]. split; [injection Hn as Hn1 _; exact Hn1 | exact Hws].
- eexists _, _. split; [vm_compute; reflexivity |].
  split; [reflexivity |]. split; [reflexivity |]. split; reflexivity.
Qed.

(** C6.  A material name outside the catalogue ("Unobtainium", say) is
    looked up as "Steel": the result is the very record of
    get_properties("Steel"). *)
Theorem get_properties_fallback {T : Type} `{Num T} (material_type : string) :
  material_type <> "Steel" -> material_type <> "Aluminum" ->
  material_type <> "Stainless Steel" -> material_type <> "Titanium" ->
  get_properties material_type = get_properties "Steel" /\
  get_properties (T:=T) "Steel" = Some Steel.
Proof.
intros H1 H2 H3 H4.
assert (Hout : material_type ∉ get_available_materials).
{ unfold get_available_materials. intros Hin.
  apply elem_of_cons in Hin as [E | Hin]; [exact (H1 E) |].
  apply elem_of_cons in Hin as [E | Hin]; [exact (H2 E) |].
  apply elem_of_cons in Hin as [E | Hin]; [exact (H3 E) |].
  apply elem_of_cons in Hin as [E | Hin]; [exact (H4 E) |].
  inversion Hin. }
assert (Hs : "Steel" ∈ get_available_materials) by apply list_elem_of_here.
destruct (properties_db_lookup (T:=T)) as (Edb & _).
assert (Hsteel : get_properties (T:=T) "Steel" = Some Steel).
{ rewrite get_properties_known by exact Hs. exact Edb. }
split; [| exact Hsteel].
rewrite Hsteel, (get_properties_unknown _ Hout). exact Edb.
Qed.

Lemma get_properties_fallback_witness :
  get_properties (T:=float) "Unobtainium" = get_properties "Steel" /\
  get_properties (T:=float) "Steel" = Some Steel.
Proof. apply get_properties_fallback; discriminate. Defined.

(** C10.  [get_properties] is total on strings: for every name it returns
    a dict with exactly the twelve property keys, in which
    thermal_conductivity, density, specific_heat_solid and
    specific_heat_liquid are positive and
    liquidus_temp > solidus_temp > 298; so the result is a valid material
    for the physics engine. *)
Theorem get_properties_total (material_type : string) :
  exists (m : gmap string R) (k rho c_s c_l T_s T_l : R),
    get_properties material_type = Some m /\
    dom m = list_to_set property_names /\
    size (dom m) = 12%nat /\
    has_fields m k rho c_s c_l T_s T_l /\
    0 < k /\ 0 < rho /\ 0 < c_s /\ 0 < c_l /\
    298 < T_s /\ T_s < T_l /\
    valid_material m.
Proof.
assert (Hsize : size (list_to_set property_names : gset string) = 12%nat)
  by (vm_compute; reflexivity).
destruct (get_properties_cases (T:=R) material_type) as [E | [E | [E | E]]];
  rewrite E.
- destruct (Steel_fields (T:=R)) as [Hd Hf].
  eexists _, _, _, _, _, _, _. split; [reflexivity |].
  split; [exact Hd |]. split; [rewrite Hd; exact Hsize |].
  split; [exact Hf |]. real_ops.
  repeat (split; [lra |]). apply valid_material_Steel.
- destruct (Aluminum_fields (T:=R)) as [Hd Hf].
  eexists _, _, _, _, _, _, _. split; [reflexivity |].
  split; [exact Hd |]. split; [rewrite Hd; exact Hsize |].
  split; [exact Hf |]. real_ops.
  repeat (split; [lra |]). apply valid_material_Aluminum.
- destruct (Stainless_Steel_fields (T:=R)) as [Hd Hf].
  eexists _, _, _, _, _, _, _. split; [reflexivity |].
  split; [exact Hd |]. split; [rewrite Hd; exact Hsize |].
  split; [exact Hf |]. real_ops.
  repeat (split; [lra |]).
  eapply has_fields_valid; [exact Hf | real_ops; lra ..].
- destruct (Titanium_fields (T:=R)) as [Hd Hf].
  eexists _, _, _, _, _, _, _. split; [reflexivity |].
  split; [exact Hd |]. split; [rewrite Hd; exact Hsize |].
  split; [exact Hf |]. real_ops.
  repeat (split; [lra |]).
  eapply has_fields_valid; [exact Hf | real_ops; lra ..].
Qed.
End Claims.

(** * Binary64 runs

    The same definitions at the float instance, evaluated.  The properties
    above are stated in the real semantics, which has no rounding; the last
    two remarks record where a binary64 result leaves it in the last place. *)

Section Binary64.
Import MaterialProperties WeldingSimulator.
Local Open Scope float_scope.

(** [lit] gives a decimal literal the float Python gives it. *)
Lemma lit_binary64 :
  lit 0.7 = 0x1.6666666666666p-1 /\ lit 3.2 = 0x1.999999999999ap+1 /\
  lit 0.1 = 0x1.999999999999ap-4 /\ lit 2.5 = 2.5 /\ lit 1000 = 1000.
Proof. repeat split; vm_compute; reflexivity. Qed.

(** The base case of the spec: 700 J/mm into Steel, plate 10 mm. *)
Lemma base_pool_binary64 :
  calculate_weld_pool_geometry 700 Steel 10
  = Some {| width := 20;
            length := 11883.569084194853;
            penetration := 9;
            aspect_ratio := 594.17845420974265;
            dilution_ratio := 0.75;
            volume := 1120000;
            heat_input := 700;
            characteristic_length := 1485.4461355243564 |}.
Proof. vm_compute. reflexivity. Qed.

Lemma base_sensitivity_binary64 :
  option_map (map (fun r => (parameter r, width_sensitivity r)))
    (sensitivity_analysis 200 25 5 0.7 Steel 10)
  = Some [("current", 0); ("voltage", 0); ("travel_speed", 0);
          ("arc_efficiency", 0)].
Proof. vm_compute. reflexivity. Qed.

(** An unknown name evaluates to the Steel record. *)
Lemma unknown_material_binary64 :
  get_properties (T:=float) "Unobtainium" = Some Steel.
Proof. vm_compute. reflexivity. Qed.

(** Rounding: in binary64 the factor 60 does not always cancel bit for
    bit.  At 50 A, 11 V, 4.5 mm/s and efficiency 0.55 the function returns
    a float above the one that 0.55 * 11 * 50 / 4.5 evaluates to. *)
Remark heat_input_last_place :
  calculate_heat_input 50 11 4.5 0.55 = Some 67.222222222222243 /\
  0.55 * 11 * 50 / 4.5 = 67.222222222222229 /\
  PrimFloat.ltb 67.222222222222229 67.222222222222243 = true.
Proof. repeat split; vm_compute; reflexivity. Qed.

(** Rounding: the quotient (3.2 w) / w of an unclamped pool can fall one
    place below the float 3.2. *)
Remark aspect_ratio_last_place :
  option_map aspect_ratio (calculate_weld_pool_geometry 1 Steel 10)
  = Some 3.1999999999999997 /\
  PrimFloat.ltb 3.1999999999999997 (lit 3.2) = true.
Proof. split; vm_compute; reflexivity. Qed.

(** The same one place below 3.2 at a setting of the sliders: 50 A, 13 V,
    20 mm/s, efficiency 0.5, Aluminum, plate 25 mm.  The width 42.3 mm is
    below 2 * 25 mm, so the clamp is not engaged. *)
Lemma aspect_ratio_below_binary64 :
  exists (h : float) (g : WeldPoolGeometry float),
    calculate_heat_input 50 13 20 0.5 = Some h /\
    calculate_weld_pool_geometry h Aluminum 25 = Some g /\
    width g = 42.296598718531044 /\
    PrimFloat.ltb (width g) (2 * 25) = true /\
    aspect_ratio g = 3.1999999999999997 /\
    PrimFloat.ltb (aspect_ratio g) (lit 3.2) = true.
Proof.
eexists. eexists. split; [vm_compute; reflexivity |].
split; [vm_compute; reflexivity |].
repeat split; vm_compute; reflexivity.
Qed.

(** The cap of line 156 in binary64, whatever [np.exp] computes: an entry
    of a returned field is a NaN or is not above 3500. *)
Lemma field_capped {T : Type} `{Num T} `{Elementary T}
    (h : T) (m : gmap string T) (ts : T) (tf : TemperatureField T) :
  calculate_temperature_distribution h m ts = Some tf ->
  exists T0 : list (list T),
    temperature tf = map (map (fun t => np_minimum t (lit 3500))) T0.
Proof.
unfold calculate_temperature_distribution. intros E.
destruct (m !! "thermal_conductivity") as [k |]; [| discriminate E].
cbn [mbind option_bind] in E.
destruct (m !! "density") as [rho |]; [| discriminate E].
cbn [mbind option_bind] in E.
destruct (m !! "specific_heat_solid") as [cp |]; [| discriminate E].
cbn [mbind option_bind] in E.
destruct (pydiv k _) as [alpha |]; [| discriminate E].
cbn [mbind option_bind] in E. unfold meshgrid in E.
destruct (mapM _ _) as [T0 |]; [| discriminate E].
cbn [mbind option_bind] in E.
destruct (np_max _) as [mx |]; [| discriminate E].
cbn [mbind option_bind] in E.
destruct (np_min _) as [mn |]; [| discriminate E].
cbn [mbind option_bind] in E.
injection E as <-. exists T0. reflexivity.
Qed.

Remark cap_binary64
    (e : float -> float) (h : float) (m : gmap string float) (ts : float)
    (tf : TemperatureField float) :
  @calculate_temperature_distribution float _ (binary64_Elementary e) h m ts
    = Some tf ->
  Forall (Forall (fun t => np_isnan t = true \/ PrimFloat.ltb 3500 t = false))
         (temperature tf).
Proof.
intros E. apply field_capped in E as [T0 ->].
apply Forall_map_all. intros row. apply Forall_map_all. intros t.
unfold np_minimum. change (lit 3500) with 3500.
destruct (np_isnan t) eqn:Et; [left; exact Et |]. right.
change (np_isnan 3500) with false. cbn [ltb float_Num].
destruct (PrimFloat.ltb 3500 t) eqn:Ec; [reflexivity | exact Ec].
Qed.

(** Overflow.  A heat input of 1e306 J/mm makes q = heat_input * 1000
    infinite.  Given only that [np.exp] underflows to 0 below -746, the
    entry 20 mm ahead of the source on the centreline (exponent about
    -11324 for Steel at 5 mm/s) is inf * 0, a NaN; the cap keeps it, and
    max_temp and min_temp are NaN too. *)
Lemma overflow_field_nan :
  PrimFloat.ltb 0 1e306 = true /\
  forall e : float -> float,
    (forall a : float, PrimFloat.ltb a (-746) = true -> e a = 0) ->
    exists (tf : TemperatureField float) (t : float),
      @calculate_temperature_distribution float _ (binary64_Elementary e)
        1e306 Steel 5 = Some tf /\
      entry (temperature tf) 15 0 = Some t /\
      np_isnan t = true /\
      PrimFloat.leb 298 t = false /\ PrimFloat.leb t 3500 = false /\
      np_isnan (max_temp tf) = true /\ np_isnan (min_temp tf) = true.
Proof.
split; [vm_compute; reflexivity |].
intros e He.
set (e' := fun a => if PrimFloat.ltb a (-746) then 0 else e a).
assert (Ee : e = e').
{ apply functional_extensionality. intros a. unfold e'.
  destruct (PrimFloat.ltb a (-746)) eqn:E; [apply He; exact E | reflexivity]. }
rewrite Ee. clear Ee He.
destruct (@calculate_temperature_distribution float _ (binary64_Elementary e')
            1e306 Steel 5) as [tf |] eqn:E.
- exists tf, nan.
  assert (Hnan : entry (temperature tf) 15 0 = Some nan /\
                 max_temp tf = nan /\ min_temp tf = nan).
  { vm_compute in E. injection E as <-. vm_compute. repeat split. }
  destruct Hnan as (E15 & Emax & Emin).
  split; [reflexivity |]. split; [exact E15 |].
  rewrite Emax, Emin. repeat split; vm_compute; reflexivity.
- vm_compute in E. discriminate E.
Qed.
End Binary64.

(** * Further properties

    Properties of the remaining functions and of the engine beyond the
    claims, in the real semantics unless binary64 is named. *)

(** ** The catalogue and its readers *)

Section CatalogueReaders.
Import MaterialProperties.
Local Open Scope R_scope.

Lemma pymax_R (a b : R) : pymax a b = Rmax a b.
Proof.
unfold pymax, Rmax. cbn [ltb R_Num].
destruct (Rlt_dec a b), (Rle_dec a b); try reflexivity; lra.
Qed.

(** X1.  [get_available_materials] lists, without repetition, exactly the
    keys of the database: a listed name is looked up as itself, any other
    name as "Steel". *)
Theorem available_materials_are_keys {T : Type} `{Num T} :
  NoDup get_available_materials /\
  forall s : string,
    (s ∈ get_available_materials <-> is_Some (properties_db (T:=T) !! s)) /\
    (s ∈ get_available_materials ->
       get_properties (T:=T) s = properties_db !! s) /\
    (s ∉ get_available_materials ->
       get_properties (T:=T) s = properties_db !! "Steel").
Proof.
split.
- unfold get_available_materials.
  repeat (apply NoDup_cons; split;
          [rewrite ?elem_of_cons, elem_of_nil; intros Hin;
           repeat (destruct Hin as [Hin | Hin]; [discriminate Hin |]);
           exact Hin |]).
  apply NoDup_nil. exact I.
- intros s. split; [| split].
  + rewrite <- elem_of_dom, dom_properties_db, elem_of_list_to_set.
    reflexivity.
  + apply get_properties_known.
  + apply get_properties_unknown.
Qed.

(** Whatever the name, the record looked up has positive conductivity,
    density and solid specific heat and a liquidus above 298 K. *)
Lemma catalogue_record (s : string) :
  exists (m : gmap string R) (k rho c_s T_l : R),
    get_properties s = Some m /\
    m !! "thermal_conductivity" = Some k /\
    m !! "density" = Some rho /\
    m !! "specific_heat_solid" = Some c_s /\
    m !! "liquidus_temp" = Some T_l /\
    0 < k /\ 0 < rho /\ 0 < c_s /\ 298 < T_l.
Proof.
destruct (get_properties_cases (T:=R) s) as [E | [E | [E | E]]]; rewrite E.
- destruct (Steel_fields (T:=R)) as [_ (Ek & Er & Ec & _ & _ & El)].
  eexists _, _, _, _, _. split; [reflexivity |].
  repeat (split; [eassumption |]). real_ops. lra.
- destruct (Aluminum_fields (T:=R)) as [_ (Ek & Er & Ec & _ & _ & El)].
  eexists _, _, _, _, _. split; [reflexivity |].
  repeat (split; [eassumption |]). real_ops. lra.
- destruct (Stainless_Steel_fields (T:=R)) as [_ (Ek & Er & Ec & _ & _ & El)].
  eexists _, _, _, _, _. split; [reflexivity |].
  repeat (split; [eassumption |]). real_ops. lra.
- destruct (Titanium_fields (T:=R)) as [_ (Ek & Er & Ec & _ & _ & El)].
  eexists _, _, _, _, _. split; [reflexivity |].
  repeat (split; [eassumption |]). real_ops. lra.
Qed.

Lemma get_thermal_diffusivity_R (s : string) (m : gmap string R)
    (k rho c_s : R) :
  get_properties s = Some m ->
  m !! "thermal_conductivity" = Some k -> m !! "density" = Some rho ->
  m !! "specific_heat_solid" = Some c_s -> 0 < rho -> 0 < c_s ->
  get_thermal_diffusivity s = Some (k / (rho * c_s)).
Proof.
intros Em Ek Er Ec Hr Hc.
assert (Hd : 0 < rho * c_s) by (apply Rmult_lt_0_compat; assumption).
unfold get_thermal_diffusivity. rewrite Em. cbn [mbind option_bind].
rewrite Ek, Er, Ec. cbn [mbind option_bind].
apply pydiv_R. real_ops. lra.
Qed.

Lemma lit_million : lit (T:=R) 1e6 = 1000000.
Proof. cbn [lit R_Num]. change 1e6%Q with (1000000 # 1)%Q. apply Q2R_int. Qed.

(** X2.  [get_thermal_diffusivity] never raises: for every name it returns
    k / (rho c_s) of the record that [get_properties] returns for that name,
    a positive number. *)
Theorem thermal_diffusivity_total (s : string) :
  exists (m : gmap string R) (k rho c_s alpha : R),
    get_properties s = Some m /\
    m !! "thermal_conductivity" = Some k /\
    m !! "density" = Some rho /\
    m !! "specific_heat_solid" = Some c_s /\
    get_thermal_diffusivity s = Some alpha /\
    alpha = k / (rho * c_s) /\ 0 < alpha.
Proof.
destruct (catalogue_record s)
  as (m & k & rho & c_s & T_l & Em & Ek & Er & Ec & _ & Hk & Hr & Hc & _).
exists m, k, rho, c_s, (k / (rho * c_s)).
repeat (split; [assumption |]).
assert (Hd : 0 < rho * c_s) by (apply Rmult_lt_0_compat; assumption).
split; [| split; [reflexivity | apply div_lt_lower; lra]].
exact (get_thermal_diffusivity_R s m k rho c_s Em Ek Er Ec Hr Hc).
Qed.

(** The factor of lines 139-147 over the reals, for a record with a liquidus
    above 298 K: 1 - c (T - 298) / (T_l - 298), the coefficient [c] chosen by
    the name. *)
Lemma k_factor_raw_R (s : string) (m : gmap string R) (T_l : R) :
  m !! "liquidus_temp" = Some T_l -> 298 < T_l ->
  exists c : R,
    (c = 0.3 \/ c = 0.2 \/ c = 0.15) /\
    (s = "Steel" -> c = 0.3) /\
    (s ∉ get_available_materials -> c = 0.15) /\
    forall temperature : R,
      k_factor_raw s m temperature
      = Some (1.0 - c * (temperature - 298) / (T_l - 298)).
Proof.
intros El HT. unfold k_factor_raw.
assert (Hd : T_l - 298 <> 0) by lra.
case_bool_decide as Hin.
- exists 0.3. split; [tauto |]. split; [reflexivity |]. split.
  + intros Hout. exfalso. apply Hout. unfold get_available_materials.
    apply elem_of_cons in Hin as [-> | Hin]; [apply list_elem_of_here |].
    apply elem_of_cons in Hin as [-> | Hin]; [| inversion Hin].
    do 2 apply list_elem_of_further. apply list_elem_of_here.
  + intros temperature. rewrite El. cbn [mbind option_bind]. real_ops.
    rewrite pydiv_R by exact Hd. reflexivity.
- destruct (String.eqb_spec s "Aluminum") as [-> | Hne].
  + exists 0.2. split; [tauto |]. split; [discriminate |]. split.
    * intros Hout. exfalso. apply Hout. unfold get_available_materials.
      apply list_elem_of_further, list_elem_of_here.
    * intros temperature. rewrite El. cbn [mbind option_bind]. real_ops.
      rewrite pydiv_R by exact Hd. reflexivity.
  + exists 0.15. split; [tauto |]. split.
    * intros ->. exfalso. apply Hin. apply list_elem_of_here.
    * split; [reflexivity |].
      intros temperature. rewrite El. cbn [mbind option_bind]. real_ops.
      rewrite pydiv_R by exact Hd. reflexivity.
Qed.

(** What [get_thermal_conductivity_temperature_dependent] returns. *)
Lemma conductivity_formula (s : string) :
  exists (m : gmap string R) (k_room T_l c : R),
    get_properties s = Some m /\
    m !! "thermal_conductivity" = Some k_room /\
    m !! "liquidus_temp" = Some T_l /\
    0 < k_room /\ 298 < T_l /\
    (c = 0.3 \/ c = 0.2 \/ c = 0.15) /\
    (s = "Steel" -> c = 0.3) /\
    (s ∉ get_available_materials -> c = 0.15) /\
    forall temperature : R,
      get_thermal_conductivity_temperature_dependent s temperature
      = Some (k_room
              * Rmax 0.3 (Rmin 1.0 (1.0 - c * (temperature - 298) / (T_l - 298)))).
Proof.
destruct (catalogue_record s)
  as (m & k & rho & c_s & T_l & Em & Ek & _ & _ & El & Hk & _ & _ & HT).
destruct (k_factor_raw_R s m T_l El HT) as (c & Hc & Hsteel & Hout & Hraw).
exists m, k, T_l, c. repeat (split; [assumption |]).
intros temperature.
unfold get_thermal_conductivity_temperature_dependent.
rewrite Em. cbn [mbind option_bind]. rewrite Ek. cbn [mbind option_bind].
rewrite Hraw. cbn [mbind option_bind].
rewrite pymax_R, pymin_R. real_ops. reflexivity.
Qed.

(** X3.  [get_thermal_conductivity_temperature_dependent] never raises, for
    any name and any temperature, and its result lies between 0.3 k_room
    and k_room, where k_room is the conductivity of the record looked up; so
    it is positive. *)
Theorem conductivity_bounds (s : string) (temperature : R) :
  exists (m : gmap string R) (k_room k : R),
    get_properties s = Some m /\
    m !! "thermal_conductivity" = Some k_room /\
    get_thermal_conductivity_temperature_dependent s temperature = Some k /\
    0.3 * k_room <= k <= k_room /\ 0 < k.
Proof.
destruct (conductivity_formula s)
  as (m & k_room & T_l & c & Em & Ek & _ & Hk & _ & _ & _ & _ & Hf).
eexists m, k_room, _. split; [exact Em |]. split; [exact Ek |].
split; [apply Hf |].
set (f := 1.0 - c * (temperature - 298) / (T_l - 298)).
assert (Hlo : 0.3 <= Rmax 0.3 (Rmin 1.0 f)) by apply Rmax_l.
assert (Hhi : Rmax 0.3 (Rmin 1.0 f) <= 1.0).
{ apply Rmax_lub; [lra | apply Rmin_l]. }
nra.
Qed.

(** X4.  At or below room temperature (298 K) the result is the room value
    k_room itself, for every name. *)
Theorem conductivity_at_room (s : string) (temperature : R) :
  temperature <= 298 ->
  exists (m : gmap string R) (k_room : R),
    get_properties s = Some m /\
    m !! "thermal_conductivity" = Some k_room /\
    get_thermal_conductivity_temperature_dependent s temperature
      = Some k_room.
Proof.
intros HT.
destruct (conductivity_formula s)
  as (m & k_room & T_l & c & Em & Ek & _ & Hk & Hl & Hc & _ & _ & Hf).
exists m, k_room. split; [exact Em |]. split; [exact Ek |].
rewrite Hf. f_equal.
assert (Hs : 0 <= c * (298 - temperature) / (T_l - 298)).
{ apply div_le_lower; [lra |]. destruct Hc as [-> | [-> | ->]]; nra. }
assert (Hf1 : 1.0 <= 1.0 - c * (temperature - 298) / (T_l - 298)).
{ replace (c * (temperature - 298) / (T_l - 298))
    with (- (c * (298 - temperature) / (T_l - 298)))
    by (field; lra).
  lra. }
rewrite Rmin_left by exact Hf1. rewrite Rmax_right by lra. lra.
Qed.

Lemma conductivity_at_room_witness :
  exists (m : gmap string R) (k_room : R),
    get_properties "Titanium" = Some m /\
    m !! "thermal_conductivity" = Some k_room /\
    get_thermal_conductivity_temperature_dependent "Titanium" 250
      = Some k_room.
Proof. apply conductivity_at_room. lra. Defined.

(** X5.  The result never increases with the temperature: for every name,
    a hotter temperature gives a conductivity that is at most the cooler
    one's. *)
Theorem conductivity_decreasing (s : string) (T1 T2 : R) :
  T1 <= T2 ->
  exists k1 k2 : R,
    get_thermal_conductivity_temperature_dependent s T1 = Some k1 /\
    get_thermal_conductivity_temperature_dependent s T2 = Some k2 /\
    k2 <= k1.
Proof.
intros HT.
destruct (conductivity_formula s)
  as (m & k_room & T_l & c & _ & _ & _ & Hk & Hl & Hc & _ & _ & Hf).
eexists _, _. split; [apply Hf |]. split; [apply Hf |].
apply Rmult_le_compat_l; [lra |].
apply Rle_max_compat_l. apply Rle_min_compat_l.
apply Rplus_le_compat_l, Ropp_le_contravar.
apply div_le_lower; [lra |].
replace (c * (T1 - 298) / (T_l - 298) * (T_l - 298)) with (c * (T1 - 298))
  by (field; lra).
destruct Hc as [-> | [-> | ->]]; lra.
Qed.

Lemma conductivity_decreasing_witness :
  exists k1 k2 : R,
    get_thermal_conductivity_temperature_dependent "Aluminum" 400 = Some k1 /\
    get_thermal_conductivity_temperature_dependent "Aluminum" 900 = Some k2 /\
    k2 <= k1.
Proof. apply conductivity_decreasing. lra. Defined.

(** X6.  For a name outside the catalogue the property values are Steel's
    (the fallback of [get_properties]) but the branch on the name takes the
    coefficient 0.15 of the final else, not Steel's 0.3: between 298 K and
    Steel's liquidus 1798 K the result is 50 (1 - 0.15 (T - 298) / 1500),
    above what the name "Steel" gives, 50 (1 - 0.3 (T - 298) / 1500). *)
Theorem unknown_material_conductivity (s : string) (temperature : R) :
  s ∉ get_available_materials -> 298 < temperature <= 1798 ->
  exists k_unknown k_steel : R,
    get_thermal_conductivity_temperature_dependent s temperature
      = Some k_unknown /\
    get_thermal_conductivity_temperature_dependent "Steel" temperature
      = Some k_steel /\
    k_unknown = 50 * (1 - 0.15 * (temperature - 298) / 1500) /\
    k_steel = 50 * (1 - 0.3 * (temperature - 298) / 1500) /\
    k_steel < k_unknown.
Proof.
intros Hout HT.
destruct (Steel_fields (T:=R)) as [_ (Fk & _ & _ & _ & _ & Fl)].
destruct (properties_db_lookup (T:=R)) as (Edb & _).
assert (Hsteel : "Steel" ∈ get_available_materials) by apply list_elem_of_here.
destruct (conductivity_formula s)
  as (m & k_room & T_l & c & Em & Ek & El & _ & _ & _ & _ & Hc & Hf).
rewrite (get_properties_unknown s Hout), Edb in Em. injection Em as <-.
rewrite Fk in Ek. injection Ek as <-. rewrite Fl in El. injection El as <-.
rewrite (Hc Hout) in Hf.
destruct (conductivity_formula "Steel")
  as (m' & k_room' & T_l' & c' & Em' & Ek' & El' & _ & _ & _ & Hc' & _ & Hf').
rewrite (get_properties_known "Steel" Hsteel), Edb in Em'. injection Em' as <-.
rewrite Fk in Ek'. injection Ek' as <-. rewrite Fl in El'. injection El' as <-.
rewrite (Hc' eq_refl) in Hf'.
revert Hf Hf'. real_ops. intros Hf Hf'.
eexists _, _. split; [apply Hf |]. split; [apply Hf' |].
replace (1798.0 - 298) with 1500 by lra.
assert (Hr : 0 < (temperature - 298) / 1500 <= 1).
{ split; [apply div_lt_lower | apply div_le_upper]; lra. }
assert (E1 : 0.15 * (temperature - 298) / 1500
             = 0.15 * ((temperature - 298) / 1500)) by (field; lra).
assert (E2 : 0.3 * (temperature - 298) / 1500
             = 0.3 * ((temperature - 298) / 1500)) by (field; lra).
rewrite E1, E2. set (r := (temperature - 298) / 1500) in *.
rewrite !Rmin_right by lra. rewrite !Rmax_right by lra.
repeat split; lra.
Qed.

Lemma unknown_material_conductivity_witness :
  exists k_unknown k_steel : R,
    get_thermal_conductivity_temperature_dependent "Unobtainium" 1798
      = Some k_unknown /\
    get_thermal_conductivity_temperature_dependent "Steel" 1798
      = Some k_steel /\
    k_unknown = 50 * (1 - 0.15 * (1798 - 298) / 1500) /\
    k_steel = 50 * (1 - 0.3 * (1798 - 298) / 1500) /\
    k_steel < k_unknown.
Proof.
apply unknown_material_conductivity; [| lra].
unfold get_available_materials. intros Hin.
repeat (apply elem_of_cons in Hin as [Hin | Hin]; [discriminate Hin |]).
inversion Hin.
Defined.

Lemma mapM_Forall2 {A B : Type} (f : A -> option B) (P : A -> B -> Prop)
    (l : list A) :
  (forall a, exists b, f a = Some b /\ P a b) ->
  exists bs, mapM f l = Some bs /\ Forall2 P l bs.
Proof.
intros Hf. induction l as [| a l (bs & Ebs & Hbs)].
- exists []. split; [reflexivity | constructor].
- destruct (Hf a) as (b & Eb & Hb). exists (b :: bs). split.
  + cbn. rewrite Eb. cbn. rewrite Ebs. reflexivity.
  + constructor; assumption.
Qed.

(** Every record of the catalogue has the two efficiency keys the table
    reads. *)
Lemma catalogue_efficiencies (s : string) (m : gmap string R) :
  get_properties s = Some m ->
  is_Some (m !! "arc_efficiency_gtaw") /\ is_Some (m !! "arc_efficiency_gmaw").
Proof.
intros Em.
assert (Hd : dom m = list_to_set property_names).
{ destruct (get_properties_cases (T:=R) s) as [E | [E | [E | E]]];
    rewrite E in Em; injection Em as <-.
  - apply Steel_fields. - apply Aluminum_fields.
  - apply Stainless_Steel_fields. - apply Titanium_fields. }
rewrite <- !elem_of_dom, Hd, !elem_of_list_to_set.
unfold property_names. split.
- do 9 apply list_elem_of_further. apply list_elem_of_here.
- do 10 apply list_elem_of_further. apply list_elem_of_here.
Qed.

(** One row of the table, for any name. *)
Lemma comparison_row_R (s : string) :
  exists r : ComparisonRow R,
    comparison_row s = Some r /\
    (Material r = s /\
     exists (m : gmap string R) (k rho c_s T_l : R),
       get_properties s = Some m /\
       m !! "thermal_conductivity" = Some k /\
       m !! "density" = Some rho /\
       m !! "specific_heat_solid" = Some c_s /\
       m !! "liquidus_temp" = Some T_l /\
       Thermal_Conductivity r = k /\ Density r = rho /\
       Melting_Point r = T_l - 273.15 /\
       Thermal_Diffusivity r = k / (rho * c_s) * 1000000 /\
       m !! "arc_efficiency_gtaw" = Some (GTAW_Efficiency r) /\
       m !! "arc_efficiency_gmaw" = Some (GMAW_Efficiency r) /\
       0 < Thermal_Diffusivity r /\ 0 < Melting_Point r).
Proof.
destruct (catalogue_record s)
  as (m & k & rho & c_s & T_l & Em & Ek & Er & Ec & El & Hk & Hr & Hc & HT).
assert (Ea := get_thermal_diffusivity_R s m k rho c_s Em Ek Er Ec Hr Hc).
assert (Hd : 0 < rho * c_s) by (apply Rmult_lt_0_compat; assumption).
assert (Hpos : 0 < k / (rho * c_s)) by (apply div_lt_lower; lra).
destruct (catalogue_efficiencies s m Em) as [[gt Egt] [gm Egm]].
assert (Hmelt : 900 < T_l).
{ destruct (get_properties_cases (T:=R) s) as [E | [E | [E | E]]];
    rewrite E in Em; injection Em as <-.
  - destruct (Steel_fields (T:=R)) as [_ (_ & _ & _ & _ & _ & Fl)].
    rewrite Fl in El. injection El as <-. real_ops. lra.
  - destruct (Aluminum_fields (T:=R)) as [_ (_ & _ & _ & _ & _ & Fl)].
    rewrite Fl in El. injection El as <-. real_ops. lra.
  - destruct (Stainless_Steel_fields (T:=R)) as [_ (_ & _ & _ & _ & _ & Fl)].
    rewrite Fl in El. injection El as <-. real_ops. lra.
  - destruct (Titanium_fields (T:=R)) as [_ (_ & _ & _ & _ & _ & Fl)].
    rewrite Fl in El. injection El as <-. real_ops. lra. }
unfold comparison_row.
rewrite Em. cbn [mbind option_bind]. rewrite Ea. cbn [mbind option_bind].
rewrite Ek, Er, El, Egt, Egm. cbn [mbind option_bind].
rewrite lit_million. real_ops.
eexists. split; [reflexivity |].
cbn [Material Thermal_Conductivity Density Melting_Point Thermal_Diffusivity
     GTAW_Efficiency GMAW_Efficiency].
split; [reflexivity |].
exists m, k, rho, c_s, T_l.
repeat (split; [first [assumption | reflexivity] |]).
split; [apply Rmult_lt_0_compat; lra | lra].
Qed.

(** X7.  [get_material_comparison_table] never raises: it yields one row
    per available material, in the order of [get_available_materials]; the
    row of a material carries its conductivity and density, its liquidus
    less 273.15 as melting point (above 0), k / (rho c_s) times 10^6 as
    diffusivity (positive) and its two arc efficiencies. *)
Theorem comparison_table_rows :
  exists rows : list (ComparisonRow R),
    get_material_comparison_table = Some rows /\
    map Material rows = get_available_materials /\
    Forall (fun r =>
      exists (m : gmap string R) (k rho c_s T_l : R),
        get_properties (Material r) = Some m /\
        m !! "thermal_conductivity" = Some k /\
        m !! "density" = Some rho /\
        m !! "specific_heat_solid" = Some c_s /\
        m !! "liquidus_temp" = Some T_l /\
        Thermal_Conductivity r = k /\ Density r = rho /\
        Melting_Point r = T_l - 273.15 /\
        Thermal_Diffusivity r = k / (rho * c_s) * 1000000 /\
        m !! "arc_efficiency_gtaw" = Some (GTAW_Efficiency r) /\
        m !! "arc_efficiency_gmaw" = Some (GMAW_Efficiency r) /\
        0 < Thermal_Diffusivity r /\ 0 < Melting_Point r) rows.
Proof.
unfold get_material_comparison_table.
destruct (mapM_Forall2 comparison_row _ get_available_materials comparison_row_R)
  as (rows & Erows & Hrows).
exists rows. split; [exact Erows |]. clear Erows.
induction Hrows as [| s r l rows (Hname & Hrow) _ [IHn IHf]].
- split; [reflexivity | constructor].
- split.
  + cbn [map]. rewrite Hname, IHn. reflexivity.
  + constructor; [| exact IHf]. rewrite Hname. exact Hrow.
Qed.
End CatalogueReaders.

(** ** Heat input *)

Section HeatInputProperties.
Import WeldingSimulator.
Local Open Scope R_scope.

(** X8.  [calculate_heat_input] raises exactly when the travel speed is 0
    (the divisor travel_speed * 60 is then 0); with any other travel speed
    it returns, whatever the other arguments. *)
Theorem heat_input_raises_iff (current voltage travel_speed arc_efficiency : R) :
  calculate_heat_input current voltage travel_speed arc_efficiency = None
  <-> travel_speed = 0.
Proof.
split.
- intros Hnone. destruct (Req_dec_T travel_speed 0) as [E | Hne]; [exact E |].
  rewrite calculate_heat_input_R in Hnone by exact Hne. discriminate.
- intros ->. apply calculate_heat_input_zero_speed.
Qed.

(** X9.  With positive arguments the heat input grows strictly with the
    current and falls strictly as the travel speed grows. *)
Theorem heat_input_monotone (I1 I2 V v1 v2 eta : R) :
  0 < I1 < I2 -> 0 < V -> 0 < v1 < v2 -> 0 < eta ->
  exists h11 h21 h12 : R,
    calculate_heat_input I1 V v1 eta = Some h11 /\
    calculate_heat_input I2 V v1 eta = Some h21 /\
    calculate_heat_input I1 V v2 eta = Some h12 /\
    h11 < h21 /\ h12 < h11.
Proof.
intros HI HV Hv Heta.
rewrite !calculate_heat_input_R by lra.
eexists _, _, _. repeat (split; [reflexivity |]).
assert (HeV : 0 < eta * V) by (apply Rmult_lt_0_compat; assumption).
assert (Hn1 : 0 < eta * V * I1 * 60) by nra.
split.
- apply div_lt_lower; [lra |].
  replace (eta * V * I1 * 60 / (v1 * 60) * (v1 * 60)) with (eta * V * I1 * 60)
    by (field; lra).
  nra.
- apply div_lt_upper; [lra |].
  apply (Rmult_lt_reg_r (v1 * 60)); [lra |].
  replace (eta * V * I1 * 60 / (v1 * 60) * (v2 * 60) * (v1 * 60))
    with (eta * V * I1 * 60 * (v2 * 60)) by (field; lra).
  nra.
Qed.

Lemma heat_input_monotone_witness :
  exists h11 h21 h12 : R,
    calculate_heat_input 200 25 5 0.7 = Some h11 /\
    calculate_heat_input 250 25 5 0.7 = Some h21 /\
    calculate_heat_input 200 25 10 0.7 = Some h12 /\
    h11 < h21 /\ h12 < h11.
Proof. apply heat_input_monotone; lra. Defined.
End HeatInputProperties.

(** ** Weld pool geometry *)

Section GeometryProperties.
Import MaterialProperties WeldingSimulator.
Local Open Scope R_scope.

Lemma pool_char_length_R (h : R) (m : gmap string R) (k T_m : R) :
  m !! "thermal_conductivity" = Some k -> m !! "liquidus_temp" = Some T_m ->
  0 < k -> 298 < T_m ->
  pool_char_length h m = Some (h * 1000 / (2 * PI * k * (T_m - 298))).
Proof.
intros Ek El Hk HT. unfold pool_char_length. rewrite Ek, El.
cbn [mbind option_bind]. apply char_length_R; assumption.
Qed.

(** X10.  A material dict that lacks one of the four keys the function reads
    (thermal_conductivity, density, specific_heat_solid, liquidus_temp) makes
    [calculate_weld_pool_geometry] raise, for every heat input and plate
    thickness. *)
Theorem geometry_missing_key (h : R) (m : gmap string R) (pt : R) :
  m !! "thermal_conductivity" = None \/ m !! "density" = None \/
  m !! "specific_heat_solid" = None \/ m !! "liquidus_temp" = None ->
  calculate_weld_pool_geometry h m pt = None.
Proof.
intros Hmiss. unfold calculate_weld_pool_geometry.
destruct (m !! "thermal_conductivity") as [k |]; [| reflexivity].
destruct (m !! "density") as [rho |]; [| reflexivity].
destruct (m !! "specific_heat_solid") as [cp |]; [| reflexivity].
destruct (m !! "liquidus_temp") as [T_m |]; [| reflexivity].
destruct Hmiss as [E | [E | [E | E]]]; discriminate E.
Qed.

Lemma geometry_missing_key_witness :
  calculate_weld_pool_geometry 700 (delete "density" Steel) 10 = None.
Proof.
apply geometry_missing_key. right. left. apply lookup_delete_eq.
Defined.

(** X11.  A degenerate material makes [calculate_weld_pool_geometry] raise
    [ZeroDivisionError]: density * specific_heat_solid = 0 (in the thermal
    diffusivity, which the result does not otherwise use), a zero
    conductivity, or a liquidus equal to the room temperature 298. *)
Theorem geometry_degenerate_material
    (h : R) (m : gmap string R) (pt k rho cp T_m : R) :
  m !! "thermal_conductivity" = Some k -> m !! "density" = Some rho ->
  m !! "specific_heat_solid" = Some cp -> m !! "liquidus_temp" = Some T_m ->
  rho * cp = 0 \/ k = 0 \/ T_m = 298 ->
  calculate_weld_pool_geometry h m pt = None.
Proof.
intros Ek Er Ec El Hdeg. unfold calculate_weld_pool_geometry.
rewrite Ek, Er, Ec, El. cbn [mbind option_bind].
destruct (Req_dec_T (rho * cp) 0) as [E0 | Hne].
- replace (mul rho cp) with 0 by (real_ops; lra).
  rewrite pydiv_R_zero. reflexivity.
- rewrite pydiv_R by (real_ops; exact Hne). cbn [mbind option_bind].
  unfold char_length.
  replace (mul (mul (mul (lit 2) pi) k) (sub T_m (lit 298))) with 0.
  + rewrite pydiv_R_zero. reflexivity.
  + real_ops. destruct Hdeg as [E | [-> | ->]]; [contradiction | ring | ring].
Qed.

Lemma geometry_degenerate_material_witness :
  calculate_weld_pool_geometry 700 (<["density" := 0]> Steel) 10 = None.
Proof.
destruct (Steel_fields (T:=R)) as [_ (Ek & _ & Ec & _ & _ & El)].
eapply (geometry_degenerate_material 700 _ 10 _ 0).
- rewrite lookup_insert_ne by discriminate. exact Ek.
- apply lookup_insert_eq.
- rewrite lookup_insert_ne by discriminate. exact Ec.
- rewrite lookup_insert_ne by discriminate. exact El.
- left. ring.
Defined.

(** X12.  A heat input of 0 makes [calculate_weld_pool_geometry] raise, also
    for a valid material and a positive plate thickness: the width is then
    0 and aspect_ratio = length / width divides by it. *)
Theorem geometry_zero_heat_input (m : gmap string R) (pt : R) :
  valid_material m -> 0 < pt ->
  calculate_weld_pool_geometry 0 m pt = None.
Proof.
intros ((Hk & Hrho & Hcp) & T_m & El & HT) Hp.
destruct Hk as (k & Ek & Hk), Hrho as (rho & Er & Hrho), Hcp as (cp & Ec & Hcp).
unfold calculate_weld_pool_geometry.
rewrite Ek, Er, Ec, El. cbn [mbind option_bind].
rewrite pydiv_R by (real_ops; apply Rgt_not_eq, Rmult_lt_0_compat; lra).
cbn [mbind option_bind].
rewrite char_length_R by assumption. cbn [mbind option_bind].
replace (0 * 1000 / (2 * PI * k * (T_m - 298))) with 0
  by (unfold Rdiv; ring).
rewrite !pymin_R, raw_width_R. real_ops.
replace (2.5 * 0 * 1000) with 0 by ring.
rewrite (Rmin_left 0 (pt * 2)) by lra.
rewrite pydiv_R_zero. reflexivity.
Qed.

Lemma geometry_zero_heat_input_witness :
  calculate_weld_pool_geometry 0 Steel 10 = None.
Proof. apply geometry_zero_heat_input; [apply valid_material_Steel | lra]. Defined.

(** X13.  The geometry depends on the material only through
    thermal_conductivity and liquidus_temp: two valid materials that agree
    on these two keys give the same record, whatever their densities and
    specific heats. *)
Theorem geometry_ignores_density (h : R) (m1 m2 : gmap string R) (pt : R) :
  0 < h -> 0 < pt -> valid_material m1 -> valid_material m2 ->
  m1 !! "thermal_conductivity" = m2 !! "thermal_conductivity" ->
  m1 !! "liquidus_temp" = m2 !! "liquidus_temp" ->
  exists g : WeldPoolGeometry R,
    calculate_weld_pool_geometry h m1 pt = Some g /\
    calculate_weld_pool_geometry h m2 pt = Some g.
Proof.
intros Hh Hp Hm1 Hm2 Ek El.
destruct (calculate_weld_pool_geometry_R h m1 pt Hh Hm1 Hp)
  as (l1 & El1 & _ & Eg1).
destruct (calculate_weld_pool_geometry_R h m2 pt Hh Hm2 Hp)
  as (l2 & El2 & _ & Eg2).
assert (E : l1 = l2).
{ unfold pool_char_length in El1, El2. rewrite Ek, El in El1.
  rewrite El1 in El2. injection El2 as E. exact E. }
subst l2. eexists. split; [exact Eg1 | exact Eg2].
Qed.

Lemma geometry_ignores_density_witness :
  exists g : WeldPoolGeometry R,
    calculate_weld_pool_geometry 700 Steel 10 = Some g /\
    calculate_weld_pool_geometry 700 (<["density" := 1]> Steel) 10 = Some g.
Proof.
destruct (Steel_fields (T:=R)) as [_ (Ek & _ & Ec & _ & _ & El)].
assert (Hk : 0 < 50.0) by lra. assert (Hc : 0 < 726000.0) by lra.
assert (HT : 298 < 1798.0) by lra.
apply geometry_ignores_density; try lra.
- apply valid_material_Steel.
- split; [split; [| split] |].
  + eexists. split; [| exact Hk]. rewrite lookup_insert_ne by discriminate.
    exact Ek.
  + exists 1. split; [apply lookup_insert_eq | lra].
  + eexists. split; [| exact Hc]. rewrite lookup_insert_ne by discriminate.
    exact Ec.
  + eexists. split; [| exact HT]. rewrite lookup_insert_ne by discriminate.
    exact El.
- rewrite lookup_insert_ne by discriminate. reflexivity.
- rewrite lookup_insert_ne by discriminate. reflexivity.
Defined.

(** X14.  On a valid input the clamp of line 82 never changes the
    penetration, which is at most 0.9 * plate_thickness.  In the thick-plate
    regime (plate_thickness > 3 * raw width) the width is not clamped either
    and penetration = 0.32 * width; in the thin-plate regime
    penetration = min(0.24 * raw width, 0.9 * plate_thickness). *)
Theorem penetration_regimes (h : R) (m : gmap string R) (pt : R) :
  0 < h -> valid_material m -> 0 < pt ->
  exists (g : WeldPoolGeometry R) (l_c : R),
    calculate_weld_pool_geometry h m pt = Some g /\
    pool_char_length h m = Some l_c /\
    penetration g = raw_penetration l_c pt /\
    penetration g <= 0.9 * pt /\
    (3 * raw_width l_c < pt ->
       width g = raw_width l_c /\ penetration g = 0.32 * width g) /\
    (pt <= 3 * raw_width l_c ->
       penetration g = Rmin (0.24 * raw_width l_c) (0.9 * pt)).
Proof.
intros Hh Hm Hp.
destruct (calculate_weld_pool_geometry_R h m pt Hh Hm Hp)
  as (l_c & El & Hl & Eg).
eexists. exists l_c. split; [exact Eg |]. split; [exact El |].
cbn [width penetration].
assert (Hrp := raw_penetration_bounds l_c pt Hl Hp).
rewrite (Rmin_left (raw_penetration l_c pt) pt) by lra.
split; [reflexivity |].
rewrite raw_penetration_R, raw_width_R.
destruct (Rlt_dec (3 * (2.5 * l_c * 1000)) pt) as [Hthick | Hthin].
- split; [lra |]. split.
  + intros _. rewrite Rmin_left by lra. split; [reflexivity | lra].
  + intros Hc. lra.
- assert (E : Rmin (0.6 * l_c * 1000) (pt * 0.9)
              = Rmin (0.24 * (2.5 * l_c * 1000)) (0.9 * pt))
    by (f_equal; lra).
  rewrite E. split; [apply Rmin_r |]. split.
  + intros Hc. lra.
  + intros _. reflexivity.
Qed.

Lemma penetration_regimes_witness :
  exists g : WeldPoolGeometry R,
    calculate_weld_pool_geometry 0.5 Steel 10 = Some g /\
    penetration g <= 0.9 * 10 /\
    penetration g = 0.32 * width g.
Proof.
destruct (penetration_regimes 0.5 Steel 10 ltac:(lra) valid_material_Steel
            ltac:(lra)) as (g & l_c & Eg & El & _ & Hle & Hthick & _).
exists g. split; [exact Eg |]. split; [exact Hle |].
apply Hthick.
destruct (Steel_raw_width_bounds 0.5 l_c ltac:(lra) El) as [_ Hhi]. lra.
Defined.

(** The geometry in terms of the conductivity and the liquidus. *)
Lemma geometry_of_material (h : R) (m : gmap string R) (pt : R) :
  0 < h -> valid_material m -> 0 < pt ->
  exists (k T_m : R) (g : WeldPoolGeometry R),
    m !! "thermal_conductivity" = Some k /\
    m !! "liquidus_temp" = Some T_m /\ 0 < k /\ 298 < T_m /\
    calculate_weld_pool_geometry h m pt = Some g /\
    let l_c := h * 1000 / (2 * PI * k * (T_m - 298)) in
    0 < l_c /\
    width g = Rmin (raw_width l_c) (pt * 2) /\
    length g = 3.2 * raw_width l_c /\
    penetration g = raw_penetration l_c pt.
Proof.
intros Hh Hm Hp.
destruct (calculate_weld_pool_geometry_R h m pt Hh Hm Hp)
  as (l_c & El & Hl & Eg).
destruct Hm as ((Hk & _ & _) & T_m & ET & HT). destruct Hk as (k & Ek & Hk).
rewrite (pool_char_length_R h m k T_m Ek ET Hk HT) in El. injection El as El.
exists k, T_m. eexists. repeat (split; [first [eassumption | exact Eg] |]).
cbn zeta. rewrite El. cbn [width length penetration].
split; [exact Hl |]. split; [reflexivity |]. split; [reflexivity |].
assert (Hrp := raw_penetration_bounds l_c pt Hl Hp).
apply Rmin_left. lra.
Qed.

(** X15.  More heat never narrows the pool: for heat inputs 0 < h1 <= h2
    (same valid material, same plate) the returned width of h1 is at most
    that of h2, and the length is proportional to the heat input. *)
Theorem width_monotone (h1 h2 : R) (m : gmap string R) (pt : R) :
  0 < h1 <= h2 -> valid_material m -> 0 < pt ->
  exists g1 g2 : WeldPoolGeometry R,
    calculate_weld_pool_geometry h1 m pt = Some g1 /\
    calculate_weld_pool_geometry h2 m pt = Some g2 /\
    width g1 <= width g2 /\
    length g1 * h2 = length g2 * h1.
Proof.
intros Hh Hm Hp.
destruct (geometry_of_material h1 m pt ltac:(lra) Hm Hp)
  as (k & T_m & g1 & Ek & ET & Hk & HT & Eg1 & Hl1 & Hw1 & Hlen1 & _).
destruct (geometry_of_material h2 m pt ltac:(lra) Hm Hp)
  as (k' & T_m' & g2 & Ek' & ET' & _ & _ & Eg2 & Hl2 & Hw2 & Hlen2 & _).
rewrite Ek in Ek'. injection Ek' as <-. rewrite ET in ET'. injection ET' as <-.
exists g1, g2. split; [exact Eg1 |]. split; [exact Eg2 |].
rewrite Hw1, Hw2, Hlen1, Hlen2, !raw_width_R.
assert (Hpi := PI_RGT_0).
assert (Hd : 0 < 2 * PI * k * (T_m - 298)).
{ apply Rmult_lt_0_compat; [| lra]. apply Rmult_lt_0_compat; lra. }
split.
- apply Rle_min_compat_r.
  assert (h1 * 1000 / (2 * PI * k * (T_m - 298))
          <= h2 * 1000 / (2 * PI * k * (T_m - 298))).
  { apply div_le_lower; [exact Hd |].
    replace (h1 * 1000 / (2 * PI * k * (T_m - 298)) * (2 * PI * k * (T_m - 298)))
      with (h1 * 1000) by (field; lra).
    lra. }
  lra.
- unfold Q2R; cbn [Qnum Qden]. field. lra.
Qed.

Lemma width_monotone_witness :
  exists g1 g2 : WeldPoolGeometry R,
    calculate_weld_pool_geometry 1 Steel 10 = Some g1 /\
    calculate_weld_pool_geometry 2 Steel 10 = Some g2 /\
    width g1 <= width g2 /\
    length g1 * 2 = length g2 * 1.
Proof.
apply width_monotone; [lra | apply valid_material_Steel | lra].
Defined.

(** X16.  More heat can reduce the penetration.  At the regime boundary,
    where 3 * raw width reaches plate_thickness, the thick-plate factor 0.8
    gives way to the thin-plate factor 0.6: for every valid material and
    plate there are heat inputs h1 < h2 whose penetrations are
    0.096 * plate_thickness and 0.08 * plate_thickness. *)
Theorem penetration_drops (m : gmap string R) (pt : R) :
  valid_material m -> 0 < pt ->
  exists (h1 h2 : R) (g1 g2 : WeldPoolGeometry R),
    0 < h1 < h2 /\
    calculate_weld_pool_geometry h1 m pt = Some g1 /\
    calculate_weld_pool_geometry h2 m pt = Some g2 /\
    penetration g1 = 0.096 * pt /\ penetration g2 = 0.08 * pt /\
    penetration g2 < penetration g1 /\ width g1 < width g2.
Proof.
intros Hm Hp.
assert (Hm' := Hm).
destruct Hm' as ((Hk & _ & _) & T_m & ET & HT). destruct Hk as (k & Ek & Hk).
assert (Hpi := PI_RGT_0).
set (D := 2 * PI * k * (T_m - 298)).
assert (HD : 0 < D).
{ unfold D. apply Rmult_lt_0_compat; [| lra]. apply Rmult_lt_0_compat; lra. }
set (h1 := 0.9 * pt / 7500 * D / 1000).
set (h2 := pt / 7500 * D / 1000).
assert (HpD : 0 < pt * D) by (apply Rmult_lt_0_compat; assumption).
assert (Hh1 : 0 < h1) by (unfold h1; lra).
assert (Hh12 : h1 < h2) by (unfold h1, h2; lra).
destruct (geometry_of_material h1 m pt Hh1 Hm Hp)
  as (k1 & T1 & g1 & Ek1 & ET1 & _ & _ & Eg1 & _ & Hw1 & _ & Hp1).
destruct (geometry_of_material h2 m pt ltac:(lra) Hm Hp)
  as (k2 & T2 & g2 & Ek2 & ET2 & _ & _ & Eg2 & _ & Hw2 & _ & Hp2).
rewrite Ek in Ek1, Ek2. injection Ek1 as <-. injection Ek2 as <-.
rewrite ET in ET1, ET2. injection ET1 as <-. injection ET2 as <-.
fold D in Hw1, Hw2, Hp1, Hp2.
replace (h1 * 1000 / D) with (0.9 * pt / 7500) in Hw1, Hp1
  by (unfold h1; field; lra).
replace (h2 * 1000 / D) with (pt / 7500) in Hw2, Hp2
  by (unfold h2; field; lra).
rewrite raw_penetration_R, raw_width_R in Hp1, Hp2.
rewrite raw_width_R in Hw1, Hw2.
destruct (Rlt_dec (3 * (2.5 * (0.9 * pt / 7500) * 1000)) pt) as [_ | N];
  [| exfalso; apply N; lra].
destruct (Rlt_dec (3 * (2.5 * (pt / 7500) * 1000)) pt) as [Y | _];
  [exfalso; lra |].
rewrite Rmin_left in Hp2 by lra.
rewrite Rmin_left in Hw1 by lra. rewrite Rmin_left in Hw2 by lra.
exists h1, h2, g1, g2.
split; [lra |]. split; [exact Eg1 |]. split; [exact Eg2 |].
rewrite Hp1, Hp2, Hw1, Hw2. repeat split; lra.
Qed.

Lemma penetration_drops_witness :
  exists (h1 h2 : R) (g1 g2 : WeldPoolGeometry R),
    0 < h1 < h2 /\
    calculate_weld_pool_geometry h1 Steel 10 = Some g1 /\
    calculate_weld_pool_geometry h2 Steel 10 = Some g2 /\
    penetration g1 = 0.096 * 10 /\ penetration g2 = 0.08 * 10 /\
    penetration g2 < penetration g1 /\ width g1 < width g2.
Proof. apply penetration_drops; [apply valid_material_Steel | lra]. Defined.
End GeometryProperties.

(** ** Temperature field *)

Section FieldProperties.
Import MaterialProperties WeldingSimulator.
Local Open Scope R_scope.

(** The two statistics are computed from the returned matrix. *)
Lemma field_statistics {T : Type} `{Num T} `{Elementary T}
    (h : T) (m : gmap string T) (ts : T) (tf : TemperatureField T) :
  calculate_temperature_distribution h m ts = Some tf ->
  np_max (concat (temperature tf)) = Some (max_temp tf) /\
  np_min (concat (temperature tf)) = Some (min_temp tf).
Proof.
unfold calculate_temperature_distribution. intros E.
destruct (m !! "thermal_conductivity") as [k |]; [| discriminate E].
destruct (m !! "density") as [rho |]; [| discriminate E].
destruct (m !! "specific_heat_solid") as [cp |]; [| discriminate E].
cbn [mbind option_bind] in E.
destruct (pydiv k (mul rho cp)) as [alpha |]; [| discriminate E].
cbn [mbind option_bind] in E. unfold meshgrid in E.
destruct (mapM _ _) as [Tm |]; [| discriminate E].
cbn [mbind option_bind] in E.
destruct (np_max _) as [mx |] eqn:Emax; [| discriminate E].
cbn [mbind option_bind] in E.
destruct (np_min _) as [mn |] eqn:Emin; [| discriminate E].
cbn [mbind option_bind] in E.
injection E as <-. cbn [temperature max_temp min_temp].
split; assumption.
Qed.

Lemma foldl_max_spec (l : list R) (a : R) :
  foldl np_maximum a l ∈ a :: l /\
  forall t, t ∈ a :: l -> t <= foldl np_maximum a l.
Proof.
revert a. induction l as [| b l IH]; intros a.
- cbn. split; [apply list_elem_of_here |].
  intros t Ht. apply list_elem_of_singleton in Ht. lra.
- cbn [foldl]. destruct (IH (np_maximum a b)) as [Hin Hub]. split.
  + apply elem_of_cons in Hin as [E | Hin].
    * rewrite E, np_maximum_R. unfold Rmax.
      destruct (Rle_dec a b);
        [apply list_elem_of_further, list_elem_of_here | apply list_elem_of_here].
    * do 2 apply list_elem_of_further. exact Hin.
  + assert (Hab : a <= np_maximum a b /\ b <= np_maximum a b)
      by (rewrite np_maximum_R; split; [apply Rmax_l | apply Rmax_r]).
    assert (Htop := Hub _ (list_elem_of_here _ _)).
    intros t Ht. apply elem_of_cons in Ht as [-> | Ht]; [lra |].
    apply elem_of_cons in Ht as [-> | Ht]; [lra |].
    apply Hub. apply list_elem_of_further. exact Ht.
Qed.

Lemma foldl_min_spec (l : list R) (a : R) :
  foldl np_minimum a l ∈ a :: l /\
  forall t, t ∈ a :: l -> foldl np_minimum a l <= t.
Proof.
revert a. induction l as [| b l IH]; intros a.
- cbn. split; [apply list_elem_of_here |].
  intros t Ht. apply list_elem_of_singleton in Ht. lra.
- cbn [foldl]. destruct (IH (np_minimum a b)) as [Hin Hlb]. split.
  + apply elem_of_cons in Hin as [E | Hin].
    * rewrite E, np_minimum_R. unfold Rmin.
      destruct (Rle_dec a b);
        [apply list_elem_of_here | apply list_elem_of_further, list_elem_of_here].
    * do 2 apply list_elem_of_further. exact Hin.
  + assert (Hab : np_minimum a b <= a /\ np_minimum a b <= b)
      by (rewrite np_minimum_R; split; [apply Rmin_l | apply Rmin_r]).
    assert (Htop := Hlb _ (list_elem_of_here _ _)).
    intros t Ht. apply elem_of_cons in Ht as [-> | Ht]; [lra |].
    apply elem_of_cons in Ht as [-> | Ht]; [lra |].
    apply Hlb. apply list_elem_of_further. exact Ht.
Qed.

(** An element of the flattening is an entry of the matrix, and back. *)
Lemma elem_of_concat {A : Type} (M : list (list A)) (t : A) :
  t ∈ concat M <-> exists row, t ∈ row /\ row ∈ M.
Proof.
induction M as [| r M IH]; cbn [concat].
- split; [intros Ht; inversion Ht | intros (row & _ & Hrow); inversion Hrow].
- rewrite elem_of_app, IH. split.
  + intros [Ht | (row & Ht & Hrow)].
    * exists r. split; [exact Ht | apply list_elem_of_here].
    * exists row. split; [exact Ht | apply list_elem_of_further, Hrow].
  + intros (row & Ht & Hrow). apply elem_of_cons in Hrow as [-> | Hrow].
    * left. exact Ht.
    * right. exists row. split; assumption.
Qed.

Lemma entry_concat {A : Type} (M : list (list A)) (t : A) :
  t ∈ concat M <-> exists i j, entry M i j = Some t.
Proof.
unfold entry. rewrite elem_of_concat. split.
- intros (row & Ht & Hrow).
  apply list_elem_of_lookup in Hrow as [i Hi].
  apply list_elem_of_lookup in Ht as [j Hj].
  exists i, j. rewrite Hi. exact Hj.
- intros (i & j & Hij). destruct (M !! i) as [row |] eqn:Hi; [| discriminate].
  cbn in Hij. exists row. split.
  + eapply list_elem_of_lookup_2. exact Hij.
  + eapply list_elem_of_lookup_2. exact Hi.
Qed.

(** The returned field entry by entry: row [i] is y = i - 15 mm, column [j]
    is x = j - 20 mm. *)
Lemma field_entry (h : R) (m : gmap string R) (ts : R) :
  conductive_material m ->
  exists (k rho cp : R) (tf : TemperatureField R),
    m !! "thermal_conductivity" = Some k /\
    m !! "density" = Some rho /\
    m !! "specific_heat_solid" = Some cp /\
    0 < k /\ 0 < rho /\ 0 < cp /\
    calculate_temperature_distribution h m ts = Some tf /\
    (forall i j : nat, (i < 31)%nat -> (j < 61)%nat ->
       entry (temperature tf) i j
       = Some (Rmin (temperature_value (h * 1000) (ts / 1000)
                       (k / (rho * cp)) k 298
                       ((IZR (Z.of_nat j) - 20) / 1000)
                       ((IZR (Z.of_nat i) - 15) / 1000)) 3500)) /\
    (forall (i j : nat) (t : R),
       entry (temperature tf) i j = Some t -> (i < 31)%nat /\ (j < 61)%nat).
Proof.
intros Hm.
destruct (calculate_temperature_distribution_R h m ts Hm)
  as (k & rho & cp & tf & Ek & Er & Ec & Hk & Etf & Ex & Ey & ET).
destruct Hm as (_ & (rho' & Er' & Hr) & (cp' & Ec' & Hc)).
rewrite Er in Er'. injection Er' as <-. rewrite Ec in Ec'. injection Ec' as <-.
exists k, rho, cp, tf. repeat (split; [assumption |]). split.
- intros i j Hi Hj. rewrite ET.
  apply (entry_map_map
           (fun xv yv => Rmin (temperature_value (h * 1000) (ts / 1000)
                                 (k / (rho * cp)) k 298 (xv / 1000) (yv / 1000))
                              3500)).
  + rewrite Ey. apply y_grid_at. exact Hi.
  + rewrite Ex. apply x_grid_at. exact Hj.
- intros i j t Hij. unfold entry in Hij. rewrite ET in Hij.
  destruct (_ !! i) as [row |] eqn:Hrow; [| discriminate].
  cbn in Hij. assert (Hi := Hrow). apply lookup_lt_Some in Hi.
  rewrite length_map, Ey, linspace_length in Hi. split; [exact Hi |].
  rewrite lookup_map in Hrow.
  destruct (y tf !! i) as [yv |]; [| discriminate].
  injection Hrow as <-. apply lookup_lt_Some in Hij.
  rewrite length_map, Ex, linspace_length in Hij. exact Hij.
Qed.




(** The loop value does not see the sign of y. *)
Lemma temperature_value_mirror (q v alpha k x0 y0 : R) :
  0 < k ->
  temperature_value q v alpha k 298 x0 (- y0)
  = temperature_value q v alpha k 298 x0 y0.
Proof.
intros Hk. unfold temperature_value.
rewrite !temperature_at_R by exact Hk.
replace (x0 * x0 + - y0 * - y0) with (x0 * x0 + y0 * y0) by ring.
reflexivity.
Qed.

(** X18.  The field is symmetric about the weld centreline: rows i and
    30 - i (y and -y) hold the same temperatures, column by column. *)
Theorem field_symmetric (h : R) (m : gmap string R) (ts : R) :
  conductive_material m ->
  exists tf : TemperatureField R,
    calculate_temperature_distribution h m ts = Some tf /\
    forall i j : nat, (i <= 30)%nat -> (j < 61)%nat ->
      is_Some (entry (temperature tf) i j) /\
      entry (temperature tf) (30 - i) j = entry (temperature tf) i j.
Proof.
intros Hm.
destruct (field_entry h m ts Hm)
  as (k & rho & cp & tf & _ & _ & _ & Hk & _ & _ & Etf & Hent & _).
exists tf. split; [exact Etf |]. intros i j Hi Hj.
rewrite (Hent i j ltac:(lia) Hj), (Hent (30 - i)%nat j ltac:(lia) Hj).
split; [eexists; reflexivity |].
rewrite Nat2Z.inj_sub by exact Hi. rewrite minus_IZR.
change (IZR (Z.of_nat 30)) with 30.
replace ((30 - IZR (Z.of_nat i) - 15) / 1000)
  with (- ((IZR (Z.of_nat i) - 15) / 1000)) by lra.
rewrite temperature_value_mirror by exact Hk. reflexivity.
Qed.

Lemma field_symmetric_witness :
  exists tf : TemperatureField R,
    calculate_temperature_distribution 700 Steel 5 = Some tf /\
    forall i j : nat, (i <= 30)%nat -> (j < 61)%nat ->
      is_Some (entry (temperature tf) i j) /\
      entry (temperature tf) (30 - i) j = entry (temperature tf) i j.
Proof. apply field_symmetric. apply valid_material_Steel. Defined.

(** X19.  On the centreline a point ahead of the source (x = -d) is never
    hotter than the point at the same distance behind it (x = d): ahead the
    factor exp(-v (R - x) / (2 alpha)) is exp(-v d / alpha) <= 1, behind it
    is 1. *)
Theorem ahead_not_hotter (h : R) (m : gmap string R) (ts : R) (d : nat) :
  0 <= h -> 0 <= ts -> conductive_material m ->
  (1 <= d <= 20)%nat ->
  exists (tf : TemperatureField R) (t_ahead t_behind : R),
    calculate_temperature_distribution h m ts = Some tf /\
    entry (temperature tf) 15 (20 - d) = Some t_ahead /\
    entry (temperature tf) 15 (20 + d) = Some t_behind /\
    t_ahead <= t_behind.
Proof.
intros Hh Hts Hm Hd.
destruct (field_entry h m ts Hm)
  as (k & rho & cp & tf & _ & _ & _ & Hk & Hr & Hc & Etf & Hent & _).
eexists tf, _, _. split; [exact Etf |].
split; [apply Hent; lia |]. split; [apply Hent; lia |].
rewrite Nat2Z.inj_sub by lia. rewrite Nat2Z.inj_add, minus_IZR, plus_IZR.
change (IZR (Z.of_nat 20)) with 20. change (IZR (Z.of_nat 15)) with 15.
assert (Hd0 : 1 <= IZR (Z.of_nat d)).
{ apply (IZR_le 1). lia. }
set (r := IZR (Z.of_nat d) / 1000).
assert (Hr0 : 0 < r) by (unfold r; lra).
replace ((20 - IZR (Z.of_nat d) - 20) / 1000) with (- r) by (unfold r; lra).
replace ((20 + IZR (Z.of_nat d) - 20) / 1000) with r by (unfold r; lra).
replace ((15 - 15) / 1000) with 0 by lra.
rewrite (temperature_value_at_radius _ _ _ _ (- r) 0 r) by (lra || ring).
rewrite (temperature_value_at_radius _ _ _ _ r 0 r) by (lra || ring).
apply Rle_min_compat_r. apply Rplus_le_compat_l.
assert (Hpi := PI_RGT_0).
assert (Hden : 0 < 2 * PI * k * r).
{ apply Rmult_lt_0_compat; [| lra]. apply Rmult_lt_0_compat; lra. }
assert (Hq : 0 <= h * 1000 / (2 * PI * k * r)) by (apply div_le_lower; lra).
apply Rmult_le_compat_l; [exact Hq |].
replace (- (ts / 1000) * (r - r) / (2 * (k / (rho * cp)))) with 0
  by (unfold Rdiv; ring).
rewrite exp_0.
assert (Halpha : 0 < 2 * (k / (rho * cp))).
{ assert (0 < k / (rho * cp)); [| lra].
  apply div_lt_lower; [apply Rmult_lt_0_compat; lra | lra]. }
assert (Harg : - (ts / 1000) * (r - - r) / (2 * (k / (rho * cp))) <= 0).
{ apply div_le_upper; [exact Halpha |]. nra. }
destruct Harg as [Hlt | Heq].
- left. rewrite <- exp_0. apply exp_increasing. exact Hlt.
- rewrite Heq, exp_0. lra.
Qed.

Lemma ahead_not_hotter_witness :
  exists (tf : TemperatureField R) (t_ahead t_behind : R),
    calculate_temperature_distribution 700 Steel 5 = Some tf /\
    entry (temperature tf) 15 (20 - 3) = Some t_ahead /\
    entry (temperature tf) 15 (20 + 3) = Some t_behind /\
    t_ahead <= t_behind.
Proof.
apply ahead_not_hotter; [lra | lra | apply valid_material_Steel | lia].
Defined.

(** The loop value rises with the source strength q. *)
Lemma temperature_value_mono (q1 q2 v alpha k x0 y0 : R) :
  0 < k -> q1 <= q2 ->
  temperature_value q1 v alpha k 298 x0 y0
  <= temperature_value q2 v alpha k 298 x0 y0.
Proof.
intros Hk Hq. unfold temperature_value.
rewrite !temperature_at_R by exact Hk. cbn [default from_option id].
assert (Hpi := PI_RGT_0).
destruct (Rlt_dec 0 (sqrt (x0 * x0 + y0 * y0))) as [Hr | _].
- apply Rplus_le_compat_l.
  apply Rmult_le_compat_r; [left; apply exp_pos |].
  unfold Rdiv. apply Rmult_le_compat_r; [| exact Hq].
  left. apply Rinv_0_lt_compat.
  apply Rmult_lt_0_compat; [| exact Hr]. apply Rmult_lt_0_compat; lra.
- apply Rplus_le_compat_l.
  unfold Rdiv. apply Rmult_le_compat_r; [| exact Hq].
  left. apply Rinv_0_lt_compat.
  apply Rmult_lt_0_compat; [| lra]. apply Rmult_lt_0_compat; lra.
Qed.

(** X20.  With a heat input of 0 the field is returned (where
    [calculate_weld_pool_geometry] raises) and is the room temperature
    everywhere: every entry, max_temp and min_temp are 298. *)
Theorem field_zero_heat_input (m : gmap string R) (ts : R) :
  conductive_material m ->
  exists tf : TemperatureField R,
    calculate_temperature_distribution 0 m ts = Some tf /\
    (forall i j : nat, (i < 31)%nat -> (j < 61)%nat ->
       entry (temperature tf) i j = Some 298) /\
    max_temp tf = 298 /\ min_temp tf = 298.
Proof.
intros Hm.
destruct (field_entry 0 m ts Hm)
  as (k & rho & cp & tf & _ & _ & _ & Hk & _ & _ & Etf & Hent & Hdom).
destruct (field_statistics 0 m ts tf Etf) as [Emax Emin].
assert (Hroom : forall x0 y0,
          Rmin (temperature_value (0 * 1000) (ts / 1000) (k / (rho * cp)) k
                  298 x0 y0) 3500 = 298).
{ intros x0 y0. unfold temperature_value.
  rewrite temperature_at_R by exact Hk. cbn [default from_option id].
  destruct (Rlt_dec 0 (sqrt (x0 * x0 + y0 * y0))).
  - replace (298 + 0 * 1000 / (2 * PI * k * sqrt (x0 * x0 + y0 * y0))
                   * exp (- (ts / 1000) * (sqrt (x0 * x0 + y0 * y0) - x0)
                          / (2 * (k / (rho * cp)))))
      with 298 by (unfold Rdiv; ring).
    apply Rmin_left. lra.
  - replace (298 + 0 * 1000 / (4 * PI * k * 0.001)) with 298
      by (unfold Rdiv; ring).
    apply Rmin_left. lra. }
assert (Hall : forall t, t ∈ concat (temperature tf) -> t = 298).
{ intros t Ht. apply entry_concat in Ht as (i & j & Hij).
  destruct (Hdom i j t Hij) as [Hi Hj].
  rewrite (Hent i j Hi Hj), Hroom in Hij. injection Hij as <-. reflexivity. }
exists tf. split; [exact Etf |]. split.
- intros i j Hi Hj. rewrite (Hent i j Hi Hj), Hroom. reflexivity.
- destruct (concat (temperature tf)) as [| a l] eqn:Ec; [discriminate Emax |].
  cbn in Emax, Emin. injection Emax as Emax. injection Emin as Emin.
  destruct (foldl_max_spec l a) as [Hmax_in _].
  destruct (foldl_min_spec l a) as [Hmin_in _].
  rewrite Emax in Hmax_in. rewrite Emin in Hmin_in.
  split; apply Hall; assumption.
Qed.

Lemma field_zero_heat_input_witness :
  exists tf : TemperatureField R,
    calculate_temperature_distribution 0 Steel 5 = Some tf /\
    (forall i j : nat, (i < 31)%nat -> (j < 61)%nat ->
       entry (temperature tf) i j = Some 298) /\
    max_temp tf = 298 /\ min_temp tf = 298.
Proof. apply field_zero_heat_input. apply valid_material_Steel. Defined.

(** X21.  More heat never cools a point: for heat inputs h1 <= h2 (same
    conductive material, same travel speed) every entry of the field of h1
    is at most the same entry of the field of h2. *)
Theorem field_monotone (h1 h2 : R) (m : gmap string R) (ts : R) :
  h1 <= h2 -> conductive_material m ->
  exists tf1 tf2 : TemperatureField R,
    calculate_temperature_distribution h1 m ts = Some tf1 /\
    calculate_temperature_distribution h2 m ts = Some tf2 /\
    forall i j : nat, (i < 31)%nat -> (j < 61)%nat ->
      exists t1 t2 : R,
        entry (temperature tf1) i j = Some t1 /\
        entry (temperature tf2) i j = Some t2 /\ t1 <= t2.
Proof.
intros Hh Hm.
destruct (field_entry h1 m ts Hm)
  as (k & rho & cp & tf1 & Ek & Er & Ec & Hk & _ & _ & Etf1 & Hent1 & _).
destruct (field_entry h2 m ts Hm)
  as (k' & rho' & cp' & tf2 & Ek' & Er' & Ec' & _ & _ & _ & Etf2 & Hent2 & _).
rewrite Ek in Ek'. injection Ek' as <-. rewrite Er in Er'. injection Er' as <-.
rewrite Ec in Ec'. injection Ec' as <-.
exists tf1, tf2. split; [exact Etf1 |]. split; [exact Etf2 |].
intros i j Hi Hj. eexists _, _.
split; [apply Hent1; assumption |]. split; [apply Hent2; assumption |].
apply Rle_min_compat_r. apply temperature_value_mono; [exact Hk | lra].
Qed.

Lemma field_monotone_witness :
  exists tf1 tf2 : TemperatureField R,
    calculate_temperature_distribution 500 Steel 5 = Some tf1 /\
    calculate_temperature_distribution 700 Steel 5 = Some tf2 /\
    forall i j : nat, (i < 31)%nat -> (j < 61)%nat ->
      exists t1 t2 : R,
        entry (temperature tf1) i j = Some t1 /\
        entry (temperature tf2) i j = Some t2 /\ t1 <= t2.
Proof. apply field_monotone; [lra | apply valid_material_Steel]. Defined.

(** X22.  [calculate_temperature_distribution] raises when the material
    dict lacks thermal_conductivity, density or specific_heat_solid, and
    when density * specific_heat_solid = 0. *)
Theorem field_bad_material (h : R) (m : gmap string R) (ts : R) :
  m !! "thermal_conductivity" = None \/ m !! "density" = None \/
  m !! "specific_heat_solid" = None \/
  (exists rho cp : R, m !! "density" = Some rho /\
                      m !! "specific_heat_solid" = Some cp /\ rho * cp = 0) ->
  calculate_temperature_distribution h m ts = None.
Proof.
intros Hbad. unfold calculate_temperature_distribution.
destruct (m !! "thermal_conductivity") as [k |]; [| reflexivity].
destruct (m !! "density") as [rho |]; [| reflexivity].
destruct (m !! "specific_heat_solid") as [cp |]; [| reflexivity].
destruct Hbad as [E | [E | [E | (rho' & cp' & Er & Ec & Hz)]]];
  try discriminate E.
injection Er as <-. injection Ec as <-. cbn [mbind option_bind].
replace (mul rho cp) with 0 by (real_ops; lra).
rewrite pydiv_R_zero. reflexivity.
Qed.

Lemma field_bad_material_witness :
  calculate_temperature_distribution 700 (delete "density" Steel) 5 = None.
Proof. apply field_bad_material. right. left. apply lookup_delete_eq. Defined.

(** The function does not read liquidus_temp: Steel without that key still
    gives a field. *)
Lemma field_without_liquidus :
  exists tf : TemperatureField R,
    calculate_temperature_distribution 700 (delete "liquidus_temp" Steel) 5
    = Some tf.
Proof.
destruct (Steel_fields (T:=R)) as [_ (Ek & Er & Ec & _)].
destruct (calculate_temperature_distribution_R 700
            (delete "liquidus_temp" Steel) 5)
  as (k & rho & cp & tf & _ & _ & _ & _ & Etf & _).
- repeat split; eexists; (split; [rewrite lookup_delete_ne by discriminate;
                                  eassumption | real_ops; lra]).
- exists tf. exact Etf.
Qed.
End FieldProperties.

(** ** Sensitivity analysis *)

Section SensitivityProperties.
Import MaterialProperties WeldingSimulator.
Local Open Scope R_scope.

(** A record of the loop carries the name and the base value it was given. *)
Lemma sensitivity_entry_fields {T : Type} `{Num T}
    (I V v eta : T) (m : gmap string T) (pt : T) (g : WeldPoolGeometry T)
    (variation : T) (name : string) (bv : T) (r : SensitivityResult T) :
  sensitivity_entry I V v eta m pt g variation (name, bv) = Some r ->
  parameter r = name /\ base_value r = bv.
Proof.
unfold sensitivity_entry. intros E.
destruct (perturbed_heat_inputs _ _ _ _ _ _ _) as [[hh hl] |];
  [| discriminate E].
cbn [mbind option_bind] in E.
destruct (calculate_weld_pool_geometry hh m pt) as [gh |]; [| discriminate E].
cbn [mbind option_bind] in E.
destruct (calculate_weld_pool_geometry hl m pt) as [gl |]; [| discriminate E].
cbn [mbind option_bind] in E.
destruct (pydiv (sub (width gh) (width gl)) _) as [dw |]; [| discriminate E].
cbn [mbind option_bind] in E.
destruct (pydiv bv (width g)) as [rw |]; [| discriminate E].
cbn [mbind option_bind] in E.
destruct (pydiv (sub (penetration gh) (penetration gl)) _) as [dp |];
  [| discriminate E].
cbn [mbind option_bind] in E.
destruct (pydiv bv (penetration g)) as [rp |]; [| discriminate E].
cbn [mbind option_bind] in E.
injection E as <-. split; reflexivity.
Qed.

(** X23.  Whenever [sensitivity_analysis] returns, for any numbers (reals
    or binary64), the list has four records, named current, voltage,
    travel_speed and arc_efficiency in this order, and their base_value
    fields are the four base arguments in the same order. *)
Theorem sensitivity_shape {T : Type} `{Num T}
    (I V v eta : T) (m : gmap string T) (pt : T)
    (rs : list (SensitivityResult T)) :
  sensitivity_analysis I V v eta m pt = Some rs ->
  map parameter rs = ["current"; "voltage"; "travel_speed"; "arc_efficiency"]
  /\ map base_value rs = [I; V; v; eta].
Proof.
unfold sensitivity_analysis. intros E.
destruct (calculate_heat_input I V v eta) as [h |]; [| discriminate E].
cbn [mbind option_bind] in E.
destruct (calculate_weld_pool_geometry h m pt) as [g |]; [| discriminate E].
cbn [mbind option_bind mapM] in E.
destruct (sensitivity_entry _ _ _ _ _ _ _ _ ("current", I)) as [r1 |] eqn:E1;
  [| discriminate E].
cbn [mbind option_bind] in E.
destruct (sensitivity_entry _ _ _ _ _ _ _ _ ("voltage", V)) as [r2 |] eqn:E2;
  [| discriminate E].
cbn [mbind option_bind] in E.
destruct (sensitivity_entry _ _ _ _ _ _ _ _ ("travel_speed", v)) as [r3 |] eqn:E3;
  [| discriminate E].
cbn [mbind option_bind] in E.
destruct (sensitivity_entry _ _ _ _ _ _ _ _ ("arc_efficiency", eta))
  as [r4 |] eqn:E4; [| discriminate E].
cbn [mbind option_bind mret option_ret] in E. injection E as <-.
apply sensitivity_entry_fields in E1 as [N1 B1], E2 as [N2 B2],
  E3 as [N3 B3], E4 as [N4 B4].
cbn [map]. rewrite N1, N2, N3, N4, B1, B2, B3, B4. split; reflexivity.
Qed.

Lemma sensitivity_shape_witness :
  exists rs : list (SensitivityResult float),
    sensitivity_analysis 200%float 25%float 5%float 0.7%float Steel 10%float
      = Some rs /\
    map parameter rs = ["current"; "voltage"; "travel_speed"; "arc_efficiency"]
    /\ map base_value rs = [200%float; 25%float; 5%float; 0.7%float].
Proof.
destruct (sensitivity_analysis 200%float 25%float 5%float 0.7%float
            Steel 10%float) as [rs |] eqn:E.
- exists rs. split; [reflexivity |]. exact (sensitivity_shape _ _ _ _ _ _ _ E).
- vm_compute in E. discriminate E.
Defined.

(** The four pairs of perturbed heat inputs over the reals. *)
Lemma perturbed_current (I V v eta : R) :
  v <> 0 ->
  perturbed_heat_inputs "current" I 0.1 I V v eta
  = Some (eta * V * (I * (1 + 0.1)) * 60 / (v * 60),
          eta * V * (I * (1 - 0.1)) * 60 / (v * 60)).
Proof.
intros Hv. unfold perturbed_heat_inputs. cbn [String.eqb Ascii.eqb Bool.eqb].
rewrite !calculate_heat_input_R by exact Hv. real_ops. reflexivity.
Qed.

Lemma perturbed_voltage (I V v eta : R) :
  v <> 0 ->
  perturbed_heat_inputs "voltage" V 0.1 I V v eta
  = Some (eta * (V * (1 + 0.1)) * I * 60 / (v * 60),
          eta * (V * (1 - 0.1)) * I * 60 / (v * 60)).
Proof.
intros Hv. unfold perturbed_heat_inputs. cbn [String.eqb Ascii.eqb Bool.eqb].
rewrite !calculate_heat_input_R by exact Hv. real_ops. reflexivity.
Qed.

Lemma perturbed_travel_speed (I V v eta : R) :
  v <> 0 ->
  perturbed_heat_inputs "travel_speed" v 0.1 I V v eta
  = Some (eta * V * I * 60 / (v * (1 + 0.1) * 60),
          eta * V * I * 60 / (v * (1 - 0.1) * 60)).
Proof.
intros Hv. unfold perturbed_heat_inputs. cbn [String.eqb Ascii.eqb Bool.eqb].
rewrite !calculate_heat_input_R
  by (real_ops; intros E; apply Hv; nra).
real_ops. reflexivity.
Qed.

Lemma perturbed_arc_efficiency (I V v eta : R) :
  v <> 0 ->
  perturbed_heat_inputs "arc_efficiency" eta 0.1 I V v eta
  = Some (eta * (1 + 0.1) * V * I * 60 / (v * 60),
          eta * (1 - 0.1) * V * I * 60 / (v * 60)).
Proof.
intros Hv. unfold perturbed_heat_inputs. cbn [String.eqb Ascii.eqb Bool.eqb].
rewrite !calculate_heat_input_R by exact Hv. real_ops. reflexivity.
Qed.

(** One pass of the loop over the reals, on a valid input. *)
Lemma sensitivity_entry_R
    (I V v eta : R) (m : gmap string R) (pt : R) (g : WeldPoolGeometry R)
    (name : string) (bv hh hl : R) :
  valid_material m -> 0 < pt ->
  0 < width g -> 0 < penetration g -> 0 < bv -> 0 < hh -> 0 < hl ->
  perturbed_heat_inputs name bv 0.1 I V v eta = Some (hh, hl) ->
  exists (gh gl : WeldPoolGeometry R) (r : SensitivityResult R),
    calculate_weld_pool_geometry hh m pt = Some gh /\
    calculate_weld_pool_geometry hl m pt = Some gl /\
    sensitivity_entry I V v eta m pt g 0.1 (name, bv) = Some r /\
    parameter r = name /\ base_value r = bv /\
    width_sensitivity r
      = (width gh - width gl) / (2 * 0.1 * bv) * (bv / width g) /\
    penetration_sensitivity r
      = (penetration gh - penetration gl) / (2 * 0.1 * bv)
        * (bv / penetration g).
Proof.
intros Hm Hp Hw Hpen Hbv Hhh Hhl Eper.
destruct (calculate_weld_pool_geometry_R hh m pt Hhh Hm Hp)
  as (lh & _ & _ & Egh).
destruct (calculate_weld_pool_geometry_R hl m pt Hhl Hm Hp)
  as (ll & _ & _ & Egl).
eexists _, _, _. split; [exact Egh |]. split; [exact Egl |].
unfold sensitivity_entry. rewrite Eper. cbn [mbind option_bind].
rewrite Egh, Egl. cbn [mbind option_bind]. real_ops.
rewrite !pydiv_R by (apply Rgt_not_eq; lra). cbn [mbind option_bind].
split; [reflexivity |]. cbn. repeat split; reflexivity.
Qed.

(** The whole analysis over the reals, on positive arguments and a valid
    material, with h = eta V I / v: the pools at 1.1 h and 0.9 h serve
    current, voltage and arc_efficiency, the pools at h / 1.1 and h / 0.9
    serve travel_speed. *)
Lemma sensitivity_analysis_R (I V v eta : R) (m : gmap string R) (pt : R) :
  0 < I -> 0 < V -> 0 < v -> 0 < eta -> valid_material m -> 0 < pt ->
  let h := eta * V * I / v in
  exists (g gh gl sh sl : WeldPoolGeometry R)
         (r1 r2 r3 r4 : SensitivityResult R),
    calculate_weld_pool_geometry h m pt = Some g /\
    calculate_weld_pool_geometry (1.1 * h) m pt = Some gh /\
    calculate_weld_pool_geometry (0.9 * h) m pt = Some gl /\
    calculate_weld_pool_geometry (h / 1.1) m pt = Some sh /\
    calculate_weld_pool_geometry (h / 0.9) m pt = Some sl /\
    sensitivity_analysis I V v eta m pt = Some [r1; r2; r3; r4] /\
    0 < width g /\ 0 < penetration g /\
    (width_sensitivity r1
       = (width gh - width gl) / (2 * 0.1 * I) * (I / width g) /\
     width_sensitivity r2
       = (width gh - width gl) / (2 * 0.1 * V) * (V / width g) /\
     width_sensitivity r3
       = (width sh - width sl) / (2 * 0.1 * v) * (v / width g) /\
     width_sensitivity r4
       = (width gh - width gl) / (2 * 0.1 * eta) * (eta / width g)) /\
    (penetration_sensitivity r1
       = (penetration gh - penetration gl) / (2 * 0.1 * I)
         * (I / penetration g) /\
     penetration_sensitivity r2
       = (penetration gh - penetration gl) / (2 * 0.1 * V)
         * (V / penetration g) /\
     penetration_sensitivity r3
       = (penetration sh - penetration sl) / (2 * 0.1 * v)
         * (v / penetration g) /\
     penetration_sensitivity r4
       = (penetration gh - penetration gl) / (2 * 0.1 * eta)
         * (eta / penetration g)).
Proof.
intros HI HV Hv Heta Hm Hp h.
assert (HeV : 0 < eta * V) by (apply Rmult_lt_0_compat; assumption).
assert (HeVI : 0 < eta * V * I) by (apply Rmult_lt_0_compat; assumption).
assert (Hh : 0 < h) by (unfold h; apply div_lt_lower; lra).
assert (Hvne : v <> 0) by lra.
destruct (calculate_weld_pool_geometry_R h m pt Hh Hm Hp)
  as (l_c & _ & Hl & Eg).
match type of Eg with _ = Some ?x => set (g := x) in Eg end.
assert (Hwg : 0 < width g).
{ unfold g. cbn [width]. apply Rmin_glb_lt; [rewrite raw_width_R |]; lra. }
assert (Hpg : 0 < penetration g).
{ unfold g. cbn [penetration].
  assert (Hrp := raw_penetration_bounds l_c pt Hl Hp).
  apply Rmin_glb_lt; lra. }
assert (E1 : perturbed_heat_inputs "current" I 0.1 I V v eta
             = Some (1.1 * h, 0.9 * h)).
{ rewrite perturbed_current by exact Hvne.
  unfold h, Q2R; cbn [Qnum Qden]. f_equal; f_equal; field; lra. }
assert (E2 : perturbed_heat_inputs "voltage" V 0.1 I V v eta
             = Some (1.1 * h, 0.9 * h)).
{ rewrite perturbed_voltage by exact Hvne.
  unfold h, Q2R; cbn [Qnum Qden]. f_equal; f_equal; field; lra. }
assert (E3 : perturbed_heat_inputs "travel_speed" v 0.1 I V v eta
             = Some (h / 1.1, h / 0.9)).
{ rewrite perturbed_travel_speed by exact Hvne.
  unfold h, Q2R; cbn [Qnum Qden]. f_equal; f_equal; field; lra. }
assert (E4 : perturbed_heat_inputs "arc_efficiency" eta 0.1 I V v eta
             = Some (1.1 * h, 0.9 * h)).
{ rewrite perturbed_arc_efficiency by exact Hvne.
  unfold h, Q2R; cbn [Qnum Qden]. f_equal; f_equal; field; lra. }
assert (H11 : 0 < 1.1 * h) by lra. assert (H09 : 0 < 0.9 * h) by lra.
assert (Hs11 : 0 < h / 1.1) by (apply div_lt_lower; lra).
assert (Hs09 : 0 < h / 0.9) by (apply div_lt_lower; lra).
destruct (sensitivity_entry_R I V v eta m pt g "current" I _ _
            Hm Hp Hwg Hpg HI H11 H09 E1)
  as (gh & gl & r1 & Egh & Egl & Er1 & _ & _ & W1 & P1).
destruct (sensitivity_entry_R I V v eta m pt g "voltage" V _ _
            Hm Hp Hwg Hpg HV H11 H09 E2)
  as (gh2 & gl2 & r2 & Egh2 & Egl2 & Er2 & _ & _ & W2 & P2).
destruct (sensitivity_entry_R I V v eta m pt g "travel_speed" v _ _
            Hm Hp Hwg Hpg Hv Hs11 Hs09 E3)
  as (sh & sl & r3 & Esh & Esl & Er3 & _ & _ & W3 & P3).
destruct (sensitivity_entry_R I V v eta m pt g "arc_efficiency" eta _ _
            Hm Hp Hwg Hpg Heta H11 H09 E4)
  as (gh4 & gl4 & r4 & Egh4 & Egl4 & Er4 & _ & _ & W4 & P4).
rewrite Egh in Egh2, Egh4. injection Egh2 as <-. injection Egh4 as <-.
rewrite Egl in Egl2, Egl4. injection Egl2 as <-. injection Egl4 as <-.
exists g, gh, gl, sh, sl, r1, r2, r3, r4.
repeat (split; [assumption |]).
split.
- unfold sensitivity_analysis.
  rewrite calculate_heat_input_R by exact Hvne. cbn [mbind option_bind].
  replace (eta * V * I * 60 / (v * 60)) with h by (unfold h; field; lra).
  rewrite Eg. cbn [mbind option_bind mapM]. real_ops.
  rewrite Er1, Er2, Er3, Er4. reflexivity.
- split; [exact Hwg |]. split; [exact Hpg |]. tauto.
Qed.

(** The width of the pool at c times the heat input, through the raw width
    at the heat input itself. *)
Lemma width_scaled (c h : R) (m : gmap string R) (pt l_c : R)
    (gc : WeldPoolGeometry R) :
  0 < c -> 0 < h -> valid_material m -> 0 < pt ->
  pool_char_length h m = Some l_c ->
  calculate_weld_pool_geometry (c * h) m pt = Some gc ->
  width gc = Rmin (c * raw_width l_c) (pt * 2).
Proof.
intros Hc Hh Hm Hp El Egc.
assert (Hch : 0 < c * h) by (apply Rmult_lt_0_compat; assumption).
destruct (calculate_weld_pool_geometry_R (c * h) m pt Hch Hm Hp)
  as (l' & El' & _ & Eg').
rewrite Eg' in Egc. injection Egc as <-. cbn [width].
destruct Hm as ((Hk & _ & _) & T_m & ET & HT). destruct Hk as (k & Ek & Hk).
rewrite (pool_char_length_R h m k T_m Ek ET Hk HT) in El.
rewrite (pool_char_length_R (c * h) m k T_m Ek ET Hk HT) in El'.
injection El as <-. injection El' as <-.
rewrite !raw_width_R. f_equal.
assert (Hpi := PI_RGT_0).
assert (Hd : 0 < 2 * PI * k * (T_m - 298)).
{ apply Rmult_lt_0_compat; [| lra]. apply Rmult_lt_0_compat; lra. }
unfold Q2R; cbn [Qnum Qden]. field. lra.
Qed.

(** The five widths of the analysis, through the raw width X at the base
    heat input and the clamp P = 2 * plate_thickness. *)
Lemma sensitivity_widths (h : R) (m : gmap string R) (pt : R)
    (g gh gl sh sl : WeldPoolGeometry R) :
  0 < h -> valid_material m -> 0 < pt ->
  calculate_weld_pool_geometry h m pt = Some g ->
  calculate_weld_pool_geometry (1.1 * h) m pt = Some gh ->
  calculate_weld_pool_geometry (0.9 * h) m pt = Some gl ->
  calculate_weld_pool_geometry (h / 1.1) m pt = Some sh ->
  calculate_weld_pool_geometry (h / 0.9) m pt = Some sl ->
  exists X : R,
    0 < X /\
    width g = Rmin X (pt * 2) /\
    width gh = Rmin (1.1 * X) (pt * 2) /\
    width gl = Rmin (0.9 * X) (pt * 2) /\
    width sh = Rmin (X / 1.1) (pt * 2) /\
    width sl = Rmin (X / 0.9) (pt * 2).
Proof.
intros Hh Hm Hp Eg Egh Egl Esh Esl.
destruct (calculate_weld_pool_geometry_R h m pt Hh Hm Hp)
  as (l_c & El & Hl & Eg').
exists (raw_width l_c). split; [rewrite raw_width_R; lra |].
split; [rewrite Eg' in Eg; injection Eg as <-; reflexivity |].
split; [apply (width_scaled 1.1 h m pt l_c gh); try assumption; lra |].
split; [apply (width_scaled 0.9 h m pt l_c gl); try assumption; lra |].
replace (h / 1.1) with (/ 1.1 * h) in Esh by (unfold Rdiv; ring).
replace (h / 0.9) with (/ 0.9 * h) in Esl by (unfold Rdiv; ring).
replace (raw_width l_c / 1.1) with (/ 1.1 * raw_width l_c)
  by (unfold Rdiv; ring).
replace (raw_width l_c / 0.9) with (/ 0.9 * raw_width l_c)
  by (unfold Rdiv; ring).
split.
- apply (width_scaled (/ 1.1) h m pt l_c sh); try assumption.
  apply Rinv_0_lt_compat; lra.
- apply (width_scaled (/ 0.9) h m pt l_c sl); try assumption.
  apply Rinv_0_lt_compat; lra.
Qed.

Lemma Rmin_mono_l (a b p : R) : a <= b -> Rmin a p <= Rmin b p.
Proof. intros Hab. apply Rle_min_compat_r. exact Hab. Qed.

Lemma Rmin_lt_r (a p : R) : Rmin a p < p -> a < p.
Proof. unfold Rmin. destruct (Rle_dec a p); lra. Qed.

Lemma Rmin_eq_r (a p : R) : Rmin a p = p -> p <= a.
Proof. unfold Rmin. destruct (Rle_dec a p); lra. Qed.

(** X24.  On positive arguments and a valid material [sensitivity_analysis]
    returns four records; over the reals the records of current, voltage and
    arc_efficiency carry the same width and penetration sensitivities (the
    three scale the heat input alike), the width sensitivity of these three
    is never negative and that of travel_speed never positive. *)
Theorem sensitivity_signs (I V v eta : R) (m : gmap string R) (pt : R) :
  0 < I -> 0 < V -> 0 < v -> 0 < eta -> valid_material m -> 0 < pt ->
  exists r1 r2 r3 r4 : SensitivityResult R,
    sensitivity_analysis I V v eta m pt = Some [r1; r2; r3; r4] /\
    width_sensitivity r2 = width_sensitivity r1 /\
    width_sensitivity r4 = width_sensitivity r1 /\
    penetration_sensitivity r2 = penetration_sensitivity r1 /\
    penetration_sensitivity r4 = penetration_sensitivity r1 /\
    0 <= width_sensitivity r1 /\
    width_sensitivity r3 <= 0.
Proof.
intros HI HV Hv Heta Hm Hp.
destruct (sensitivity_analysis_R I V v eta m pt HI HV Hv Heta Hm Hp)
  as (g & gh & gl & sh & sl & r1 & r2 & r3 & r4 & Eg & Egh & Egl & Esh & Esl
      & Es & Hwg & Hpg & (W1 & W2 & W3 & W4) & (P1 & P2 & P3 & P4)).
assert (Hh : 0 < eta * V * I / v).
{ apply div_lt_lower; [lra |]. rewrite Rmult_0_l.
  repeat apply Rmult_lt_0_compat; assumption. }
destruct (sensitivity_widths _ m pt g gh gl sh sl Hh Hm Hp Eg Egh Egl Esh Esl)
  as (X & HX & _ & Wh & Wl & WSh & WSl).
exists r1, r2, r3, r4. split; [exact Es |].
rewrite W1, W2, W3, W4, P1, P2, P4.
assert (Hd : 0 <= width gh - width gl).
{ rewrite Wh, Wl.
  assert (Rmin (0.9 * X) (pt * 2) <= Rmin (1.1 * X) (pt * 2))
    by (apply Rmin_mono_l; lra).
  lra. }
assert (Hs : width sh - width sl <= 0).
{ rewrite WSh, WSl.
  assert (X / 1.1 <= X) by (apply div_le_upper; lra).
  assert (X <= X / 0.9) by (apply div_le_lower; lra).
  assert (Rmin (X / 1.1) (pt * 2) <= Rmin (X / 0.9) (pt * 2))
    by (apply Rmin_mono_l; lra).
  lra. }
split; [unfold Q2R; cbn [Qnum Qden]; field; lra |].
split; [unfold Q2R; cbn [Qnum Qden]; field; lra |].
split; [unfold Q2R; cbn [Qnum Qden]; field; lra |].
split; [unfold Q2R; cbn [Qnum Qden]; field; lra |].
split.
- replace ((width gh - width gl) / (2 * 0.1 * I) * (I / width g))
    with ((width gh - width gl) * (5 / width g))
    by (unfold Q2R; cbn [Qnum Qden]; field; lra).
  apply Rmult_le_pos; [exact Hd |]. apply Rlt_le, div_lt_lower; lra.
- replace ((width sh - width sl) / (2 * 0.1 * v) * (v / width g))
    with (- ((width sl - width sh) * (5 / width g)))
    by (unfold Q2R; cbn [Qnum Qden]; field; lra).
  assert (0 <= (width sl - width sh) * (5 / width g)).
  { apply Rmult_le_pos; [lra |]. apply Rlt_le, div_lt_lower; lra. }
  lra.
Qed.

Lemma sensitivity_signs_witness :
  exists r1 r2 r3 r4 : SensitivityResult R,
    sensitivity_analysis 200 25 5 0.7 Steel 10 = Some [r1; r2; r3; r4] /\
    width_sensitivity r2 = width_sensitivity r1 /\
    width_sensitivity r4 = width_sensitivity r1 /\
    penetration_sensitivity r2 = penetration_sensitivity r1 /\
    penetration_sensitivity r4 = penetration_sensitivity r1 /\
    0 <= width_sensitivity r1 /\
    width_sensitivity r3 <= 0.
Proof.
apply sensitivity_signs; try lra; apply valid_material_Steel.
Defined.

(** X25.  The width sensitivities in closed form, over the reals, with
    h = eta V I / v.  While the pool at 1.1 h is narrower than the clamp
    2 * plate_thickness, the width sensitivity of current is exactly 1; once
    the pool at 0.9 h has reached the clamp it is exactly 0.  While the pool
    at h / 0.9 is narrower than the clamp, the width sensitivity of
    travel_speed is exactly -100/99 (a central difference of 1 / v). *)
Theorem width_elasticity (I V v eta : R) (m : gmap string R) (pt : R) :
  0 < I -> 0 < V -> 0 < v -> 0 < eta -> valid_material m -> 0 < pt ->
  let h := eta * V * I / v in
  exists (gh gl sl : WeldPoolGeometry R) (r1 r2 r3 r4 : SensitivityResult R),
    calculate_weld_pool_geometry (1.1 * h) m pt = Some gh /\
    calculate_weld_pool_geometry (0.9 * h) m pt = Some gl /\
    calculate_weld_pool_geometry (h / 0.9) m pt = Some sl /\
    sensitivity_analysis I V v eta m pt = Some [r1; r2; r3; r4] /\
    (width gh < 2 * pt -> width_sensitivity r1 = 1) /\
    (width gl = 2 * pt -> width_sensitivity r1 = 0) /\
    (width sl < 2 * pt -> width_sensitivity r3 = - (100 / 99)).
Proof.
intros HI HV Hv Heta Hm Hp h.
destruct (sensitivity_analysis_R I V v eta m pt HI HV Hv Heta Hm Hp)
  as (g & gh & gl & sh & sl & r1 & r2 & r3 & r4 & Eg & Egh & Egl & Esh & Esl
      & Es & Hwg & Hpg & (W1 & W2 & W3 & W4) & _).
fold h in Eg, Egh, Egl, Esh, Esl.
assert (Hh : 0 < h).
{ apply div_lt_lower; [lra |]. rewrite Rmult_0_l.
  repeat apply Rmult_lt_0_compat; assumption. }
destruct (sensitivity_widths h m pt g gh gl sh sl Hh Hm Hp Eg Egh Egl Esh Esl)
  as (X & HX & Wg & Wh & Wl & WSh & WSl).
exists gh, gl, sl, r1, r2, r3, r4.
repeat (split; [assumption |]).
replace (2 * pt) with (pt * 2) by ring.
assert (H9 : X < X / 0.9).
{ apply div_lt_lower; lra. }
assert (H1 : X / 1.1 < X).
{ apply div_lt_upper; lra. }
split; [| split].
- intros Hlt. rewrite Wh in Hlt. apply Rmin_lt_r in Hlt.
  rewrite W1, Wg, Wh, Wl, !Rmin_left by lra.
  unfold Q2R; cbn [Qnum Qden]. field. lra.
- intros Heq. rewrite Wl in Heq. apply Rmin_eq_r in Heq.
  rewrite W1, Wh, Wl, !Rmin_right by lra.
  unfold Rminus. rewrite Rplus_opp_r. unfold Rdiv. rewrite !Rmult_0_l.
  reflexivity.
- intros Hlt. rewrite WSl in Hlt. apply Rmin_lt_r in Hlt.
  rewrite W3, Wg, WSh, WSl, !Rmin_left by lra.
  unfold Q2R; cbn [Qnum Qden]. field. lra.
Qed.

Lemma width_elasticity_witness :
  exists (gh gl sl : WeldPoolGeometry R) (r1 r2 r3 r4 : SensitivityResult R),
    calculate_weld_pool_geometry (1.1 * (0.7 * 25 * 200 / 5)) Steel 10
      = Some gh /\
    calculate_weld_pool_geometry (0.9 * (0.7 * 25 * 200 / 5)) Steel 10
      = Some gl /\
    calculate_weld_pool_geometry (0.7 * 25 * 200 / 5 / 0.9) Steel 10
      = Some sl /\
    sensitivity_analysis 200 25 5 0.7 Steel 10 = Some [r1; r2; r3; r4] /\
    (width gh < 2 * 10 -> width_sensitivity r1 = 1) /\
    (width gl = 2 * 10 -> width_sensitivity r1 = 0) /\
    (width sl < 2 * 10 -> width_sensitivity r3 = - (100 / 99)).
Proof.
apply (width_elasticity 200 25 5 0.7 Steel 10); try lra.
apply valid_material_Steel.
Defined.
End SensitivityProperties.

(** ** The series the plots draw *)

Section PlotProperties.
Import MaterialProperties WeldingSimulator WeldingVisualizer.
Local Open Scope R_scope.

(** X26.  The centreline that [plot_temperature_profile] draws is row 15 of
    the returned field, the row of y = 0, with one value per x.  Its value
    at the source (x = 0, the regularised branch) is never above the value
    1 mm behind it, and while that neighbour is below the 3500 K cap its
    excess over 298 K is exactly twice the excess at the source: the drawn
    peak is not at the source. *)
Theorem centerline_profile (h : R) (m : gmap string R) (ts : R) :
  0 <= h -> conductive_material m ->
  exists (tf : TemperatureField R) (row : list R) (t0 t1 : R),
    calculate_temperature_distribution h m ts = Some tf /\
    centerline_temp tf = Some row /\
    y tf !! 15%nat = Some 0 /\
    List.length row = List.length (x tf) /\
    (forall j : nat, row !! j = entry (temperature tf) 15 j) /\
    row !! 20%nat = Some t0 /\ row !! 21%nat = Some t1 /\
    t0 <= t1 /\
    (t1 < 3500 -> t1 - 298 = 2 * (t0 - 298)).
Proof.
intros Hh Hm.
destruct (calculate_temperature_distribution_R h m ts Hm)
  as (k & rho & cp & tf & Ek & Er & Ec & Hk & Etf & Ex & Ey & ET).
assert (Ey15 : y tf !! 15%nat = Some 0).
{ rewrite Ey, y_grid_at by lia. f_equal.
  change (IZR (Z.of_nat 15)) with 15. lra. }
assert (Erow : temperature tf !! 15%nat
  = Some (map (fun xv =>
                 Rmin (temperature_value (h * 1000) (ts / 1000)
                         (k / (rho * cp)) k 298 (xv / 1000) (0 / 1000)) 3500)
              (x tf))).
{ rewrite ET, lookup_map, Ey15. reflexivity. }
assert (Ex20 : x tf !! 20%nat = Some 0).
{ rewrite Ex, x_grid_at by lia. f_equal.
  change (IZR (Z.of_nat 20)) with 20. lra. }
assert (Ex21 : x tf !! 21%nat = Some 1).
{ rewrite Ex, x_grid_at by lia. f_equal.
  change (IZR (Z.of_nat 21)) with 21. lra. }
eexists tf, _, _, _. split; [exact Etf |].
split.
{ unfold centerline_temp. rewrite Ey, linspace_length.
  change (31 / 2)%nat with 15%nat. exact Erow. }
split; [exact Ey15 |].
split; [apply length_map |].
split.
{ intros j. unfold entry. rewrite Erow. reflexivity. }
split; [rewrite lookup_map, Ex20; reflexivity |].
split; [rewrite lookup_map, Ex21; reflexivity |].
replace (0 / 1000) with 0 by lra.
rewrite temperature_value_origin by exact Hk.
rewrite (temperature_value_axis _ _ _ _ (1 / 1000)) by lra.
assert (Hpi := PI_RGT_0).
assert (Hpk : 0 < PI * k) by (apply Rmult_lt_0_compat; lra).
assert (E0 : h * 1000 / (4 * PI * k * 0.001) = 250000 * h / (PI * k)).
{ unfold Q2R; cbn [Qnum Qden]. field. lra. }
assert (E1 : h * 1000 / (2 * PI * k * (1 / 1000)) = 500000 * h / (PI * k)).
{ field. lra. }
rewrite E0, E1.
assert (Hq : 0 <= h / (PI * k)) by (apply div_le_lower; lra).
replace (250000 * h / (PI * k)) with (250000 * (h / (PI * k)))
  by (field; lra).
replace (500000 * h / (PI * k)) with (500000 * (h / (PI * k)))
  by (field; lra).
split.
- apply Rle_min_compat_r. lra.
- intros Hlt. unfold Rmin in *.
  destruct (Rle_dec (298 + 500000 * (h / (PI * k))) 3500),
           (Rle_dec (298 + 250000 * (h / (PI * k))) 3500); lra.
Qed.

Lemma centerline_profile_witness :
  exists (tf : TemperatureField R) (row : list R) (t0 t1 : R),
    calculate_temperature_distribution 700 Steel 5 = Some tf /\
    centerline_temp tf = Some row /\
    y tf !! 15%nat = Some 0 /\
    List.length row = List.length (x tf) /\
    (forall j : nat, row !! j = entry (temperature tf) 15 j) /\
    row !! 20%nat = Some t0 /\ row !! 21%nat = Some t1 /\
    t0 <= t1 /\
    (t1 < 3500 -> t1 - 298 = 2 * (t0 - 298)).
Proof.
apply (centerline_profile 700 Steel 5); [lra |].
exact (proj1 valid_material_Steel).
Defined.

(** The points of the pool boundary: y_i = (2 i / 99 - 1) * width / 2. *)
Lemma pool_profile_y (g : WeldPoolGeometry R) (i : nat) :
  (i < 100)%nat ->
  fst (pool_profile g) !! i
  = Some ((2 * IZR (Z.of_nat i) / 99 - 1) * (width g / 2)).
Proof.
intros Hi. unfold pool_profile. cbn [fst]. real_ops.
rewrite linspace_lookup by exact Hi. f_equal.
change (Z.of_nat (100 - 1)) with 99%Z.
destruct (Nat.eqb (S i) 100) eqn:E.
- apply Nat.eqb_eq in E. assert (Ei : i = 99%nat) by lia. subst i.
  change (IZR (Z.of_nat 99)) with 99. field.
- field.
Qed.

Lemma pool_profile_x (g : WeldPoolGeometry R) (i : nat) :
  (i < 100)%nat -> 0 < width g ->
  snd (pool_profile g) !! i
  = Some (- penetration g
          * (1 - (2 * IZR (Z.of_nat i) / 99 - 1)
                 * (2 * IZR (Z.of_nat i) / 99 - 1))).
Proof.
intros Hi Hw. assert (Ey := pool_profile_y g i Hi).
unfold pool_profile in *. cbn [fst snd] in *.
rewrite lookup_map, Ey. cbn [fmap option_fmap option_map]. real_ops.
f_equal. field. lra.
Qed.

(** X27.  The boundary that [plot_weld_pool_cross_section] draws, for a pool
    of positive width and non-negative penetration: 100 points from
    y = -width/2 to y = width/2, depth 0 at both edges, symmetric about the
    middle, every depth within [-penetration (1 - 1/9801), 0].  With an even
    number of points none is at y = 0, so the drawn boundary never reaches
    the full penetration. *)
Theorem pool_profile_shape (g : WeldPoolGeometry R) :
  0 < width g -> 0 <= penetration g ->
  List.length (fst (pool_profile g)) = 100%nat /\
  List.length (snd (pool_profile g)) = 100%nat /\
  fst (pool_profile g) !! 0%nat = Some (- width g / 2) /\
  fst (pool_profile g) !! 99%nat = Some (width g / 2) /\
  snd (pool_profile g) !! 0%nat = Some 0 /\
  snd (pool_profile g) !! 99%nat = Some 0 /\
  (forall i : nat, (i < 100)%nat ->
     snd (pool_profile g) !! i = snd (pool_profile g) !! (99 - i)%nat) /\
  (forall (i : nat) (d : R), snd (pool_profile g) !! i = Some d ->
     - penetration g * (1 - 1 / 9801) <= d <= 0).
Proof.
intros Hw Hp.
split.
{ unfold pool_profile. cbn [fst]. apply linspace_length. }
split.
{ unfold pool_profile. cbn [snd]. rewrite length_map. apply linspace_length. }
split.
{ rewrite pool_profile_y by lia. f_equal.
  change (IZR (Z.of_nat 0)) with 0. field. }
split.
{ rewrite pool_profile_y by lia. f_equal.
  change (IZR (Z.of_nat 99)) with 99. field. }
split.
{ rewrite pool_profile_x by (lia || exact Hw). f_equal.
  change (IZR (Z.of_nat 0)) with 0. field. }
split.
{ rewrite pool_profile_x by (lia || exact Hw). f_equal.
  change (IZR (Z.of_nat 99)) with 99. field. }
split.
{ intros i Hi. rewrite !pool_profile_x by (lia || exact Hw). f_equal.
  rewrite Nat2Z.inj_sub by lia. rewrite minus_IZR.
  change (IZR (Z.of_nat 99)) with 99. field. }
intros i d Hd.
assert (Hi : (i < 100)%nat).
{ apply lookup_lt_Some in Hd. unfold pool_profile in Hd. cbn [snd] in Hd.
  rewrite length_map, linspace_length in Hd. exact Hd. }
rewrite pool_profile_x in Hd by assumption. injection Hd as <-.
set (t := 2 * IZR (Z.of_nat i) / 99 - 1).
assert (Hi0 : 0 <= IZR (Z.of_nat i)) by (apply (IZR_le 0); lia).
assert (Hi99 : IZR (Z.of_nat i) <= 99) by (apply (IZR_le _ 99); lia).
assert (Ht : -1 <= t <= 1) by (unfold t; lra).
assert (Hodd : t <= - (1 / 99) \/ 1 / 99 <= t).
{ destruct (Nat.le_gt_cases i 49) as [Hlo | Hhi].
  - left. assert (IZR (Z.of_nat i) <= 49) by (apply (IZR_le _ 49); lia).
    unfold t. lra.
  - right. assert (50 <= IZR (Z.of_nat i)) by (apply (IZR_le 50); lia).
    unfold t. lra. }
assert (Hsq1 : t * t <= 1) by nra.
assert (Hsq0 : 1 / 9801 <= t * t) by (destruct Hodd; nra).
split; nra.
Qed.

Lemma pool_profile_shape_witness :
  exists g : WeldPoolGeometry R,
    calculate_weld_pool_geometry 700 Steel 10 = Some g /\
    snd (pool_profile g) !! 0%nat = Some 0 /\
    (forall (i : nat) (d : R), snd (pool_profile g) !! i = Some d ->
       - penetration g * (1 - 1 / 9801) <= d <= 0).
Proof.
destruct (calculate_weld_pool_geometry_R 700 Steel 10 ltac:(lra)
            valid_material_Steel ltac:(lra)) as (l_c & _ & Hl & Eg).
eexists. split; [exact Eg |].
match goal with |- context [pool_profile ?g] =>
  assert (Hw : 0 < width g)
    by (cbn [width]; apply Rmin_glb_lt; [rewrite raw_width_R |]; lra);
  assert (Hp : 0 <= penetration g)
    by (cbn [penetration];
        assert (Hrp := raw_penetration_bounds l_c 10 Hl ltac:(lra));
        apply Rmin_glb; lra);
  destruct (pool_profile_shape g Hw Hp) as (_ & _ & _ & _ & H0 & _ & _ & Hall)
end.
split; [exact H0 | exact Hall].
Defined.




End PlotProperties.
